(** * tpo_monitor: TPO profile, VWAP, order flow and signal engine

    A shallow embedding of the four core components of the monitor
    ([tpo_analyzer.py], [vwap_calculator.py], [orderflow_analyzer.py],
    [signal_engine.py]) together with the parts of [models.py] and
    [utils.py] they call, followed by the properties of the specification.

    Conventions of the embedding:
    - a Python [float] is an exact rational ([Q]), so rounding errors, NaN
      and the infinities are left out; comparisons are the boolean
      comparisons of [Q], and [==] on floats is [Qeq_bool];
    - a Python [int] that is a timestamp or an index is a [Z];
    - a method that may raise returns a [result]; a method that mutates
      [self] takes the object and returns the new object, and where calls
      that follow a raising call matter (order flow, signal engine) it
      returns the object reached together with the [result];
    - a [while] loop is a [Fixpoint] on a fuel argument that returns
      [OutOfFuel] when the fuel runs out, and the callers pass a fuel that
      is proved sufficient;
    - a [dict] is an association list in insertion order, a bounded
      [deque] is a list whose oldest element is its head. *)

From Stdlib Require Import String Ascii.
From Stdlib Require Import ZArith QArith Qabs Qround List Sorted Bool Lia Lqa.
Import ListNotations.

Local Open Scope Q_scope.

(** ** Exceptions and results *)

Inductive exn : Type :=
| ZeroDivisionError
| ValueError
| TypeError
| IndexError
| OSError
| OverflowError.

Inductive result (A : Type) : Type :=
| Ok (a : A)
| Raise (e : exn)
| OutOfFuel.

Arguments Ok {A} a.
Arguments Raise {A} e.
Arguments OutOfFuel {A}.

Definition rbind {A B : Type} (r : result A) (k : A -> result B) : result B :=
  match r with
  | Ok a => k a
  | Raise e => Raise e
  | OutOfFuel => OutOfFuel
  end.

Notation "x <- r ;; k" := (rbind r (fun x => k))
  (at level 61, r at next level, right associativity).

(** ** Python arithmetic on floats read as rationals *)

Module Py.

Definition Qlt_bool (x y : Q) : bool := negb (Qle_bool y x).

(** [x / y]: raises [ZeroDivisionError] on a zero divisor. *)
Definition div (x y : Q) : result Q :=
  if Qeq_bool y 0 then Raise ZeroDivisionError else Ok (x / y).

Definition max (x y : Q) : Q := if Qlt_bool x y then y else x.
Definition min (x y : Q) : Q := if Qlt_bool y x then y else x.

(** [round(x)] with one argument: to the nearest integer, halves to the
    even neighbour. *)
Definition round (x : Q) : Z :=
  let f := Qfloor x in
  let d := x - inject_Z f in
  if Qlt_bool d (1 # 2) then f
  else if Qlt_bool (1 # 2) d then (f + 1)%Z
  else if Z.even f then f else (f + 1)%Z.

(** [sum(l)] starts from 0 and adds from the left. *)
Definition sum (l : list Q) : Q := fold_left Qplus l 0.

Definition len {A : Type} (l : list A) : Z := Z.of_nat (length l).

(** [l[i]] for a list: negative indices count from the end. *)
Definition index {A : Type} (l : list A) (i : Z) : result A :=
  let j := if (i <? 0)%Z then (len l + i)%Z else i in
  if ((0 <=? j) && (j <? len l))%Z
  then match nth_error l (Z.to_nat j) with
       | Some a => Ok a
       | None => Raise IndexError
       end
  else Raise IndexError.

(** [deque(maxlen=n).append(x)]: the oldest elements fall off the left. *)
Definition deque_append {A : Type} (maxlen : nat) (d : list A) (x : A) : list A :=
  let d' := d ++ [x] in
  skipn (length d' - maxlen) d'.

End Py.

(** ** utils.py *)

Module Utils.

Definition ms_per_day : Z := 86400000.

(** Day of the month (1..31) of the day that is [d] days after
    1970-01-01, proleptic Gregorian calendar, as [datetime] has it. *)
Definition day_of_month (d : Z) : Z :=
  let z := (d + 719468)%Z in
  let era := (z / 146097)%Z in
  let doe := (z - era * 146097)%Z in
  let yoe := ((doe - doe / 1460 + doe / 36524 - doe / 146096) / 365)%Z in
  let doy := (doe - (365 * yoe + yoe / 4 - yoe / 100))%Z in
  let mp := ((5 * doy + 2) / 153)%Z in
  (doy - (153 * mp + 2) / 5 + 1)%Z.

(** The timestamps, in milliseconds, of 0001-01-01T00:00:00.000 and of
    9999-12-31T23:59:59.999 UTC: the first and the last that a [datetime]
    holds. *)
Definition datetime_min_ms : Z := -62135596800000.
Definition datetime_max_ms : Z := 253402300799999.

(** Outside the years 1..9999 [fromtimestamp] fails in one of three ways,
    here as CPython does on Linux with a 64-bit [time_t]: [gmtime] holds
    the year in a C [int] for the timestamps from [gmtime_min_ms] to
    [gmtime_max_ms], and the seconds fit [time_t] from [time_t_min_ms] to
    [time_t_max_ms].  The bounds are in milliseconds and take in the
    rounding of the float [timestamp_ms / 1000]. *)
Definition gmtime_min_ms : Z := -67768040609740804000.
Definition gmtime_max_ms : Z := 67768036191676795999.
Definition time_t_min_ms : Z := -9223372036854776832000.
Definition time_t_max_ms : Z := 9223372036854776832000.

(** [ms_to_datetime(timestamp_ms)], that is
    [datetime.fromtimestamp(timestamp_ms / 1000, tz=timezone.utc)]; the
    [datetime] is held as its count of milliseconds.  [fromtimestamp]
    raises [OverflowError] when the seconds do not fit [time_t], [OSError]
    when [gmtime] fails on them, and [ValueError] when the year is not one
    of 1..9999. *)
Definition ms_to_datetime (timestamp_ms : Z) : result Z :=
  if ((timestamp_ms <? time_t_min_ms) || (time_t_max_ms <? timestamp_ms))%Z
  then Raise OverflowError
  else if ((timestamp_ms <? gmtime_min_ms) || (gmtime_max_ms <? timestamp_ms))%Z
  then Raise OSError
  else if ((timestamp_ms <? datetime_min_ms) || (datetime_max_ms <? timestamp_ms))%Z
  then Raise ValueError
  else Ok timestamp_ms.

(** [get_session_start(timestamp_ms, "HH:MM")], the session start time
    given as the pair (hour, minute); all times are UTC.
    [replace(hour=.., minute=..)] raises [ValueError] outside 0..23 and
    0..59, and [replace(day=day - 1)] raises it on the first of a month. *)
Definition get_session_start (timestamp_ms : Z) (session_start_time : Z * Z)
  : result Z :=
  let '(hour, minute) := session_start_time in
  dt <- ms_to_datetime timestamp_ms ;;
  let day := (dt / ms_per_day)%Z in
  let time_of_day := (dt mod ms_per_day)%Z in
  if negb ((0 <=? hour) && (hour <? 24) && (0 <=? minute) && (minute <? 60))%Z
  then Raise ValueError
  else
    let start_of_day := ((hour * 60 + minute) * 60000)%Z in
    if (time_of_day <? start_of_day)%Z then
      if (day_of_month day =? 1)%Z then Raise ValueError
      else Ok ((day - 1) * ms_per_day + start_of_day)%Z
    else Ok (day * ms_per_day + start_of_day)%Z.

Definition round_to_tick (price tick_size : Q) : result Q :=
  q <- Py.div price tick_size ;;
  Ok (inject_Z (Py.round q) * tick_size).

Definition calculate_percent_change (old_value new_value : Q) : Q :=
  if Qeq_bool old_value 0 then 0
  else ((new_value - old_value) / old_value) * 100.

Definition is_near (price1 price2 tolerance_percent : Q) : bool :=
  if Qeq_bool price2 0 then false
  else
    let diff_percent := Qabs ((price1 - price2) / price2) * 100 in
    Qle_bool diff_percent tolerance_percent.

(** [range(n)] as floats. *)
Definition range (n : nat) : list Q := map (fun i => inject_Z (Z.of_nat i)) (seq 0 n).

Definition calculate_slope (values : list Q) : Q :=
  if (length values <? 2)%nat then 0
  else
    let n := inject_Z (Py.len values) in
    let x := range (length values) in
    let y := values in
    let x_mean := Py.sum x / n in
    let y_mean := Py.sum y / n in
    let numerator :=
      Py.sum (map (fun xy => (fst xy - x_mean) * (snd xy - y_mean)) (combine x y)) in
    let denominator :=
      Py.sum (map (fun xi => (xi - x_mean) * (xi - x_mean)) x) in
    if Qeq_bool denominator 0 then 0
    else numerator / denominator.

End Utils.

(** ** dict, in insertion order *)

Module Dict.

Definition t (V : Type) : Type := list (Q * V).

Fixpoint get {V : Type} (m : t V) (k : Q) : option V :=
  match m with
  | [] => None
  | (k', v) :: m' => if Qeq_bool k' k then Some v else get m' k
  end.

(** [m[k] = v]: an existing key keeps its place, a new key goes last. *)
Fixpoint set {V : Type} (m : t V) (k : Q) (v : V) : t V :=
  match m with
  | [] => [(k, v)]
  | (k', v') :: m' =>
      if Qeq_bool k' k then (k', v) :: m' else (k', v') :: set m' k v
  end.

(** The value read by [m[k]] on a [defaultdict] whose factory gives
    [default].  (A read of a missing key also stores the default; every
    read below is followed by a [set] of the same key or reads a key
    taken from the map.) *)
Definition get_default {V : Type} (default : V) (m : t V) (k : Q) : V :=
  match get m k with
  | Some v => v
  | None => default
  end.

Definition keys {V : Type} (m : t V) : list Q := map fst m.
Definition values {V : Type} (m : t V) : list V := map snd m.

End Dict.

(** ** models.py *)

Module Models.

Inductive SignalType : Type :=
| LONG_ENTRY | SHORT_ENTRY | LONG_FAILURE | SHORT_FAILURE.

Inductive TPOStructureEvent : Type :=
| VAL_BOUNCE | VAL_BREAK | VAH_REJECTION | VAH_BREAKOUT
| POC_RECLAIM | POC_BREAKDOWN | INSIDE_VALUE_AREA | OUTSIDE_VALUE_AREA.

Inductive OrderFlowDirection : Type :=
| BULLISH | BEARISH | NEUTRAL.

Module Candle.
Record t : Type := {
  timestamp : Z;
  open : Q;
  high : Q;
  low : Q;
  close : Q;
  volume : Q
}.
End Candle.

Module Trade.
Record t : Type := {
  timestamp : Z;
  price : Q;
  quantity : Q;
  is_buyer_maker : bool
}.
Definition is_buy (self : t) : bool := negb (is_buyer_maker self).
Definition is_sell (self : t) : bool := is_buyer_maker self.
End Trade.

Module OrderBookLevel.
Record t : Type := {
  price : Q;
  quantity : Q
}.
End OrderBookLevel.

Module OrderBookSnapshot.
Record t : Type := {
  timestamp : Z;
  bids : list OrderBookLevel.t;
  asks : list OrderBookLevel.t
}.
End OrderBookSnapshot.

Module TPOProfile.
Record t : Type := {
  session_start : Z;
  session_end : Z;
  poc : Q;
  vah : Q;
  val : Q;
  price_levels : Dict.t Q;
  tpo_letters : Dict.t string;
  total_volume : Q;
  value_area_volume : Q
}.
Definition is_inside_value_area (self : t) (price : Q) : bool :=
  Qle_bool (val self) price && Qle_bool price (vah self).
Definition distance_to_poc (self : t) (price : Q) : Q :=
  Qabs (price - poc self).
End TPOProfile.

Module VWAPData.
Record t : Type := {
  timestamp : Z;
  vwap : Q;
  upper_1std : Q;
  lower_1std : Q;
  upper_2std : Q;
  lower_2std : Q;
  cumulative_vp : Q;
  cumulative_volume : Q;
  slope : Q
}.
(** [abs(price - self.vwap) / self.vwap < tolerance] *)
Definition is_pullback_zone (self : t) (price tolerance : Q) : result bool :=
  d <- Py.div (Qabs (price - vwap self)) (vwap self) ;;
  Ok (Py.Qlt_bool d tolerance).
End VWAPData.

Module OrderFlowMetrics.
Record t : Type := {
  timestamp : Z;
  delta : Q;
  cumulative_delta : Q;
  delta_trend : OrderFlowDirection;
  buy_volume : Q;
  sell_volume : Q;
  total_volume : Q;
  oi : Q;
  oi_change : Q;
  oi_change_percent : Q;
  bid_volume : Q;
  ask_volume : Q;
  imbalance_ratio : Q;
  absorption_detected : bool;
  absorption_price : option Q;
  absorption_volume : Q;
  consecutive_buy_bars : Z;
  consecutive_sell_bars : Z
}.
End OrderFlowMetrics.

Module SignalConditions.
Record t : Type := {
  tpo_event : option TPOStructureEvent;
  tpo_proximity : Q;
  vwap_aligned : bool;
  vwap_distance : Q;
  vwap_slope : Q;
  delta_confirmed : bool;
  cvd_confirmed : bool;
  oi_confirmed : bool;
  aggressive_flow : bool;
  absorption : bool;
  delta_flip : bool;
  cvd_divergence : bool
}.
(** [SignalConditions()] *)
Definition default : t := {|
  tpo_event := None;
  tpo_proximity := 0;
  vwap_aligned := false;
  vwap_distance := 0;
  vwap_slope := 0;
  delta_confirmed := false;
  cvd_confirmed := false;
  oi_confirmed := false;
  aggressive_flow := false;
  absorption := false;
  delta_flip := false;
  cvd_divergence := false
|}.
End SignalConditions.

Module SignalEvent.
Record t : Type := {
  timestamp : Z;
  symbol : string;
  signal_type : SignalType;
  price : Q;
  conditions : SignalConditions.t;
  confidence : Q;
  tpo_data : option TPOProfile.t;
  vwap_data : option VWAPData.t;
  orderflow_data : option OrderFlowMetrics.t;
  alerted : bool;
  alert_timestamp : option Z
}.
End SignalEvent.

End Models.

(** ** tpo_analyzer.py *)

Module TPOAnalyzer.
Import Models.

Record t : Type := {
  session_start_time : Z * Z;
  session_duration_hours : Z;
  time_slice_minutes : Q;
  value_area_percent : Q;
  proximity_ticks : Q;
  tick_size : Q;
  current_session_start : option Z;
  current_profile : option TPOProfile.t;
  previous_profile : option TPOProfile.t;
  price_volume_map : Dict.t Q;
  price_time_map : Dict.t (list ascii);
  current_letter_index : Z;
  last_slice_time : option Z;
  last_price : option Q
}.

(** [TPOAnalyzer(symbol, config)] *)
Definition init (session_start : Z * Z) (session_duration : Z)
    (time_slice value_area proximity : Q) : t := {|
  session_start_time := session_start;
  session_duration_hours := session_duration;
  time_slice_minutes := time_slice;
  value_area_percent := value_area;
  proximity_ticks := proximity;
  tick_size := 1 # 10;
  current_session_start := None;
  current_profile := None;
  previous_profile := None;
  price_volume_map := [];
  price_time_map := [];
  current_letter_index := 0;
  last_slice_time := None;
  last_price := None
|}.

(** The attributes that the methods assign. *)
Definition with_session (self : t) (start : option Z)
    (previous : option TPOProfile.t) : t := {|
  session_start_time := session_start_time self;
  session_duration_hours := session_duration_hours self;
  time_slice_minutes := time_slice_minutes self;
  value_area_percent := value_area_percent self;
  proximity_ticks := proximity_ticks self;
  tick_size := tick_size self;
  current_session_start := start;
  current_profile := current_profile self;
  previous_profile := previous;
  price_volume_map := [];
  price_time_map := [];
  current_letter_index := 0;
  last_slice_time := None;
  last_price := last_price self
|}.

Definition with_slice (self : t) (letter_index : Z) (slice_time : option Z) : t := {|
  session_start_time := session_start_time self;
  session_duration_hours := session_duration_hours self;
  time_slice_minutes := time_slice_minutes self;
  value_area_percent := value_area_percent self;
  proximity_ticks := proximity_ticks self;
  tick_size := tick_size self;
  current_session_start := current_session_start self;
  current_profile := current_profile self;
  previous_profile := previous_profile self;
  price_volume_map := price_volume_map self;
  price_time_map := price_time_map self;
  current_letter_index := letter_index;
  last_slice_time := slice_time;
  last_price := last_price self
|}.

Definition with_maps (self : t) (pvm : Dict.t Q) (ptm : Dict.t (list ascii)) : t := {|
  session_start_time := session_start_time self;
  session_duration_hours := session_duration_hours self;
  time_slice_minutes := time_slice_minutes self;
  value_area_percent := value_area_percent self;
  proximity_ticks := proximity_ticks self;
  tick_size := tick_size self;
  current_session_start := current_session_start self;
  current_profile := current_profile self;
  previous_profile := previous_profile self;
  price_volume_map := pvm;
  price_time_map := ptm;
  current_letter_index := current_letter_index self;
  last_slice_time := last_slice_time self;
  last_price := last_price self
|}.

Definition with_current_profile (self : t) (profile : option TPOProfile.t) : t := {|
  session_start_time := session_start_time self;
  session_duration_hours := session_duration_hours self;
  time_slice_minutes := time_slice_minutes self;
  value_area_percent := value_area_percent self;
  proximity_ticks := proximity_ticks self;
  tick_size := tick_size self;
  current_session_start := current_session_start self;
  current_profile := profile;
  previous_profile := previous_profile self;
  price_volume_map := price_volume_map self;
  price_time_map := price_time_map self;
  current_letter_index := current_letter_index self;
  last_slice_time := last_slice_time self;
  last_price := last_price self
|}.

Definition with_last_price (self : t) (price : option Q) : t := {|
  session_start_time := session_start_time self;
  session_duration_hours := session_duration_hours self;
  time_slice_minutes := time_slice_minutes self;
  value_area_percent := value_area_percent self;
  proximity_ticks := proximity_ticks self;
  tick_size := tick_size self;
  current_session_start := current_session_start self;
  current_profile := current_profile self;
  previous_profile := previous_profile self;
  price_volume_map := price_volume_map self;
  price_time_map := price_time_map self;
  current_letter_index := current_letter_index self;
  last_slice_time := last_slice_time self;
  last_price := price
|}.

(** [_start_new_session]: the current profile, when there is one, becomes
    the previous one; the maps, the letter index and the slice time are
    cleared. *)
Definition _start_new_session (self : t) (session_start : Z) : t :=
  with_session self (Some session_start)
    (match current_profile self with
     | Some p => Some p
     | None => previous_profile self
     end).

Definition _is_new_time_slice (self : t) (timestamp : Z) : bool :=
  match last_slice_time self with
  | None => true
  | Some last =>
      let time_diff_minutes := inject_Z (timestamp - last) / inject_Z (1000 * 60) in
      Qle_bool (time_slice_minutes self) time_diff_minutes
  end.

(** [chr(ord('A') + self.current_letter_index % 26)] *)
Definition letter_of (index : Z) : ascii :=
  ascii_of_nat (Z.to_nat (65 + index mod 26)).

(** The body of [while current_price <= candle.high] in
    [_add_price_volume].  The prices of the loop are stepped in exact
    arithmetic.  The float sum [current_price += tick_size] of the source
    can pass the high one step early where the range is a whole number of
    ticks (from 1000 to 1001 by 0.1 it visits ten prices, not eleven); the
    theorems on [_add_price_volume] and [update] further on are stated so
    as to hold for either number of steps. *)
Fixpoint distribute (fuel : nat) (candle : Candle.t) (letter : ascii)
    (price_range tick : Q) (pvm : Dict.t Q) (ptm : Dict.t (list ascii))
    (current_price : Q) : result (Dict.t Q * Dict.t (list ascii)) :=
  if negb (Qle_bool current_price (Candle.high candle)) then Ok (pvm, ptm)
  else
    match fuel with
    | O => OutOfFuel
    | S fuel' =>
        price_key <- Utils.round_to_tick current_price tick ;;
        ticks <- Py.div price_range tick ;;
        volume_at_price <- Py.div (Candle.volume candle) (ticks + 1) ;;
        let pvm' :=
          Dict.set pvm price_key (Dict.get_default 0 pvm price_key + volume_at_price) in
        let letters := Dict.get_default [] ptm price_key in
        let ptm' :=
          Dict.set ptm price_key
            (if existsb (Ascii.eqb letter) letters then letters
             else letters ++ [letter]) in
        distribute fuel' candle letter price_range tick pvm' ptm'
          (current_price + tick)
    end.

(** Iterations of the loop from [candle.low] up to [candle.high] in steps
    of a positive tick, plus the final test. *)
Definition distribute_fuel (price_range tick : Q) : nat :=
  S (Z.to_nat (Qfloor (price_range / tick))).

Definition _add_price_volume (self : t) (candle : Candle.t) : result t :=
  let tick := tick_size self in
  _ <- Utils.round_to_tick (Candle.open candle) tick ;;
  _ <- Utils.round_to_tick (Candle.high candle) tick ;;
  _ <- Utils.round_to_tick (Candle.low candle) tick ;;
  _ <- Utils.round_to_tick (Candle.close candle) tick ;;
  let letter := letter_of (current_letter_index self) in
  let pvm := price_volume_map self in
  let ptm := price_time_map self in
  let price_range := Candle.high candle - Candle.low candle in
  if Qeq_bool price_range 0 then
    let k := Candle.close candle in
    Ok (with_maps self
          (Dict.set pvm k (Dict.get_default 0 pvm k + Candle.volume candle))
          (Dict.set ptm k (Dict.get_default [] ptm k ++ [letter])))
  else
    maps <- distribute (distribute_fuel price_range tick) candle letter
              price_range tick pvm ptm (Candle.low candle) ;;
    Ok (with_maps self (fst maps) (snd maps)).

(** [max(items, key=lambda x: x[1])]: the first item, in the order of the
    dict, among those of greatest volume. *)
Fixpoint max_item (best : Q * Q) (items : list (Q * Q)) : Q * Q :=
  match items with
  | [] => best
  | item :: rest =>
      max_item (if Py.Qlt_bool (snd best) (snd item) then item else best) rest
  end.

(** [sorted(keys)]: a stable sort. *)
Fixpoint insert (x : Q) (l : list Q) : list Q :=
  match l with
  | [] => [x]
  | y :: l' => if Qle_bool x y then x :: l else y :: insert x l'
  end.

Definition sorted (l : list Q) : list Q := fold_right insert [] l.

(** [prices.index(x)] *)
Fixpoint list_index (l : list Q) (x : Q) : result Z :=
  match l with
  | [] => Raise ValueError
  | y :: l' =>
      if Qeq_bool y x then Ok 0%Z
      else i <- list_index l' x ;; Ok (i + 1)%Z
  end.

(** The variables of the value-area loop. *)
Record area : Type := {
  value_area_volume : Q;
  upper_price : Q;
  lower_price : Q;
  upper_index : Z;
  lower_index : Z
}.

(** [while value_area_volume < target_volume] in [_calculate_profile]. *)
Fixpoint expand (fuel : nat) (pvm : Dict.t Q) (prices : list Q)
    (target_volume : Q) (a : area) : result area :=
  if negb (Py.Qlt_bool (value_area_volume a) target_volume) then Ok a
  else
    match fuel with
    | O => OutOfFuel
    | S fuel' =>
        let can_go_up := (upper_index a + 1 <? Py.len prices)%Z in
        let can_go_down := (0 <=? lower_index a - 1)%Z in
        volume_above <-
          (if can_go_up
           then p <- Py.index prices (upper_index a + 1) ;;
                Ok (Dict.get_default 0 pvm p)
           else Ok 0) ;;
        volume_below <-
          (if can_go_down
           then p <- Py.index prices (lower_index a - 1) ;;
                Ok (Dict.get_default 0 pvm p)
           else Ok 0) ;;
        if Qle_bool volume_below volume_above && can_go_up then
          p <- Py.index prices (upper_index a + 1) ;;
          expand fuel' pvm prices target_volume {|
            value_area_volume := value_area_volume a + volume_above;
            upper_price := p;
            lower_price := lower_price a;
            upper_index := upper_index a + 1;
            lower_index := lower_index a
          |}
        else if can_go_down then
          p <- Py.index prices (lower_index a - 1) ;;
          expand fuel' pvm prices target_volume {|
            value_area_volume := value_area_volume a + volume_below;
            upper_price := upper_price a;
            lower_price := p;
            upper_index := upper_index a;
            lower_index := lower_index a - 1
          |}
        else Ok a
    end.

Definition _calculate_profile (self : t) : result t :=
  let pvm := price_volume_map self in
  match pvm with
  | [] => Ok self
  | first :: rest =>
      let poc_price := fst (max_item first rest) in
      let poc_volume := Dict.get_default 0 pvm poc_price in
      let total_volume := Py.sum (Dict.values pvm) in
      let target_volume := total_volume * (value_area_percent self / 100) in
      let prices := sorted (Dict.keys pvm) in
      poc_index <- list_index prices poc_price ;;
      a <- expand (length prices) pvm prices target_volume {|
             value_area_volume := poc_volume;
             upper_price := poc_price;
             lower_price := poc_price;
             upper_index := poc_index;
             lower_index := poc_index
           |} ;;
      match current_session_start self with
      | None => Raise TypeError
      | Some start =>
          Ok (with_current_profile self (Some {|
            TPOProfile.session_start := start;
            TPOProfile.session_end :=
              (start + session_duration_hours self * 3600 * 1000)%Z;
            TPOProfile.poc := poc_price;
            TPOProfile.vah := upper_price a;
            TPOProfile.val := lower_price a;
            TPOProfile.price_levels := pvm;
            TPOProfile.tpo_letters :=
              map (fun pl => (fst pl, string_of_list_ascii (snd pl)))
                (price_time_map self);
            TPOProfile.total_volume := total_volume;
            TPOProfile.value_area_volume := value_area_volume a
          |}))
      end
  end.

(** One of the three level checks of [_detect_structure_event]: near the
    level, crossing it upwards gives [up], downwards gives [down].  (The
    source tests the two crossings in either order; they exclude each
    other.) *)
Definition crossing (last_price current_price level proximity : Q)
    (up down : TPOStructureEvent) : option TPOStructureEvent :=
  if Utils.is_near current_price level proximity then
    if Py.Qlt_bool last_price level && Qle_bool level current_price then Some up
    else if Py.Qlt_bool level last_price && Qle_bool current_price level then Some down
    else None
  else None.

Definition _detect_structure_event (self : t) (current_price : Q)
  : option TPOStructureEvent :=
  match current_profile self, last_price self with
  | Some profile, Some last =>
      let proximity := proximity_ticks self * tick_size self in
      match crossing last current_price (TPOProfile.vah profile) proximity
              VAH_BREAKOUT VAH_REJECTION with
      | Some e => Some e
      | None =>
      match crossing last current_price (TPOProfile.val profile) proximity
              VAL_BOUNCE VAL_BREAK with
      | Some e => Some e
      | None =>
      match crossing last current_price (TPOProfile.poc profile) proximity
              POC_RECLAIM POC_BREAKDOWN with
      | Some e => Some e
      | None =>
          let was_inside := TPOProfile.is_inside_value_area profile last in
          let is_inside := TPOProfile.is_inside_value_area profile current_price in
          if negb was_inside && is_inside then Some INSIDE_VALUE_AREA
          else if was_inside && negb is_inside then Some OUTSIDE_VALUE_AREA
          else None
      end end end
  | _, _ => None
  end.

Definition update (self : t) (candle : Candle.t)
  : result (t * option TPOStructureEvent) :=
  session_start <-
    Utils.get_session_start (Candle.timestamp candle) (session_start_time self) ;;
  let self1 :=
    match current_session_start self with
    | None => _start_new_session self session_start
    | Some current =>
        if negb (session_start =? current)%Z
        then _start_new_session self session_start
        else self
    end in
  let self2 :=
    if _is_new_time_slice self1 (Candle.timestamp candle)
    then with_slice self1 (current_letter_index self1 + 1)
           (Some (Candle.timestamp candle))
    else self1 in
  self3 <- _add_price_volume self2 candle ;;
  self4 <- _calculate_profile self3 ;;
  let event := _detect_structure_event self4 (Candle.close candle) in
  Ok (with_last_price self4 (Some (Candle.close candle)), event).

End TPOAnalyzer.

(** ** vwap_calculator.py *)

Module VWAPCalculator.
Import Models.

Section WithSquareRoot.

(** [x ** 0.5] on a non-negative float; it only feeds the bands. *)
Variable pow_half : Q -> Q.

Record t : Type := {
session_reset_time : Z * Z;
slope_lookback : nat;
slope_threshold : Q;
pullback_tolerance : Q;
pullback_confirmation_bars : Z;
current_session_start : option Z;
cumulative_pv : Q;
cumulative_volume : Q;
cumulative_pv2 : Q;
current_vwap : option VWAPData.t;
vwap_history : list Q;
consecutive_pullback_bars : Z;
consecutive_rejection_bars : Z
}.

(** [VWAPCalculator(symbol, config)] *)
Definition init (session_reset : Z * Z) (lookback : nat)
  (threshold tolerance : Q) (confirmation_bars : Z) : t := {|
session_reset_time := session_reset;
slope_lookback := lookback;
slope_threshold := threshold;
pullback_tolerance := tolerance;
pullback_confirmation_bars := confirmation_bars;
current_session_start := None;
cumulative_pv := 0;
cumulative_volume := 0;
cumulative_pv2 := 0;
current_vwap := None;
vwap_history := [];
consecutive_pullback_bars := 0;
consecutive_rejection_bars := 0
|}.

Definition _reset_session (self : t) (session_start : Z) : t := {|
session_reset_time := session_reset_time self;
slope_lookback := slope_lookback self;
slope_threshold := slope_threshold self;
pullback_tolerance := pullback_tolerance self;
pullback_confirmation_bars := pullback_confirmation_bars self;
current_session_start := Some session_start;
cumulative_pv := 0;
cumulative_volume := 0;
cumulative_pv2 := 0;
current_vwap := current_vwap self;
vwap_history := [];
consecutive_pullback_bars := 0;
consecutive_rejection_bars := 0
|}.

(** The assignments of [update] to the sums, the snapshot and the
  history. *)
Definition with_bar (self : t) (pv volume pv2 : Q) (data : VWAPData.t)
  (history : list Q) : t := {|
session_reset_time := session_reset_time self;
slope_lookback := slope_lookback self;
slope_threshold := slope_threshold self;
pullback_tolerance := pullback_tolerance self;
pullback_confirmation_bars := pullback_confirmation_bars self;
current_session_start := current_session_start self;
cumulative_pv := pv;
cumulative_volume := volume;
cumulative_pv2 := pv2;
current_vwap := Some data;
vwap_history := history;
consecutive_pullback_bars := consecutive_pullback_bars self;
consecutive_rejection_bars := consecutive_rejection_bars self
|}.

Definition with_counters (self : t) (pullback rejection : Z) : t := {|
session_reset_time := session_reset_time self;
slope_lookback := slope_lookback self;
slope_threshold := slope_threshold self;
pullback_tolerance := pullback_tolerance self;
pullback_confirmation_bars := pullback_confirmation_bars self;
current_session_start := current_session_start self;
cumulative_pv := cumulative_pv self;
cumulative_volume := cumulative_volume self;
cumulative_pv2 := cumulative_pv2 self;
current_vwap := current_vwap self;
vwap_history := vwap_history self;
consecutive_pullback_bars := pullback;
consecutive_rejection_bars := rejection
|}.

Definition _calculate_slope (self : t) : Q :=
if (length (vwap_history self) <? 2)%nat then 0
else Utils.calculate_slope (vwap_history self).

(** [abs(price - reference) / reference * 100] *)
Definition percent_distance (price reference : Q) : result Q :=
d <- Py.div (Qabs (price - reference)) reference ;;
Ok (d * 100).

Definition is_pullback (self : t) (price : Q) (tolerance : option Q)
: result bool :=
match current_vwap self with
| None => Ok false
| Some data =>
    let tolerance :=
      match tolerance with
      | None => pullback_tolerance self
      | Some given => given
      end in
    d <- percent_distance price (VWAPData.vwap data) ;;
    Ok (Qle_bool d tolerance)
end.

Definition is_rejection (self : t) (price : Q) : result bool :=
match current_vwap self with
| None => Ok false
| Some data =>
    if (length (vwap_history self) <? 2)%nat then Ok false
    else
      previous_vwap <- Py.index (vwap_history self) (-2) ;;
      d_previous <- percent_distance price previous_vwap ;;
      let was_near := Qle_bool d_previous (pullback_tolerance self) in
      d_current <- percent_distance price (VWAPData.vwap data) ;;
      let is_moving_away := Py.Qlt_bool (pullback_tolerance self) d_current in
      Ok (was_near && is_moving_away)
end.

Definition _update_pullback_tracking (self : t) (price : Q) : result t :=
match current_vwap self with
| None => Ok self
| Some _ =>
    pullback <- is_pullback self price None ;;
    if pullback then
      Ok (with_counters self (consecutive_pullback_bars self + 1) 0)
    else
      rejection <- is_rejection self price ;;
      if rejection then
        Ok (with_counters self 0 (consecutive_rejection_bars self + 1))
      else Ok (with_counters self 0 0)
end.

Definition update (self : t) (candle : Candle.t) : result (t * VWAPData.t) :=
session_start <-
  Utils.get_session_start (Candle.timestamp candle) (session_reset_time self) ;;
let self1 :=
  match current_session_start self with
  | None => _reset_session self session_start
  | Some current =>
      if negb (session_start =? current)%Z
      then _reset_session self session_start
      else self
  end in
let typical_price :=
  (Candle.high candle + Candle.low candle + Candle.close candle) / 3 in
let pv := typical_price * Candle.volume candle in
let cumulative_pv' := cumulative_pv self1 + pv in
let cumulative_volume' := cumulative_volume self1 + Candle.volume candle in
let cumulative_pv2' :=
  cumulative_pv2 self1 + (typical_price * typical_price) * Candle.volume candle in
let vwap :=
  if Qeq_bool cumulative_volume' 0 then typical_price
  else cumulative_pv' / cumulative_volume' in
let variance :=
  if Qeq_bool cumulative_volume' 0 then 0
  else cumulative_pv2' / cumulative_volume' - vwap * vwap in
let std_dev := pow_half (Py.max 0 variance) in
let data := {|
  VWAPData.timestamp := Candle.timestamp candle;
  VWAPData.vwap := vwap;
  VWAPData.upper_1std := vwap + std_dev;
  VWAPData.lower_1std := vwap - std_dev;
  VWAPData.upper_2std := vwap + 2 * std_dev;
  VWAPData.lower_2std := vwap - 2 * std_dev;
  VWAPData.cumulative_vp := cumulative_pv';
  VWAPData.cumulative_volume := cumulative_volume';
  VWAPData.slope := _calculate_slope self1
|} in
let self2 :=
  with_bar self1 cumulative_pv' cumulative_volume' cumulative_pv2' data
    (Py.deque_append (slope_lookback self1) (vwap_history self1) vwap) in
self3 <- _update_pullback_tracking self2 (Candle.close candle) ;;
Ok (self3, data).

Definition is_pullback_confirmed (self : t) : bool :=
(pullback_confirmation_bars self <=? consecutive_pullback_bars self)%Z.

Definition is_rejection_confirmed (self : t) : bool :=
(pullback_confirmation_bars self <=? consecutive_rejection_bars self)%Z.

End WithSquareRoot.

End VWAPCalculator.

(** ** orderflow_analyzer.py *)

Module OrderFlowAnalyzer.
Import Models.

Record t : Type := {
  delta_threshold : Q;
  consecutive_bars_required : Z;
  cvd_trend_lookback : Z;
  oi_significant_change : Q;
  imbalance_ratio_threshold : Q;
  absorption_volume_multiplier : Q;
  absorption_price_tolerance : Q;
  absorption_lookback : nat;
  current_delta : Q;
  cumulative_delta : Q;
  buy_volume_current : Q;
  sell_volume_current : Q;
  delta_history : list Q;
  cvd_history : list Q;
  volume_history : list Q;
  price_history : list Q;
  current_oi : Q;
  previous_oi : Q;
  current_imbalance_ratio : Q;
  consecutive_buy_bars : Z;
  consecutive_sell_bars : Z;
  cvd_trend : OrderFlowDirection;
  absorption_detected : bool;
  absorption_price : option Q;
  absorption_volume : Q
}.

(** [OrderFlowAnalyzer(symbol, config)], the eight settings in the order
    of the fields. *)
Definition init (delta_thr : Q) (bars_required trend_lookback : Z)
    (oi_change imbalance_thr volume_mult price_tol : Q) (lookback : nat) : t := {|
  delta_threshold := delta_thr;
  consecutive_bars_required := bars_required;
  cvd_trend_lookback := trend_lookback;
  oi_significant_change := oi_change;
  imbalance_ratio_threshold := imbalance_thr;
  absorption_volume_multiplier := volume_mult;
  absorption_price_tolerance := price_tol;
  absorption_lookback := lookback;
  current_delta := 0;
  cumulative_delta := 0;
  buy_volume_current := 0;
  sell_volume_current := 0;
  delta_history := [];
  cvd_history := [];
  volume_history := [];
  price_history := [];
  current_oi := 0;
  previous_oi := 0;
  current_imbalance_ratio := 0;
  consecutive_buy_bars := 0;
  consecutive_sell_bars := 0;
  cvd_trend := NEUTRAL;
  absorption_detected := false;
  absorption_price := None;
  absorption_volume := 0
|}.

(** The attributes assigned together by one method. *)
Definition with_bar_volumes (self : t) (delta buy sell : Q) : t := {|
  delta_threshold := delta_threshold self;
  consecutive_bars_required := consecutive_bars_required self;
  cvd_trend_lookback := cvd_trend_lookback self;
  oi_significant_change := oi_significant_change self;
  imbalance_ratio_threshold := imbalance_ratio_threshold self;
  absorption_volume_multiplier := absorption_volume_multiplier self;
  absorption_price_tolerance := absorption_price_tolerance self;
  absorption_lookback := absorption_lookback self;
  current_delta := delta;
  cumulative_delta := cumulative_delta self;
  buy_volume_current := buy;
  sell_volume_current := sell;
  delta_history := delta_history self;
  cvd_history := cvd_history self;
  volume_history := volume_history self;
  price_history := price_history self;
  current_oi := current_oi self;
  previous_oi := previous_oi self;
  current_imbalance_ratio := current_imbalance_ratio self;
  consecutive_buy_bars := consecutive_buy_bars self;
  consecutive_sell_bars := consecutive_sell_bars self;
  cvd_trend := cvd_trend self;
  absorption_detected := absorption_detected self;
  absorption_price := absorption_price self;
  absorption_volume := absorption_volume self
|}.

Definition with_imbalance (self : t) (ratio : Q) : t := {|
  delta_threshold := delta_threshold self;
  consecutive_bars_required := consecutive_bars_required self;
  cvd_trend_lookback := cvd_trend_lookback self;
  oi_significant_change := oi_significant_change self;
  imbalance_ratio_threshold := imbalance_ratio_threshold self;
  absorption_volume_multiplier := absorption_volume_multiplier self;
  absorption_price_tolerance := absorption_price_tolerance self;
  absorption_lookback := absorption_lookback self;
  current_delta := current_delta self;
  cumulative_delta := cumulative_delta self;
  buy_volume_current := buy_volume_current self;
  sell_volume_current := sell_volume_current self;
  delta_history := delta_history self;
  cvd_history := cvd_history self;
  volume_history := volume_history self;
  price_history := price_history self;
  current_oi := current_oi self;
  previous_oi := previous_oi self;
  current_imbalance_ratio := ratio;
  consecutive_buy_bars := consecutive_buy_bars self;
  consecutive_sell_bars := consecutive_sell_bars self;
  cvd_trend := cvd_trend self;
  absorption_detected := absorption_detected self;
  absorption_price := absorption_price self;
  absorption_volume := absorption_volume self
|}.

Definition with_oi (self : t) (current previous : Q) : t := {|
  delta_threshold := delta_threshold self;
  consecutive_bars_required := consecutive_bars_required self;
  cvd_trend_lookback := cvd_trend_lookback self;
  oi_significant_change := oi_significant_change self;
  imbalance_ratio_threshold := imbalance_ratio_threshold self;
  absorption_volume_multiplier := absorption_volume_multiplier self;
  absorption_price_tolerance := absorption_price_tolerance self;
  absorption_lookback := absorption_lookback self;
  current_delta := current_delta self;
  cumulative_delta := cumulative_delta self;
  buy_volume_current := buy_volume_current self;
  sell_volume_current := sell_volume_current self;
  delta_history := delta_history self;
  cvd_history := cvd_history self;
  volume_history := volume_history self;
  price_history := price_history self;
  current_oi := current;
  previous_oi := previous;
  current_imbalance_ratio := current_imbalance_ratio self;
  consecutive_buy_bars := consecutive_buy_bars self;
  consecutive_sell_bars := consecutive_sell_bars self;
  cvd_trend := cvd_trend self;
  absorption_detected := absorption_detected self;
  absorption_price := absorption_price self;
  absorption_volume := absorption_volume self
|}.

Definition with_histories (self : t) (cvd : Q)
    (deltas cvds volumes prices : list Q) : t := {|
  delta_threshold := delta_threshold self;
  consecutive_bars_required := consecutive_bars_required self;
  cvd_trend_lookback := cvd_trend_lookback self;
  oi_significant_change := oi_significant_change self;
  imbalance_ratio_threshold := imbalance_ratio_threshold self;
  absorption_volume_multiplier := absorption_volume_multiplier self;
  absorption_price_tolerance := absorption_price_tolerance self;
  absorption_lookback := absorption_lookback self;
  current_delta := current_delta self;
  cumulative_delta := cvd;
  buy_volume_current := buy_volume_current self;
  sell_volume_current := sell_volume_current self;
  delta_history := deltas;
  cvd_history := cvds;
  volume_history := volumes;
  price_history := prices;
  current_oi := current_oi self;
  previous_oi := previous_oi self;
  current_imbalance_ratio := current_imbalance_ratio self;
  consecutive_buy_bars := consecutive_buy_bars self;
  consecutive_sell_bars := consecutive_sell_bars self;
  cvd_trend := cvd_trend self;
  absorption_detected := absorption_detected self;
  absorption_price := absorption_price self;
  absorption_volume := absorption_volume self
|}.

Definition with_trend (self : t) (trend : OrderFlowDirection) : t := {|
  delta_threshold := delta_threshold self;
  consecutive_bars_required := consecutive_bars_required self;
  cvd_trend_lookback := cvd_trend_lookback self;
  oi_significant_change := oi_significant_change self;
  imbalance_ratio_threshold := imbalance_ratio_threshold self;
  absorption_volume_multiplier := absorption_volume_multiplier self;
  absorption_price_tolerance := absorption_price_tolerance self;
  absorption_lookback := absorption_lookback self;
  current_delta := current_delta self;
  cumulative_delta := cumulative_delta self;
  buy_volume_current := buy_volume_current self;
  sell_volume_current := sell_volume_current self;
  delta_history := delta_history self;
  cvd_history := cvd_history self;
  volume_history := volume_history self;
  price_history := price_history self;
  current_oi := current_oi self;
  previous_oi := previous_oi self;
  current_imbalance_ratio := current_imbalance_ratio self;
  consecutive_buy_bars := consecutive_buy_bars self;
  consecutive_sell_bars := consecutive_sell_bars self;
  cvd_trend := trend;
  absorption_detected := absorption_detected self;
  absorption_price := absorption_price self;
  absorption_volume := absorption_volume self
|}.

Definition with_consecutive (self : t) (buy sell : Z) : t := {|
  delta_threshold := delta_threshold self;
  consecutive_bars_required := consecutive_bars_required self;
  cvd_trend_lookback := cvd_trend_lookback self;
  oi_significant_change := oi_significant_change self;
  imbalance_ratio_threshold := imbalance_ratio_threshold self;
  absorption_volume_multiplier := absorption_volume_multiplier self;
  absorption_price_tolerance := absorption_price_tolerance self;
  absorption_lookback := absorption_lookback self;
  current_delta := current_delta self;
  cumulative_delta := cumulative_delta self;
  buy_volume_current := buy_volume_current self;
  sell_volume_current := sell_volume_current self;
  delta_history := delta_history self;
  cvd_history := cvd_history self;
  volume_history := volume_history self;
  price_history := price_history self;
  current_oi := current_oi self;
  previous_oi := previous_oi self;
  current_imbalance_ratio := current_imbalance_ratio self;
  consecutive_buy_bars := buy;
  consecutive_sell_bars := sell;
  cvd_trend := cvd_trend self;
  absorption_detected := absorption_detected self;
  absorption_price := absorption_price self;
  absorption_volume := absorption_volume self
|}.

Definition with_absorption (self : t) (detected : bool) (price : option Q)
    (volume : Q) : t := {|
  delta_threshold := delta_threshold self;
  consecutive_bars_required := consecutive_bars_required self;
  cvd_trend_lookback := cvd_trend_lookback self;
  oi_significant_change := oi_significant_change self;
  imbalance_ratio_threshold := imbalance_ratio_threshold self;
  absorption_volume_multiplier := absorption_volume_multiplier self;
  absorption_price_tolerance := absorption_price_tolerance self;
  absorption_lookback := absorption_lookback self;
  current_delta := current_delta self;
  cumulative_delta := cumulative_delta self;
  buy_volume_current := buy_volume_current self;
  sell_volume_current := sell_volume_current self;
  delta_history := delta_history self;
  cvd_history := cvd_history self;
  volume_history := volume_history self;
  price_history := price_history self;
  current_oi := current_oi self;
  previous_oi := previous_oi self;
  current_imbalance_ratio := current_imbalance_ratio self;
  consecutive_buy_bars := consecutive_buy_bars self;
  consecutive_sell_bars := consecutive_sell_bars self;
  cvd_trend := cvd_trend self;
  absorption_detected := detected;
  absorption_price := price;
  absorption_volume := volume
|}.

(** [self.absorption_detected = False] *)
Definition no_absorption (self : t) : t :=
  with_absorption self false (absorption_price self) (absorption_volume self).

Definition update_from_trades (self : t) (trades : list Trade.t) : t :=
  let volumes :=
    fold_left
      (fun bs trade =>
         if Trade.is_buy trade
         then (fst bs + Trade.quantity trade, snd bs)
         else (fst bs, snd bs + Trade.quantity trade))
      trades (0, 0) in
  let buy_vol := fst volumes in
  let sell_vol := snd volumes in
  with_bar_volumes self (buy_vol - sell_vol) buy_vol sell_vol.

Definition update_from_orderbook (self : t)
    (orderbook : option OrderBookSnapshot.t) : t :=
  match orderbook with
  | None => self
  | Some book =>
      match OrderBookSnapshot.bids book, OrderBookSnapshot.asks book with
      | [], _ | _, [] => self
      | bids, asks =>
          let bid_volume := Py.sum (map OrderBookLevel.quantity (firstn 5 bids)) in
          let ask_volume := Py.sum (map OrderBookLevel.quantity (firstn 5 asks)) in
          let total_volume := bid_volume + ask_volume in
          if Py.Qlt_bool 0 total_volume
          then with_imbalance self (Qabs (ask_volume - bid_volume) / total_volume)
          else with_imbalance self 0
      end
  end.

Definition update_oi (self : t) (new_oi : Q) : t :=
  with_oi self new_oi (current_oi self).

(** [l[-k:]] *)
Definition last_items {A : Type} (l : list A) (k : Z) : list A :=
  if (0 <? k)%Z then skipn (length l - Z.to_nat k) l
  else skipn (Z.to_nat (- k)) l.

Definition _update_trend (self : t) : t :=
  if (Py.len (cvd_history self) <? cvd_trend_lookback self)%Z
  then with_trend self NEUTRAL
  else
    let recent_cvd := last_items (cvd_history self) (cvd_trend_lookback self) in
    let slope := Utils.calculate_slope recent_cvd in
    if Py.Qlt_bool 0 slope then with_trend self BULLISH
    else if Py.Qlt_bool slope 0 then with_trend self BEARISH
    else with_trend self NEUTRAL.

Definition is_delta_bullish (self : t) : bool :=
  match last (map Some (delta_history self)) None with
  | None => false
  | Some latest => Py.Qlt_bool (delta_threshold self) latest
  end.

Definition is_delta_bearish (self : t) : bool :=
  match last (map Some (delta_history self)) None with
  | None => false
  | Some latest => Py.Qlt_bool latest (- delta_threshold self)
  end.

Definition _update_consecutive_bars (self : t) : t :=
  if is_delta_bullish self
  then with_consecutive self (consecutive_buy_bars self + 1) 0
  else if is_delta_bearish self
  then with_consecutive self 0 (consecutive_sell_bars self + 1)
  else with_consecutive self 0 0.

(** [_check_absorption]: the analyzer it leaves, and whether it raised;
    an exception leaves the three absorption attributes as they were. *)
Definition _check_absorption (self : t) (price : Q) : t * result unit :=
  if (length (volume_history self) <? absorption_lookback self)%nat
  then (no_absorption self, Ok tt)
  else
    match Py.div (Py.sum (volume_history self))
                 (inject_Z (Py.len (volume_history self))) with
    | Raise e => (self, Raise e)
    | OutOfFuel => (self, OutOfFuel)
    | Ok avg_volume =>
    match Py.index (volume_history self) (-1) with
    | Raise e => (self, Raise e)
    | OutOfFuel => (self, OutOfFuel)
    | Ok recent_volume =>
        if Py.Qlt_bool recent_volume
             (avg_volume * absorption_volume_multiplier self)
        then (no_absorption self, Ok tt)
        else if (length (price_history self) <? 2)%nat
        then (no_absorption self, Ok tt)
        else
          match
            previous_price <- Py.index (price_history self) (-2) ;;
            change <- Py.div (price - previous_price) previous_price ;;
            Ok (Qabs change * 100)
          with
          | Raise e => (self, Raise e)
          | OutOfFuel => (self, OutOfFuel)
          | Ok price_change_pct =>
              if Qle_bool price_change_pct (absorption_price_tolerance self)
              then (with_absorption self true (Some price) recent_volume, Ok tt)
              else (no_absorption self, Ok tt)
          end
    end end.

(** [finalize_bar]: an exception of the absorption check leaves the bar
    accumulated but its per-bar attributes not cleared. *)
Definition finalize_bar (self : t) (price : Q) : t * result unit :=
  let cvd := cumulative_delta self + current_delta self in
  let self1 :=
    with_histories self cvd
      (Py.deque_append 100 (delta_history self) (current_delta self))
      (Py.deque_append 100 (cvd_history self) cvd)
      (Py.deque_append (absorption_lookback self) (volume_history self)
         (buy_volume_current self + sell_volume_current self))
      (Py.deque_append (absorption_lookback self) (price_history self) price) in
  let self2 := _update_trend self1 in
  let self3 := _update_consecutive_bars self2 in
  match _check_absorption self3 price with
  | (self4, Ok _) => (with_bar_volumes self4 0 0 0, Ok tt)
  | (self4, failure) => (self4, failure)
  end.

Definition is_oi_increasing (self : t) : bool :=
  if Qeq_bool (previous_oi self) 0 then false
  else
    let change_pct :=
      ((current_oi self - previous_oi self) / previous_oi self) * 100 in
    Qle_bool (oi_significant_change self) change_pct.

Definition is_oi_decreasing (self : t) : bool :=
  if Qeq_bool (previous_oi self) 0 then false
  else
    let change_pct :=
      ((current_oi self - previous_oi self) / previous_oi self) * 100 in
    Qle_bool change_pct (- oi_significant_change self).

Definition check_delta_flip (self : t) : bool :=
  match rev (delta_history self) with
  | current :: previous :: _ =>
      (Py.Qlt_bool 0 previous && Py.Qlt_bool current 0)
      || (Py.Qlt_bool previous 0 && Py.Qlt_bool 0 current)
  | _ => false
  end.

Definition get_metrics (self : t) (timestamp : Z) : OrderFlowMetrics.t :=
  let oi_change_pct :=
    if Py.Qlt_bool 0 (previous_oi self)
    then ((current_oi self - previous_oi self) / previous_oi self) * 100
    else 0 in
  let current_delta :=
    match last (map Some (delta_history self)) None with
    | Some latest => latest
    | None => 0
    end in
  {|
    OrderFlowMetrics.timestamp := timestamp;
    OrderFlowMetrics.delta := current_delta;
    OrderFlowMetrics.cumulative_delta := cumulative_delta self;
    OrderFlowMetrics.delta_trend := cvd_trend self;
    OrderFlowMetrics.buy_volume := buy_volume_current self;
    OrderFlowMetrics.sell_volume := sell_volume_current self;
    OrderFlowMetrics.total_volume :=
      buy_volume_current self + sell_volume_current self;
    OrderFlowMetrics.oi := current_oi self;
    OrderFlowMetrics.oi_change := current_oi self - previous_oi self;
    OrderFlowMetrics.oi_change_percent := oi_change_pct;
    OrderFlowMetrics.bid_volume := 0;
    OrderFlowMetrics.ask_volume := 0;
    OrderFlowMetrics.imbalance_ratio := current_imbalance_ratio self;
    OrderFlowMetrics.absorption_detected := absorption_detected self;
    OrderFlowMetrics.absorption_price := absorption_price self;
    OrderFlowMetrics.absorption_volume := absorption_volume self;
    OrderFlowMetrics.consecutive_buy_bars := consecutive_buy_bars self;
    OrderFlowMetrics.consecutive_sell_bars := consecutive_sell_bars self
  |}.

Definition reset (self : t) : t :=
  no_absorption
    (with_consecutive
       (with_histories self 0 [] [] [] [])
       0 0).

End OrderFlowAnalyzer.

(** ** signal_engine.py *)

Module SignalEngine.
Import Models.

(** [config['long']], [config['short']] and [config['failure']]. *)
Module LongConfig.
Record t : Type := {
  vwap_pullback_tolerance : Q;
  require_all_orderflow : bool;
  min_confidence : Q
}.
End LongConfig.

Module ShortConfig.
Record t : Type := {
  vwap_rejection_tolerance : Q;
  require_all_orderflow : bool;
  min_confidence : Q
}.
End ShortConfig.

Module FailureConfig.
Record t : Type := {
  min_confidence : Q
}.
End FailureConfig.

Record t : Type := {
  symbol : string;
  long_config : LongConfig.t;
  short_config : ShortConfig.t;
  failure_config : FailureConfig.t;
  cooldown_seconds : Q;
  last_long_signal_time : option Z;
  last_short_signal_time : option Z;
  last_failure_signal_time : option Z;
  recent_high : option Q;
  recent_low : option Q
}.

(** [SignalEngine(symbol, config)] *)
Definition init (name : string) (long : LongConfig.t) (short : ShortConfig.t)
    (failure : FailureConfig.t) (cooldown : Q) : t := {|
  symbol := name;
  long_config := long;
  short_config := short;
  failure_config := failure;
  cooldown_seconds := cooldown;
  last_long_signal_time := None;
  last_short_signal_time := None;
  last_failure_signal_time := None;
  recent_high := None;
  recent_low := None
|}.

Definition with_last_long (self : t) (time : option Z) : t := {|
  symbol := symbol self;
  long_config := long_config self;
  short_config := short_config self;
  failure_config := failure_config self;
  cooldown_seconds := cooldown_seconds self;
  last_long_signal_time := time;
  last_short_signal_time := last_short_signal_time self;
  last_failure_signal_time := last_failure_signal_time self;
  recent_high := recent_high self;
  recent_low := recent_low self
|}.

Definition with_last_short (self : t) (time : option Z) : t := {|
  symbol := symbol self;
  long_config := long_config self;
  short_config := short_config self;
  failure_config := failure_config self;
  cooldown_seconds := cooldown_seconds self;
  last_long_signal_time := last_long_signal_time self;
  last_short_signal_time := time;
  last_failure_signal_time := last_failure_signal_time self;
  recent_high := recent_high self;
  recent_low := recent_low self
|}.

Definition with_last_failure (self : t) (time : option Z) : t := {|
  symbol := symbol self;
  long_config := long_config self;
  short_config := short_config self;
  failure_config := failure_config self;
  cooldown_seconds := cooldown_seconds self;
  last_long_signal_time := last_long_signal_time self;
  last_short_signal_time := last_short_signal_time self;
  last_failure_signal_time := time;
  recent_high := recent_high self;
  recent_low := recent_low self
|}.

Definition with_recent (self : t) (high low : option Q) : t := {|
  symbol := symbol self;
  long_config := long_config self;
  short_config := short_config self;
  failure_config := failure_config self;
  cooldown_seconds := cooldown_seconds self;
  last_long_signal_time := last_long_signal_time self;
  last_short_signal_time := last_short_signal_time self;
  last_failure_signal_time := last_failure_signal_time self;
  recent_high := high;
  recent_low := low
|}.

(** Assignments to the attributes of a [SignalConditions]. *)
Definition set_tpo (c : SignalConditions.t) (event : option TPOStructureEvent)
    (proximity : Q) : SignalConditions.t := {|
  SignalConditions.tpo_event := event;
  SignalConditions.tpo_proximity := proximity;
  SignalConditions.vwap_aligned := SignalConditions.vwap_aligned c;
  SignalConditions.vwap_distance := SignalConditions.vwap_distance c;
  SignalConditions.vwap_slope := SignalConditions.vwap_slope c;
  SignalConditions.delta_confirmed := SignalConditions.delta_confirmed c;
  SignalConditions.cvd_confirmed := SignalConditions.cvd_confirmed c;
  SignalConditions.oi_confirmed := SignalConditions.oi_confirmed c;
  SignalConditions.aggressive_flow := SignalConditions.aggressive_flow c;
  SignalConditions.absorption := SignalConditions.absorption c;
  SignalConditions.delta_flip := SignalConditions.delta_flip c;
  SignalConditions.cvd_divergence := SignalConditions.cvd_divergence c
|}.

Definition set_tpo_event (c : SignalConditions.t)
    (event : option TPOStructureEvent) : SignalConditions.t := {|
  SignalConditions.tpo_event := event;
  SignalConditions.tpo_proximity := SignalConditions.tpo_proximity c;
  SignalConditions.vwap_aligned := SignalConditions.vwap_aligned c;
  SignalConditions.vwap_distance := SignalConditions.vwap_distance c;
  SignalConditions.vwap_slope := SignalConditions.vwap_slope c;
  SignalConditions.delta_confirmed := SignalConditions.delta_confirmed c;
  SignalConditions.cvd_confirmed := SignalConditions.cvd_confirmed c;
  SignalConditions.oi_confirmed := SignalConditions.oi_confirmed c;
  SignalConditions.aggressive_flow := SignalConditions.aggressive_flow c;
  SignalConditions.absorption := SignalConditions.absorption c;
  SignalConditions.delta_flip := SignalConditions.delta_flip c;
  SignalConditions.cvd_divergence := SignalConditions.cvd_divergence c
|}.

Definition set_vwap_aligned (c : SignalConditions.t) : SignalConditions.t := {|
  SignalConditions.tpo_event := SignalConditions.tpo_event c;
  SignalConditions.tpo_proximity := SignalConditions.tpo_proximity c;
  SignalConditions.vwap_aligned := true;
  SignalConditions.vwap_distance := SignalConditions.vwap_distance c;
  SignalConditions.vwap_slope := SignalConditions.vwap_slope c;
  SignalConditions.delta_confirmed := SignalConditions.delta_confirmed c;
  SignalConditions.cvd_confirmed := SignalConditions.cvd_confirmed c;
  SignalConditions.oi_confirmed := SignalConditions.oi_confirmed c;
  SignalConditions.aggressive_flow := SignalConditions.aggressive_flow c;
  SignalConditions.absorption := SignalConditions.absorption c;
  SignalConditions.delta_flip := SignalConditions.delta_flip c;
  SignalConditions.cvd_divergence := SignalConditions.cvd_divergence c
|}.

Definition set_vwap_slope (c : SignalConditions.t) (slope : Q)
  : SignalConditions.t := {|
  SignalConditions.tpo_event := SignalConditions.tpo_event c;
  SignalConditions.tpo_proximity := SignalConditions.tpo_proximity c;
  SignalConditions.vwap_aligned := SignalConditions.vwap_aligned c;
  SignalConditions.vwap_distance := SignalConditions.vwap_distance c;
  SignalConditions.vwap_slope := slope;
  SignalConditions.delta_confirmed := SignalConditions.delta_confirmed c;
  SignalConditions.cvd_confirmed := SignalConditions.cvd_confirmed c;
  SignalConditions.oi_confirmed := SignalConditions.oi_confirmed c;
  SignalConditions.aggressive_flow := SignalConditions.aggressive_flow c;
  SignalConditions.absorption := SignalConditions.absorption c;
  SignalConditions.delta_flip := SignalConditions.delta_flip c;
  SignalConditions.cvd_divergence := SignalConditions.cvd_divergence c
|}.

Definition set_vwap_distance (c : SignalConditions.t) (distance : Q)
  : SignalConditions.t := {|
  SignalConditions.tpo_event := SignalConditions.tpo_event c;
  SignalConditions.tpo_proximity := SignalConditions.tpo_proximity c;
  SignalConditions.vwap_aligned := SignalConditions.vwap_aligned c;
  SignalConditions.vwap_distance := distance;
  SignalConditions.vwap_slope := SignalConditions.vwap_slope c;
  SignalConditions.delta_confirmed := SignalConditions.delta_confirmed c;
  SignalConditions.cvd_confirmed := SignalConditions.cvd_confirmed c;
  SignalConditions.oi_confirmed := SignalConditions.oi_confirmed c;
  SignalConditions.aggressive_flow := SignalConditions.aggressive_flow c;
  SignalConditions.absorption := SignalConditions.absorption c;
  SignalConditions.delta_flip := SignalConditions.delta_flip c;
  SignalConditions.cvd_divergence := SignalConditions.cvd_divergence c
|}.

Definition set_delta_confirmed (c : SignalConditions.t) : SignalConditions.t := {|
  SignalConditions.tpo_event := SignalConditions.tpo_event c;
  SignalConditions.tpo_proximity := SignalConditions.tpo_proximity c;
  SignalConditions.vwap_aligned := SignalConditions.vwap_aligned c;
  SignalConditions.vwap_distance := SignalConditions.vwap_distance c;
  SignalConditions.vwap_slope := SignalConditions.vwap_slope c;
  SignalConditions.delta_confirmed := true;
  SignalConditions.cvd_confirmed := SignalConditions.cvd_confirmed c;
  SignalConditions.oi_confirmed := SignalConditions.oi_confirmed c;
  SignalConditions.aggressive_flow := SignalConditions.aggressive_flow c;
  SignalConditions.absorption := SignalConditions.absorption c;
  SignalConditions.delta_flip := SignalConditions.delta_flip c;
  SignalConditions.cvd_divergence := SignalConditions.cvd_divergence c
|}.

Definition set_cvd_confirmed (c : SignalConditions.t) : SignalConditions.t := {|
  SignalConditions.tpo_event := SignalConditions.tpo_event c;
  SignalConditions.tpo_proximity := SignalConditions.tpo_proximity c;
  SignalConditions.vwap_aligned := SignalConditions.vwap_aligned c;
  SignalConditions.vwap_distance := SignalConditions.vwap_distance c;
  SignalConditions.vwap_slope := SignalConditions.vwap_slope c;
  SignalConditions.delta_confirmed := SignalConditions.delta_confirmed c;
  SignalConditions.cvd_confirmed := true;
  SignalConditions.oi_confirmed := SignalConditions.oi_confirmed c;
  SignalConditions.aggressive_flow := SignalConditions.aggressive_flow c;
  SignalConditions.absorption := SignalConditions.absorption c;
  SignalConditions.delta_flip := SignalConditions.delta_flip c;
  SignalConditions.cvd_divergence := SignalConditions.cvd_divergence c
|}.

Definition set_oi_confirmed (c : SignalConditions.t) : SignalConditions.t := {|
  SignalConditions.tpo_event := SignalConditions.tpo_event c;
  SignalConditions.tpo_proximity := SignalConditions.tpo_proximity c;
  SignalConditions.vwap_aligned := SignalConditions.vwap_aligned c;
  SignalConditions.vwap_distance := SignalConditions.vwap_distance c;
  SignalConditions.vwap_slope := SignalConditions.vwap_slope c;
  SignalConditions.delta_confirmed := SignalConditions.delta_confirmed c;
  SignalConditions.cvd_confirmed := SignalConditions.cvd_confirmed c;
  SignalConditions.oi_confirmed := true;
  SignalConditions.aggressive_flow := SignalConditions.aggressive_flow c;
  SignalConditions.absorption := SignalConditions.absorption c;
  SignalConditions.delta_flip := SignalConditions.delta_flip c;
  SignalConditions.cvd_divergence := SignalConditions.cvd_divergence c
|}.

Definition set_aggressive_flow (c : SignalConditions.t) : SignalConditions.t := {|
  SignalConditions.tpo_event := SignalConditions.tpo_event c;
  SignalConditions.tpo_proximity := SignalConditions.tpo_proximity c;
  SignalConditions.vwap_aligned := SignalConditions.vwap_aligned c;
  SignalConditions.vwap_distance := SignalConditions.vwap_distance c;
  SignalConditions.vwap_slope := SignalConditions.vwap_slope c;
  SignalConditions.delta_confirmed := SignalConditions.delta_confirmed c;
  SignalConditions.cvd_confirmed := SignalConditions.cvd_confirmed c;
  SignalConditions.oi_confirmed := SignalConditions.oi_confirmed c;
  SignalConditions.aggressive_flow := true;
  SignalConditions.absorption := SignalConditions.absorption c;
  SignalConditions.delta_flip := SignalConditions.delta_flip c;
  SignalConditions.cvd_divergence := SignalConditions.cvd_divergence c
|}.

Definition set_absorption (c : SignalConditions.t) : SignalConditions.t := {|
  SignalConditions.tpo_event := SignalConditions.tpo_event c;
  SignalConditions.tpo_proximity := SignalConditions.tpo_proximity c;
  SignalConditions.vwap_aligned := SignalConditions.vwap_aligned c;
  SignalConditions.vwap_distance := SignalConditions.vwap_distance c;
  SignalConditions.vwap_slope := SignalConditions.vwap_slope c;
  SignalConditions.delta_confirmed := SignalConditions.delta_confirmed c;
  SignalConditions.cvd_confirmed := SignalConditions.cvd_confirmed c;
  SignalConditions.oi_confirmed := SignalConditions.oi_confirmed c;
  SignalConditions.aggressive_flow := SignalConditions.aggressive_flow c;
  SignalConditions.absorption := true;
  SignalConditions.delta_flip := SignalConditions.delta_flip c;
  SignalConditions.cvd_divergence := SignalConditions.cvd_divergence c
|}.

Definition set_delta_flip (c : SignalConditions.t) : SignalConditions.t := {|
  SignalConditions.tpo_event := SignalConditions.tpo_event c;
  SignalConditions.tpo_proximity := SignalConditions.tpo_proximity c;
  SignalConditions.vwap_aligned := SignalConditions.vwap_aligned c;
  SignalConditions.vwap_distance := SignalConditions.vwap_distance c;
  SignalConditions.vwap_slope := SignalConditions.vwap_slope c;
  SignalConditions.delta_confirmed := SignalConditions.delta_confirmed c;
  SignalConditions.cvd_confirmed := SignalConditions.cvd_confirmed c;
  SignalConditions.oi_confirmed := SignalConditions.oi_confirmed c;
  SignalConditions.aggressive_flow := SignalConditions.aggressive_flow c;
  SignalConditions.absorption := SignalConditions.absorption c;
  SignalConditions.delta_flip := true;
  SignalConditions.cvd_divergence := SignalConditions.cvd_divergence c
|}.

Definition set_cvd_divergence (c : SignalConditions.t) : SignalConditions.t := {|
  SignalConditions.tpo_event := SignalConditions.tpo_event c;
  SignalConditions.tpo_proximity := SignalConditions.tpo_proximity c;
  SignalConditions.vwap_aligned := SignalConditions.vwap_aligned c;
  SignalConditions.vwap_distance := SignalConditions.vwap_distance c;
  SignalConditions.vwap_slope := SignalConditions.vwap_slope c;
  SignalConditions.delta_confirmed := SignalConditions.delta_confirmed c;
  SignalConditions.cvd_confirmed := SignalConditions.cvd_confirmed c;
  SignalConditions.oi_confirmed := SignalConditions.oi_confirmed c;
  SignalConditions.aggressive_flow := SignalConditions.aggressive_flow c;
  SignalConditions.absorption := SignalConditions.absorption c;
  SignalConditions.delta_flip := SignalConditions.delta_flip c;
  SignalConditions.cvd_divergence := true
|}.

(** [if cond: score += weight] and [if cond: conditions.x = ...] *)
Definition bump (cond : bool) (weight score : Q) : Q :=
  if cond then score + weight else score.

Definition mark (cond : bool) (f : SignalConditions.t -> SignalConditions.t)
    (c : SignalConditions.t) : SignalConditions.t :=
  if cond then f c else c.

Definition count (cond : bool) (n : Z) : Z :=
  if cond then (n + 1)%Z else n.

Definition is_bullish_trend (d : OrderFlowDirection) : bool :=
  match d with BULLISH => true | _ => false end.

Definition is_bearish_trend (d : OrderFlowDirection) : bool :=
  match d with BEARISH => true | _ => false end.

(** [tpo_event in [VAL_BOUNCE, POC_RECLAIM, VAH_BREAKOUT]] *)
Definition is_long_event (e : option TPOStructureEvent) : bool :=
  match e with
  | Some VAL_BOUNCE | Some POC_RECLAIM | Some VAH_BREAKOUT => true
  | _ => false
  end.

(** [tpo_event in [VAH_REJECTION, POC_BREAKDOWN, VAL_BREAK]] *)
Definition is_short_event (e : option TPOStructureEvent) : bool :=
  match e with
  | Some VAH_REJECTION | Some POC_BREAKDOWN | Some VAL_BREAK => true
  | _ => false
  end.

(** The truth value of an [Optional[float]]: neither [None] nor zero. *)
Definition truthy (x : option Q) : bool :=
  match x with
  | None => false
  | Some v => negb (Qeq_bool v 0)
  end.

Definition _is_in_cooldown (self : t) (last_signal_time : option Z)
    (current_time : Z) : bool :=
  match last_signal_time with
  | None => false
  | Some last =>
      let time_diff_seconds := inject_Z (current_time - last) / 1000 in
      Py.Qlt_bool time_diff_seconds (cooldown_seconds self)
  end.

Definition _update_price_tracking (self : t) (price : Q) : t :=
  let high :=
    match recent_high self with
    | None => Some price
    | Some h => if Py.Qlt_bool h price then Some price else Some h
    end in
  let low :=
    match recent_low self with
    | None => Some price
    | Some l => if Py.Qlt_bool price l then Some price else Some l
    end in
  with_recent self high low.

(** [SignalEvent(...)] as the four emitting places build it, with
    [confidence=min(confidence, 1.0)]. *)
Definition make_signal (self : t) (current_time : Z) (kind : SignalType)
    (current_price : Q) (conditions : SignalConditions.t) (confidence : Q)
    (tpo_data : TPOProfile.t) (vwap_data : VWAPData.t)
    (orderflow_data : OrderFlowMetrics.t) : SignalEvent.t := {|
  SignalEvent.timestamp := current_time;
  SignalEvent.symbol := symbol self;
  SignalEvent.signal_type := kind;
  SignalEvent.price := current_price;
  SignalEvent.conditions := conditions;
  SignalEvent.confidence := Py.min confidence 1;
  SignalEvent.tpo_data := Some tpo_data;
  SignalEvent.vwap_data := Some vwap_data;
  SignalEvent.orderflow_data := Some orderflow_data;
  SignalEvent.alerted := false;
  SignalEvent.alert_timestamp := None
|}.

Definition _check_long_entry (self : t) (current_time : Z) (current_price : Q)
    (tpo_data : option TPOProfile.t) (tpo_event : option TPOStructureEvent)
    (vwap_data : option VWAPData.t) (orderflow_data : option OrderFlowMetrics.t)
  : result (t * option SignalEvent.t) :=
  if _is_in_cooldown self (last_long_signal_time self) current_time
  then Ok (self, None)
  else
    match tpo_data, vwap_data, orderflow_data with
    | Some tpo, Some vwap, Some flow =>
        let conditions := SignalConditions.default in
        let confidence := 0 in
        (* TPO *)
        let tpo_valid := is_long_event tpo_event in
        let conditions :=
          mark tpo_valid
            (fun c => set_tpo c tpo_event
                        (TPOProfile.distance_to_poc tpo current_price))
            conditions in
        let confidence := bump tpo_valid 0.25 confidence in
        if negb tpo_valid then Ok (self, None)
        else
          (* VWAP *)
          let above := Qle_bool (VWAPData.vwap vwap) current_price in
          let conditions := mark above set_vwap_aligned conditions in
          let confidence := bump above 0.15 confidence in
          pullback <-
            VWAPData.is_pullback_zone vwap current_price
              (LongConfig.vwap_pullback_tolerance (long_config self)) ;;
          let conditions := mark pullback set_vwap_aligned conditions in
          let confidence := bump pullback 0.25 confidence in
          let vwap_valid := above || pullback in
          let rising := Py.Qlt_bool 0 (VWAPData.slope vwap) in
          let conditions :=
            mark rising (fun c => set_vwap_slope c (VWAPData.slope vwap))
              conditions in
          let confidence := bump rising 0.10 confidence in
          distance <-
            Py.div (Qabs (current_price - VWAPData.vwap vwap))
              (VWAPData.vwap vwap) ;;
          let conditions := set_vwap_distance conditions (distance * 100) in
          if negb vwap_valid then Ok (self, None)
          else
            (* order flow *)
            let delta_ok := Py.Qlt_bool 0 (OrderFlowMetrics.delta flow) in
            let cvd_ok := is_bullish_trend (OrderFlowMetrics.delta_trend flow) in
            let oi_ok := Py.Qlt_bool 0 (OrderFlowMetrics.oi_change_percent flow) in
            let flow_ok := (2 <=? OrderFlowMetrics.consecutive_buy_bars flow)%Z in
            let conditions :=
              mark flow_ok set_aggressive_flow
                (mark oi_ok set_oi_confirmed
                   (mark cvd_ok set_cvd_confirmed
                      (mark delta_ok set_delta_confirmed conditions))) in
            let of_conditions_met :=
              count flow_ok (count oi_ok (count cvd_ok (count delta_ok 0%Z))) in
            let of_score :=
              bump flow_ok 0.10 (bump oi_ok 0.05
                (bump cvd_ok 0.10 (bump delta_ok 0.10 0))) in
            let needed :=
              if LongConfig.require_all_orderflow (long_config self)
              then 4%Z else 3%Z in
            if (of_conditions_met <? needed)%Z then Ok (self, None)
            else
              let confidence := confidence + of_score in
              if Py.Qlt_bool confidence
                   (LongConfig.min_confidence (long_config self))
              then Ok (self, None)
              else
                Ok (with_last_long self (Some current_time),
                    Some (make_signal self current_time LONG_ENTRY
                            current_price conditions confidence tpo vwap flow))
    | _, _, _ => Ok (self, None)
    end.

Definition _check_short_entry (self : t) (current_time : Z) (current_price : Q)
    (tpo_data : option TPOProfile.t) (tpo_event : option TPOStructureEvent)
    (vwap_data : option VWAPData.t) (orderflow_data : option OrderFlowMetrics.t)
  : result (t * option SignalEvent.t) :=
  if _is_in_cooldown self (last_short_signal_time self) current_time
  then Ok (self, None)
  else
    match tpo_data, vwap_data, orderflow_data with
    | Some tpo, Some vwap, Some flow =>
        let conditions := SignalConditions.default in
        let confidence := 0 in
        (* TPO *)
        let tpo_valid := is_short_event tpo_event in
        let conditions :=
          mark tpo_valid
            (fun c => set_tpo c tpo_event
                        (TPOProfile.distance_to_poc tpo current_price))
            conditions in
        let confidence := bump tpo_valid 0.25 confidence in
        if negb tpo_valid then Ok (self, None)
        else
          (* VWAP *)
          let below := Qle_bool current_price (VWAPData.vwap vwap) in
          let conditions := mark below set_vwap_aligned conditions in
          let confidence := bump below 0.15 confidence in
          zone <-
            VWAPData.is_pullback_zone vwap current_price
              (ShortConfig.vwap_rejection_tolerance (short_config self)) ;;
          let rejected := zone && Py.Qlt_bool (OrderFlowMetrics.delta flow) 0 in
          let conditions := mark rejected set_vwap_aligned conditions in
          let confidence := bump rejected 0.25 confidence in
          let vwap_valid := below || rejected in
          let falling := Py.Qlt_bool (VWAPData.slope vwap) 0 in
          let conditions :=
            mark falling (fun c => set_vwap_slope c (VWAPData.slope vwap))
              conditions in
          let confidence := bump falling 0.10 confidence in
          distance <-
            Py.div (Qabs (current_price - VWAPData.vwap vwap))
              (VWAPData.vwap vwap) ;;
          let conditions := set_vwap_distance conditions (distance * 100) in
          if negb vwap_valid then Ok (self, None)
          else
            (* order flow *)
            let delta_ok := Py.Qlt_bool (OrderFlowMetrics.delta flow) 0 in
            let cvd_ok := is_bearish_trend (OrderFlowMetrics.delta_trend flow) in
            let oi_ok := Py.Qlt_bool 0 (OrderFlowMetrics.oi_change_percent flow) in
            let flow_ok := (2 <=? OrderFlowMetrics.consecutive_sell_bars flow)%Z in
            let conditions :=
              mark flow_ok set_aggressive_flow
                (mark oi_ok set_oi_confirmed
                   (mark cvd_ok set_cvd_confirmed
                      (mark delta_ok set_delta_confirmed conditions))) in
            let of_conditions_met :=
              count flow_ok (count oi_ok (count cvd_ok (count delta_ok 0%Z))) in
            let of_score :=
              bump flow_ok 0.10 (bump oi_ok 0.05
                (bump cvd_ok 0.10 (bump delta_ok 0.10 0))) in
            let needed :=
              if ShortConfig.require_all_orderflow (short_config self)
              then 4%Z else 3%Z in
            if (of_conditions_met <? needed)%Z then Ok (self, None)
            else
              let confidence := confidence + of_score in
              if Py.Qlt_bool confidence
                   (ShortConfig.min_confidence (short_config self))
              then Ok (self, None)
              else
                Ok (with_last_short self (Some current_time),
                    Some (make_signal self current_time SHORT_ENTRY
                            current_price conditions confidence tpo vwap flow))
    | _, _, _ => Ok (self, None)
    end.

(** [_check_upside_failure]: the score it returns and the conditions
    object as it leaves it (the caller passes the same object on). *)
Definition _check_upside_failure (self : t) (price : Q) (tpo : TPOProfile.t)
    (vwap : VWAPData.t) (flow : OrderFlowMetrics.t)
    (conditions : SignalConditions.t) : Q * SignalConditions.t :=
  let confidence := 0 in
  let near_key_level :=
    Utils.is_near price (TPOProfile.vah tpo) 0.2
    || Utils.is_near price (VWAPData.upper_1std vwap) 0.2 in
  if negb near_key_level then (0, conditions)
  else
    let at_high :=
      match recent_high self with
      | Some high => truthy (Some high) && Qle_bool (high * 0.998) price
      | None => false
      end in
    if negb at_high then (0, conditions)
    else
      let confidence := confidence + 0.2 in
      let conditions := set_tpo_event conditions (Some VAH_REJECTION) in
      let flipped := Py.Qlt_bool (OrderFlowMetrics.delta flow) 0 in
      let conditions := mark flipped set_delta_flip conditions in
      let confidence := bump flipped 0.3 confidence in
      let diverging := negb (is_bullish_trend (OrderFlowMetrics.delta_trend flow)) in
      let conditions := mark diverging set_cvd_divergence conditions in
      let confidence := bump diverging 0.2 confidence in
      let absorbed := OrderFlowMetrics.absorption_detected flow in
      let conditions := mark absorbed set_absorption conditions in
      let confidence := bump absorbed 0.3 confidence in
      if Py.Qlt_bool confidence (FailureConfig.min_confidence (failure_config self))
      then (0, conditions)
      else (confidence, conditions).

Definition _check_downside_failure (self : t) (price : Q) (tpo : TPOProfile.t)
    (vwap : VWAPData.t) (flow : OrderFlowMetrics.t)
    (conditions : SignalConditions.t) : Q * SignalConditions.t :=
  let confidence := 0 in
  let near_key_level :=
    Utils.is_near price (TPOProfile.val tpo) 0.2
    || Utils.is_near price (VWAPData.lower_1std vwap) 0.2 in
  if negb near_key_level then (0, conditions)
  else
    let at_low :=
      match recent_low self with
      | Some low => truthy (Some low) && Qle_bool price (low * 1.002)
      | None => false
      end in
    if negb at_low then (0, conditions)
    else
      let confidence := confidence + 0.2 in
      let conditions := set_tpo_event conditions (Some VAL_BOUNCE) in
      let flipped := Py.Qlt_bool 0 (OrderFlowMetrics.delta flow) in
      let conditions := mark flipped set_delta_flip conditions in
      let confidence := bump flipped 0.3 confidence in
      let diverging := negb (is_bearish_trend (OrderFlowMetrics.delta_trend flow)) in
      let conditions := mark diverging set_cvd_divergence conditions in
      let confidence := bump diverging 0.2 confidence in
      let absorbed := OrderFlowMetrics.absorption_detected flow in
      let conditions := mark absorbed set_absorption conditions in
      let confidence := bump absorbed 0.3 confidence in
      if Py.Qlt_bool confidence (FailureConfig.min_confidence (failure_config self))
      then (0, conditions)
      else (confidence, conditions).

Definition _check_failure_patterns (self : t) (current_time : Z)
    (current_price : Q) (tpo_data : option TPOProfile.t)
    (vwap_data : option VWAPData.t) (orderflow_data : option OrderFlowMetrics.t)
  : t * option SignalEvent.t :=
  if _is_in_cooldown self (last_failure_signal_time self) current_time
  then (self, None)
  else
    match tpo_data, vwap_data, orderflow_data with
    | Some tpo, Some vwap, Some flow =>
        let conditions := SignalConditions.default in
        let '(upside_failure, conditions) :=
          _check_upside_failure self current_price tpo vwap flow conditions in
        if negb (Qeq_bool upside_failure 0) then
          (with_last_failure self (Some current_time),
           Some (make_signal self current_time SHORT_FAILURE current_price
                   conditions upside_failure tpo vwap flow))
        else
          let '(downside_failure, conditions) :=
            _check_downside_failure self current_price tpo vwap flow conditions in
          if negb (Qeq_bool downside_failure 0) then
            (with_last_failure self (Some current_time),
             Some (make_signal self current_time LONG_FAILURE current_price
                     conditions downside_failure tpo vwap flow))
          else (self, None)
    | _, _, _ => (self, None)
    end.

(** [check_signals]: the engine it leaves and what it returns; an
    exception of an entry check leaves the price tracking updated. *)
Definition check_signals (self : t) (current_time : Z) (current_price : Q)
    (tpo_data : option TPOProfile.t) (tpo_event : option TPOStructureEvent)
    (vwap_data : option VWAPData.t) (orderflow_data : option OrderFlowMetrics.t)
  : t * result (option SignalEvent.t) :=
  let self1 := _update_price_tracking self current_price in
  match _check_failure_patterns self1 current_time current_price
          tpo_data vwap_data orderflow_data with
  | (self2, Some failure_signal) => (self2, Ok (Some failure_signal))
  | (self2, None) =>
      match _check_long_entry self2 current_time current_price
              tpo_data tpo_event vwap_data orderflow_data with
      | Ok (self3, Some long_signal) => (self3, Ok (Some long_signal))
      | Ok (self3, None) =>
          match _check_short_entry self3 current_time current_price
                  tpo_data tpo_event vwap_data orderflow_data with
          | Ok (self4, short_signal) => (self4, Ok short_signal)
          | Raise e => (self3, Raise e)
          | OutOfFuel => (self3, OutOfFuel)
          end
      | Raise e => (self2, Raise e)
      | OutOfFuel => (self2, OutOfFuel)
      end
  end.

End SignalEngine.
From Stdlib Require DecimalString.


(** ** models.py, the remaining properties of the data classes *)

Module CandleMethods.
Import Models.

Definition is_bullish (self : Candle.t) : bool :=
  Py.Qlt_bool (Candle.open self) (Candle.close self).

Definition body_size (self : Candle.t) : Q :=
  Qabs (Candle.close self - Candle.open self).

Definition upper_wick (self : Candle.t) : Q :=
  Candle.high self - Py.max (Candle.open self) (Candle.close self).

Definition lower_wick (self : Candle.t) : Q :=
  Py.min (Candle.open self) (Candle.close self) - Candle.low self.

End CandleMethods.

Module TPOProfileMethods.
Import Models.

Definition value_area_range (self : TPOProfile.t) : Q :=
  TPOProfile.vah self - TPOProfile.val self.

Definition poc_position (self : TPOProfile.t) : Q :=
  if Qeq_bool (value_area_range self) 0 then 0.5
  else (TPOProfile.poc self - TPOProfile.val self) / value_area_range self.

Definition distance_to_vah (self : TPOProfile.t) (price : Q) : Q :=
  price - TPOProfile.vah self.

Definition distance_to_val (self : TPOProfile.t) (price : Q) : Q :=
  TPOProfile.val self - price.

End TPOProfileMethods.

Module VWAPDataMethods.
Import Models.

Definition std_dev (self : VWAPData.t) : Q :=
  VWAPData.upper_1std self - VWAPData.vwap self.

(** Both branches of the source, above and below the VWAP, are the same
    computation. *)
Definition get_band_position (self : VWAPData.t) (price : Q) : Q :=
  if Qle_bool (VWAPData.vwap self) price then
    if Qeq_bool (std_dev self) 0 then 0
    else (price - VWAPData.vwap self) / std_dev self
  else
    if Qeq_bool (std_dev self) 0 then 0
    else (price - VWAPData.vwap self) / std_dev self.

End VWAPDataMethods.

(** ** utils.py, weighted average *)

Module UtilsStats.

(** [sum(v * w for v, w in zip(values, weights)) / total_weight], and 0
    for empty or mismatched lists and for a zero total weight. *)
Definition weighted_average (values weights : list Q) : Q :=
  match values, weights with
  | [], _ | _, [] => 0
  | _, _ =>
      if negb (length values =? length weights)%nat then 0
      else
        let total_weight := Py.sum weights in
        if Qeq_bool total_weight 0 then 0
        else
          Py.sum (map (fun vw => fst vw * snd vw) (combine values weights))
          / total_weight
  end.

End UtilsStats.

(** ** tpo_analyzer.py, vwap_calculator.py, orderflow_analyzer.py: queries *)

Module TPOAnalyzerQueries.
Import Models TPOAnalyzer.

Definition is_near_key_level (self : t) (price : Q) : bool * option string :=
  match current_profile self with
  | None => (false, None)
  | Some profile =>
      let proximity := proximity_ticks self * tick_size self in
      if Utils.is_near price (TPOProfile.vah profile) proximity
      then (true, Some "VAH"%string)
      else if Utils.is_near price (TPOProfile.val profile) proximity
      then (true, Some "VAL"%string)
      else if Utils.is_near price (TPOProfile.poc profile) proximity
      then (true, Some "POC"%string)
      else (false, None)
  end.

End TPOAnalyzerQueries.

Module VWAPCalculatorQueries.
Import Models VWAPCalculator.

Definition is_trending_up (self : t) : bool :=
  match current_vwap self with
  | None => false
  | Some data => Py.Qlt_bool (slope_threshold self) (VWAPData.slope data)
  end.

Definition is_trending_down (self : t) : bool :=
  match current_vwap self with
  | None => false
  | Some data => Py.Qlt_bool (VWAPData.slope data) (- slope_threshold self)
  end.

Definition get_price_position (self : t) (price : Q) : result string :=
  match current_vwap self with
  | None => Ok "UNKNOWN"%string
  | Some data =>
      at_vwap <- is_pullback self price None ;;
      if at_vwap then Ok "AT"%string
      else if Py.Qlt_bool (VWAPData.vwap data) price then Ok "ABOVE"%string
      else Ok "BELOW"%string
  end.

Definition get_band_level (self : t) (price : Q) : string :=
  match current_vwap self with
  | None => "UNKNOWN"%string
  | Some data =>
      let tolerance_pct := 0.1 in
      if Utils.is_near price (VWAPData.vwap data) tolerance_pct then "VWAP"%string
      else if Utils.is_near price (VWAPData.upper_1std data) tolerance_pct
      then "+1SD"%string
      else if Utils.is_near price (VWAPData.upper_2std data) tolerance_pct
      then "+2SD"%string
      else if Utils.is_near price (VWAPData.lower_1std data) tolerance_pct
      then "-1SD"%string
      else if Utils.is_near price (VWAPData.lower_2std data) tolerance_pct
      then "-2SD"%string
      else "NEUTRAL"%string
  end.

End VWAPCalculatorQueries.

Module OrderFlowQueries.
Import Models OrderFlowAnalyzer.

Definition is_cvd_rising (self : t) : bool :=
  match cvd_trend self with BULLISH => true | _ => false end.

Definition is_cvd_falling (self : t) : bool :=
  match cvd_trend self with BEARISH => true | _ => false end.

Definition has_imbalance (self : t) : bool :=
  Py.Qlt_bool (imbalance_ratio_threshold self) (current_imbalance_ratio self).

Definition has_consecutive_buying (self : t) : bool :=
  (consecutive_bars_required self <=? consecutive_buy_bars self)%Z.

Definition has_consecutive_selling (self : t) : bool :=
  (consecutive_bars_required self <=? consecutive_sell_bars self)%Z.

Definition has_absorption (self : t) : bool := absorption_detected self.

Definition check_cvd_divergence (self : t) (price_trend : string) : bool :=
  if (Py.len (cvd_history self) <? cvd_trend_lookback self)%Z then false
  else if String.eqb price_trend "DOWN" && is_cvd_rising self then true
  else if String.eqb price_trend "UP" && is_cvd_falling self then true
  else false.

End OrderFlowQueries.

(** ** models.py and alert_manager.py: priorities and throttling *)

Module AlertModels.

Inductive AlertPriority : Type := LOW | MEDIUM | HIGH | CRITICAL.

End AlertModels.

Module AlertManager.
Import Models AlertModels.

(** The configuration that decides whether an alert goes out, and the
    three attributes of the throttle.  [recent_alerts] is a set of
    fingerprints: a list without repetitions, whose order plays no
    part. *)
Record t : Type := {
  enabled : bool;
  throttle_enabled : bool;
  duplicate_window : Q;
  max_alerts_per_hour : Z;
  recent_alerts : list string;
  hourly_alert_count : Z;
  hour_reset_time : option Z
}.

(** [AlertManager(config)] *)
Definition init (is_enabled throttle : bool) (window : Q) (max_per_hour : Z)
  : t := {|
  enabled := is_enabled;
  throttle_enabled := throttle;
  duplicate_window := window;
  max_alerts_per_hour := max_per_hour;
  recent_alerts := [];
  hourly_alert_count := 0;
  hour_reset_time := None
|}.

Definition with_hour (self : t) (count : Z) (reset_time : option Z) : t := {|
  enabled := enabled self;
  throttle_enabled := throttle_enabled self;
  duplicate_window := duplicate_window self;
  max_alerts_per_hour := max_alerts_per_hour self;
  recent_alerts := recent_alerts self;
  hourly_alert_count := count;
  hour_reset_time := reset_time
|}.

Definition with_tracked (self : t) (count : Z) (recent : list string) : t := {|
  enabled := enabled self;
  throttle_enabled := throttle_enabled self;
  duplicate_window := duplicate_window self;
  max_alerts_per_hour := max_alerts_per_hour self;
  recent_alerts := recent;
  hourly_alert_count := count;
  hour_reset_time := hour_reset_time self
|}.

(** [signal.signal_type.value] *)
Definition signal_type_value (kind : SignalType) : string :=
  match kind with
  | LONG_ENTRY => "LONG_ENTRY"
  | SHORT_ENTRY => "SHORT_ENTRY"
  | LONG_FAILURE => "LONG_FAILURE"
  | SHORT_FAILURE => "SHORT_FAILURE"
  end.

(** [int(x)] on a float: towards zero. *)
Definition int (x : Q) : Z :=
  if Py.Qlt_bool x 0 then Qceiling x else Qfloor x.

(** [int(signal.timestamp / (self.duplicate_window * 1000))] *)
Definition window_bucket (self : t) (signal : SignalEvent.t) : result Z :=
  q <- Py.div (inject_Z (SignalEvent.timestamp signal))
         (duplicate_window self * 1000) ;;
  Ok (int q).

(** [f"{symbol}_{signal_type.value}_{bucket}"] *)
Definition _get_alert_fingerprint (self : t) (signal : SignalEvent.t)
  : result string :=
  bucket <- window_bucket self signal ;;
  Ok (SignalEvent.symbol signal ++ "_"
      ++ signal_type_value (SignalEvent.signal_type signal) ++ "_"
      ++ DecimalString.NilZero.string_of_int (Z.to_int bucket))%string.

(** [fingerprint in self.recent_alerts] and [self.recent_alerts.add]. *)
Definition set_mem (x : string) (s : list string) : bool :=
  existsb (String.eqb x) s.

Definition set_add (x : string) (s : list string) : list string :=
  if set_mem x s then s else x :: s.

(** [_check_throttle]: the manager it leaves (the hourly counter may have
    been restarted) and its answer. *)
Definition _check_throttle (self : t) (signal : SignalEvent.t)
  : t * result bool :=
  if negb (throttle_enabled self) then (self, Ok true)
  else
    let current_time := SignalEvent.timestamp signal in
    let self1 :=
      match hour_reset_time self with
      | None => with_hour self 0 (Some current_time)
      | Some reset_time =>
          if (3600000 <? current_time - reset_time)%Z
          then with_hour self 0 (Some current_time)
          else self
      end in
    if (max_alerts_per_hour self1 <=? hourly_alert_count self1)%Z
    then (self1, Ok false)
    else
      match _get_alert_fingerprint self1 signal with
      | Ok fingerprint =>
          (self1, Ok (negb (set_mem fingerprint (recent_alerts self1))))
      | Raise e => (self1, Raise e)
      | OutOfFuel => (self1, OutOfFuel)
      end.

(** [_track_alert]: the counter is raised before the fingerprint is
    computed. *)
Definition _track_alert (self : t) (signal : SignalEvent.t) : t * result unit :=
  let self1 :=
    with_tracked self (hourly_alert_count self + 1) (recent_alerts self) in
  match _get_alert_fingerprint self1 signal with
  | Ok fingerprint =>
      let recent := set_add fingerprint (recent_alerts self1) in
      (with_tracked self1 (hourly_alert_count self1)
         (if (100 <? Py.len recent)%Z then [] else recent),
       Ok tt)
  | Raise e => (self1, Raise e)
  | OutOfFuel => (self1, OutOfFuel)
  end.

Definition _determine_priority (signal : SignalEvent.t) : AlertPriority :=
  if Qle_bool 0.9 (SignalEvent.confidence signal) then CRITICAL
  else if Qle_bool 0.8 (SignalEvent.confidence signal) then HIGH
  else if Qle_bool 0.7 (SignalEvent.confidence signal) then MEDIUM
  else LOW.

(** [send_signal_alert] for a signal whose timestamp [datetime] can
    represent: the manager it leaves, the priority of the alert handed to
    the channels if one was handed over, and whether the call raised.
    What the channels print or send, and the marking of the signal with
    the clock time, are outside this model; the channels catch their own
    exceptions. *)
Definition send_signal_alert (self : t) (signal : SignalEvent.t)
  : t * option AlertPriority * result unit :=
  if negb (enabled self) then (self, None, Ok tt)
  else
    match _check_throttle self signal with
    | (self1, Ok false) => (self1, None, Ok tt)
    | (self1, Ok true) =>
        let priority := _determine_priority signal in
        let '(self2, outcome) := _track_alert self1 signal in
        (self2, Some priority, outcome)
    | (self1, Raise e) => (self1, None, Raise e)
    | (self1, OutOfFuel) => (self1, None, OutOfFuel)
    end.

End AlertManager.

(** * Specification vocabulary *)

Section ValueAreaInvariant.
Import TPOAnalyzer.

Variable pvm : Dict.t Q.
Variable prices : list Q.
Variable target_volume : Q.
Variable poc_index : Z.

(** What the loop keeps true: the two indices stay on the axis, on either
    side of the POC, and the two prices are the prices at the indices. *)
Definition area_inv (a : area) : Prop :=
  (0 <= lower_index a <= poc_index)%Z /\
  (poc_index <= upper_index a < Py.len prices)%Z /\
  (exists p, nth_error prices (Z.to_nat (lower_index a)) = Some p /\
             p == lower_price a) /\
  (exists p, nth_error prices (Z.to_nat (upper_index a)) = Some p /\
             p == upper_price a).

(** What holds when the loop is left: the target is reached, or the lower
    end is the first price and the upper end is the last price or has a
    negative volume just above it. *)
Definition area_stopped (a : area) : Prop :=
  target_volume <= value_area_volume a \/
  (lower_index a = 0%Z /\
   (upper_index a + 1 = Py.len prices)%Z) \/
  (lower_index a = 0%Z /\
   exists p, nth_error prices (Z.to_nat (upper_index a + 1)) = Some p /\
             Dict.get_default 0 pvm p < 0).

End ValueAreaInvariant.

Section ProfileVocabulary.
Import Models TPOAnalyzer.

(** No price of the distribution carries a negative volume. *)
Definition nonneg_volumes (pvm : Dict.t Q) : Prop :=
  Forall (fun kv => 0 <= snd kv) pvm.

(** The value area of [p] runs from the lowest to the highest price of
    the distribution [pvm]. *)
Definition spans_distribution (pvm : Dict.t Q) (p : TPOProfile.t) : Prop :=
  (exists lowest, In lowest (Dict.keys pvm) /\ TPOProfile.val p == lowest) /\
  (exists highest, In highest (Dict.keys pvm) /\ TPOProfile.vah p == highest) /\
  forall k, In k (Dict.keys pvm) ->
            TPOProfile.val p <= k /\ k <= TPOProfile.vah p.

(** Price [k] carries the greatest volume of the distribution. *)
Definition has_maximum_volume (pvm : Dict.t Q) (k : Q) : Prop :=
  exists v, In (k, v) pvm /\ Forall (fun kv => snd kv <= v) pvm.

(** The POC that a recomputation on [self] stores, if it stores one. *)
Definition poc_after (self : t) : option Q :=
  match _calculate_profile self with
  | Ok self' => option_map TPOProfile.poc (current_profile self')
  | _ => None
  end.

(** The tie-break as the specification words it: the POC is no greater
    than any price of greatest volume. *)
Definition lowest_tie_is_poc (self : t) : Prop :=
  forall poc k,
    poc_after self = Some poc ->
    has_maximum_volume (price_volume_map self) k ->
    poc <= k.

(** Feeding candles one after the other. *)
Definition run_updates (self : t) (candles : list Candle.t) : result t :=
  fold_left
    (fun r candle => s <- r ;; x <- update s candle ;; Ok (fst x))
    candles (Ok self).

(** A candle whose four prices are equal. *)
Definition flat_candle (timestamp : Z) (price volume : Q) : Candle.t := {|
  Candle.timestamp := timestamp;
  Candle.open := price;
  Candle.high := price;
  Candle.low := price;
  Candle.close := price;
  Candle.volume := volume
|}.

Definition example_analyzer : t := init (0, 0)%Z 24 30 70 5.

(** Two one-minute bars of one session: 5 units traded at 101, then 5
    units traded at 100. *)
Definition tied_candles : list Candle.t :=
  [ flat_candle 1700000000000 101 5; flat_candle 1700000060000 100 5 ].

(** An analyzer in the middle of a session, holding three prices. *)
Definition example_session : t :=
  with_maps (with_session example_analyzer (Some 1699920000000%Z) None)
    [ (100, 2); (1001 # 10, 10); (1002 # 10, 3) ]
    [ (100, ["B"%char]); (1001 # 10, ["B"%char]); (1002 # 10, ["B"%char]) ].

End ProfileVocabulary.

Section VWAPVocabulary.
Import Models VWAPCalculator.

Definition typical_price (c : Candle.t) : Q :=
  (Candle.high c + Candle.low c + Candle.close c) / 3.

(** The sum of typical price times volume over the bars [cs]. *)
Definition sum_pv (cs : list Candle.t) : Q :=
  Py.sum (map (fun c => typical_price c * Candle.volume c) cs).

(** The sum of volume over the bars [cs]. *)
Definition sum_volume (cs : list Candle.t) : Q :=
  Py.sum (map Candle.volume cs).

(** The sum of squared typical price times volume over the bars [cs]. *)
Definition sum_pv2 (cs : list Candle.t) : Q :=
  Py.sum (map (fun c => typical_price c * typical_price c * Candle.volume c) cs).

(** The VWAP of the specification when bar [c] closes after the bars
    [earlier] of the same session: the quotient of the two sums over all
    these bars, or the typical price of [c] when no volume was traded. *)
Definition session_vwap (earlier : list Candle.t) (c : Candle.t) : Q :=
  let bars := earlier ++ [c] in
  if Qeq_bool (sum_volume bars) 0 then typical_price c
  else sum_pv bars / sum_volume bars.

(** The bars of [cs], each with the bars that precede it. *)
Fixpoint bars_so_far (earlier cs : list Candle.t)
  : list (list Candle.t * Candle.t) :=
  match cs with
  | [] => []
  | c :: cs' => (earlier, c) :: bars_so_far (earlier ++ [c]) cs'
  end.

(** The timestamp of [c] falls in the session that starts at [s]. *)
Definition in_session (reset_time : Z * Z) (s : Z) (c : Candle.t) : Prop :=
  Utils.get_session_start (Candle.timestamp c) reset_time = Ok s.

(** Calling [update] on each bar in turn, collecting what it returns. *)
Fixpoint feed (pow_half : Q -> Q) (self : t) (candles : list Candle.t)
  : result (t * list VWAPData.t) :=
  match candles with
  | [] => Ok (self, [])
  | c :: rest =>
      r <- update pow_half self c ;;
      r' <- feed pow_half (fst r) rest ;;
      Ok (fst r', snd r :: snd r')
  end.

(** What [update] keeps true inside the session that starts at [s],
    after the bars [done]. *)
Definition session_inv (s : Z) (done : list Candle.t) (self : t) : Prop :=
  current_session_start self = Some s /\
  cumulative_pv self == sum_pv done /\
  cumulative_volume self == sum_volume done /\
  cumulative_pv2 self == sum_pv2 done /\
  Forall (fun w => ~ w == 0) (vwap_history self).

(** A bar of a traded instrument: a positive typical price and no
    negative volume. *)
Definition market_bar (c : Candle.t) : Prop :=
  0 < typical_price c /\ 0 <= Candle.volume c.

Definition example_calculator : t := init (0, 0)%Z 20 (1 # 10000) (1 # 10) 2.

Definition example_bars : list Candle.t := [
  {| Candle.timestamp := 1700000000000; Candle.open := 100;
     Candle.high := 102; Candle.low := 99; Candle.close := 101;
     Candle.volume := 0 |};
  {| Candle.timestamp := 1700000060000; Candle.open := 101;
     Candle.high := 104; Candle.low := 100; Candle.close := 102;
     Candle.volume := 3 |};
  {| Candle.timestamp := 1700000120000; Candle.open := 102;
     Candle.high := 103; Candle.low := 98; Candle.close := 99;
     Candle.volume := 5 |}
].

End VWAPVocabulary.

Section OrderFlowVocabulary.
Import Models OrderFlowAnalyzer.

(** The calls that reach an analyzer. *)
Inductive call : Type :=
| UpdateFromTrades (trades : list Trade.t)
| UpdateFromOrderbook (orderbook : option OrderBookSnapshot.t)
| UpdateOI (new_oi : Q)
| FinalizeBar (price : Q)
| Reset.

(** The analyzer after one call, whether the call raised or not. *)
Definition step (self : t) (c : call) : t :=
  match c with
  | UpdateFromTrades trades => update_from_trades self trades
  | UpdateFromOrderbook orderbook => update_from_orderbook self orderbook
  | UpdateOI new_oi => update_oi self new_oi
  | FinalizeBar price => fst (finalize_bar self price)
  | Reset => reset self
  end.

Definition run (self : t) (calls : list call) : t := fold_left step calls self.

(** The per-bar deltas of the bars finalized since the last [reset]:
    [since_reset] holds those finalized before [calls]. *)
Fixpoint finalized_deltas (self : t) (calls : list call) (since_reset : list Q)
  : list Q :=
  match calls with
  | [] => since_reset
  | c :: rest =>
      finalized_deltas (step self c) rest
        (match c with
         | FinalizeBar _ => since_reset ++ [current_delta self]
         | Reset => []
         | _ => since_reset
         end)
  end.

(** The volume of the bar that [finalize_bar] closes. *)
Definition latest_volume (self : t) : Q :=
  buy_volume_current self + sell_volume_current self.

(** The lookback windows once the bar is appended. *)
Definition window_volumes (self : t) : list Q :=
  Py.deque_append (absorption_lookback self) (volume_history self)
    (latest_volume self).

Definition window_prices (self : t) (price : Q) : list Q :=
  Py.deque_append (absorption_lookback self) (price_history self) price.

Definition average_volume (self : t) : Q :=
  Py.sum (window_volumes self) / inject_Z (Py.len (window_volumes self)).

(** The price of the bar before the one being closed, if the window
    holds one. *)
Definition prior_price (self : t) (price : Q) : option Q :=
  let w := window_prices self price in
  if (2 <=? length w)%nat then nth_error w (length w - 2) else None.

Definition price_change_percent (price previous : Q) : Q :=
  Qabs ((price - previous) / previous) * 100.

(** The window is full once the bar is appended. *)
Definition full_window (self : t) : Prop :=
  length (window_volumes self) = absorption_lookback self.

(** Absorption as the specification words it: on a full window the flag
    is set only when the volume is strictly above the threshold and the
    price change is within the tolerance. *)
Definition absorption_only_strictly_above (self : t) (price : Q) : Prop :=
  full_window self ->
  forall self',
    finalize_bar self price = (self', Ok tt) ->
    absorption_detected self' = true ->
    average_volume self * absorption_volume_multiplier self < latest_volume self /\
    exists previous,
      prior_price self price = Some previous /\
      price_change_percent price previous <= absorption_price_tolerance self.

Definition buy (quantity : Q) : Trade.t := {|
  Trade.timestamp := 0;
  Trade.price := 100;
  Trade.quantity := quantity;
  Trade.is_buyer_maker := false
|}.

Definition sell (quantity : Q) : Trade.t := {|
  Trade.timestamp := 0;
  Trade.price := 100;
  Trade.quantity := quantity;
  Trade.is_buyer_maker := true
|}.

(** Thresholds: delta 1, two consecutive bars, CVD lookback 3, OI change
    1 percent, imbalance 0.6, absorption at 1.5 times the average volume
    of 2 bars with a price move of at most 0.1 percent. *)
Definition example_flow : t := init 1 2 3 1 0.6 1.5 0.1 2.

(** A bar of volume 1 closed at 100, then trades of volume 3. *)
Definition boundary_calls : list call :=
  [ UpdateFromTrades [buy 1]; FinalizeBar 100; UpdateFromTrades [buy 3] ].

(** The scenario of the specification: buy 0.1, sell 0.2, buy 0.15. *)
Definition three_trades : list Trade.t := [ buy 0.1; sell 0.2; buy 0.15 ].

End OrderFlowVocabulary.

Section ZeroReferences.
Import Models.

(** A snapshot whose VWAP is zero, as [update] builds it from a bar
    whose prices are all zero. *)
Definition zero_vwap : VWAPData.t := {|
  VWAPData.timestamp := 1700000000000;
  VWAPData.vwap := 0;
  VWAPData.upper_1std := 0;
  VWAPData.lower_1std := 0;
  VWAPData.upper_2std := 0;
  VWAPData.lower_2std := 0;
  VWAPData.cumulative_vp := 0;
  VWAPData.cumulative_volume := 0;
  VWAPData.slope := 0
|}.

(** A calculator that holds this snapshot. *)
Definition zero_calculator : VWAPCalculator.t :=
  VWAPCalculator.with_bar example_calculator 0 0 0 zero_vwap [0].

(** A bar of volume 1 closed at price 0, then trades of volume 3. *)
Definition zero_price_calls : list call :=
  [ UpdateFromTrades [buy 1]; FinalizeBar 0; UpdateFromTrades [buy 3] ].

End ZeroReferences.

Section SignalVocabulary.
Import Models SignalEngine.

(** The three cooldown timers. *)
Inductive category : Type := Long | Short | Failure.

Definition category_of (kind : SignalType) : category :=
  match kind with
  | LONG_ENTRY => Long
  | SHORT_ENTRY => Short
  | LONG_FAILURE | SHORT_FAILURE => Failure
  end.

Definition last_signal_time (self : t) (cat : category) : option Z :=
  match cat with
  | Long => last_long_signal_time self
  | Short => last_short_signal_time self
  | Failure => last_failure_signal_time self
  end.

(** The arguments of one call of [check_signals]. *)
Record check : Type := {
  current_time : Z;
  current_price : Q;
  tpo_data : option TPOProfile.t;
  tpo_event : option TPOStructureEvent;
  vwap_data : option VWAPData.t;
  orderflow_data : option OrderFlowMetrics.t
}.

Definition check_with (self : t) (c : check)
  : t * result (option SignalEvent.t) :=
  check_signals self (current_time c) (current_price c) (tpo_data c)
    (tpo_event c) (vwap_data c) (orderflow_data c).

(** The signals emitted over a sequence of calls on one engine, in the
    order of the calls; a call that raises emits nothing and leaves the
    engine it reached. *)
Fixpoint emitted (self : t) (calls : list check) : list SignalEvent.t :=
  match calls with
  | [] => []
  | c :: rest =>
      match check_with self c with
      | (self', Ok (Some signal)) => signal :: emitted self' rest
      | (self', _) => emitted self' rest
      end
  end.

(** Two signals are less than [cooldown] seconds apart. *)
Definition within_cooldown (cooldown : Q) (e1 e2 : SignalEvent.t) : Prop :=
  Qabs (inject_Z (SignalEvent.timestamp e2 - SignalEvent.timestamp e1)) / 1000
  < cooldown.

(** What a check of one category does: nothing, or, outside the cooldown
    of its timer, a signal of its category stamped with the current time
    and a confidence in [0,1], with the timer set to that time. *)
Definition emits_for (cat : category) (self : t) (time : Z) (self' : t)
    (out : option SignalEvent.t) : Prop :=
  match out with
  | None => self' = self
  | Some signal =>
      _is_in_cooldown self (last_signal_time self cat) time = false /\
      SignalEvent.timestamp signal = time /\
      category_of (SignalEvent.signal_type signal) = cat /\
      0 <= SignalEvent.confidence signal /\
      SignalEvent.confidence signal <= 1 /\
      match cat with
      | Long => self' = with_last_long self (Some time)
      | Short => self' = with_last_short self (Some time)
      | Failure => self' = with_last_failure self (Some time)
      end
  end.

(** What one call of [check_signals] does to the timers: a call that
    emits is outside the cooldown of the category of its signal and sets
    the timer of that category, and that timer only, to the current time;
    any other call leaves the three timers as they were. *)
Definition respects_timers (self : t) (time : Z) (self' : t)
    (out : result (option SignalEvent.t)) : Prop :=
  cooldown_seconds self' = cooldown_seconds self /\
  match out with
  | Ok (Some signal) =>
      let cat := category_of (SignalEvent.signal_type signal) in
      _is_in_cooldown self (last_signal_time self cat) time = false /\
      SignalEvent.timestamp signal = time /\
      0 <= SignalEvent.confidence signal /\
      SignalEvent.confidence signal <= 1 /\
      last_signal_time self' cat = Some time /\
      forall other, other <> cat ->
                    last_signal_time self' other = last_signal_time self other
  | _ => forall cat, last_signal_time self' cat = last_signal_time self cat
  end.

Definition example_engine : t :=
  init "BTCUSDT"
    {| LongConfig.vwap_pullback_tolerance := 0.001;
       LongConfig.require_all_orderflow := true;
       LongConfig.min_confidence := 0.7 |}
    {| ShortConfig.vwap_rejection_tolerance := 0.001;
       ShortConfig.require_all_orderflow := true;
       ShortConfig.min_confidence := 0.7 |}
    {| FailureConfig.min_confidence := 0.6 |}
    60.

Definition example_profile : TPOProfile.t := {|
  TPOProfile.session_start := 1699920000000;
  TPOProfile.session_end := 1700006400000;
  TPOProfile.poc := 100;
  TPOProfile.vah := 110;
  TPOProfile.val := 90;
  TPOProfile.price_levels := [];
  TPOProfile.tpo_letters := [];
  TPOProfile.total_volume := 1000;
  TPOProfile.value_area_volume := 700
|}.

Definition example_vwap : VWAPData.t := {|
  VWAPData.timestamp := 1700000000000;
  VWAPData.vwap := 100;
  VWAPData.upper_1std := 120;
  VWAPData.lower_1std := 80;
  VWAPData.upper_2std := 140;
  VWAPData.lower_2std := 60;
  VWAPData.cumulative_vp := 100000;
  VWAPData.cumulative_volume := 1000;
  VWAPData.slope := 0.5
|}.

(** All four bullish order-flow conditions hold. *)
Definition bullish_flow : OrderFlowMetrics.t := {|
  OrderFlowMetrics.timestamp := 1700000000000;
  OrderFlowMetrics.delta := 5;
  OrderFlowMetrics.cumulative_delta := 20;
  OrderFlowMetrics.delta_trend := BULLISH;
  OrderFlowMetrics.buy_volume := 0;
  OrderFlowMetrics.sell_volume := 0;
  OrderFlowMetrics.total_volume := 0;
  OrderFlowMetrics.oi := 1000;
  OrderFlowMetrics.oi_change := 10;
  OrderFlowMetrics.oi_change_percent := 1;
  OrderFlowMetrics.bid_volume := 0;
  OrderFlowMetrics.ask_volume := 0;
  OrderFlowMetrics.imbalance_ratio := 0;
  OrderFlowMetrics.absorption_detected := false;
  OrderFlowMetrics.absorption_price := None;
  OrderFlowMetrics.absorption_volume := 0;
  OrderFlowMetrics.consecutive_buy_bars := 3;
  OrderFlowMetrics.consecutive_sell_bars := 0
|}.

(** A breakout above the value area, at the VWAP, at [time]. *)
Definition breakout_at (time : Z) : check := {|
  current_time := time;
  current_price := 100;
  tpo_data := Some example_profile;
  tpo_event := Some VAH_BREAKOUT;
  vwap_data := Some example_vwap;
  orderflow_data := Some bullish_flow
|}.

End SignalVocabulary.

(** * Vocabulary of the further properties *)

Section UtilsVocabulary.

(** The hour and the minute of a session start time are those of a time of
    day. *)
Definition valid_time (session_start_time : Z * Z) : Prop :=
  (0 <= fst session_start_time < 24)%Z /\ (0 <= snd session_start_time < 60)%Z.

(** The timestamp is one of a [datetime]: of the years 1 to 9999. *)
Definition representable (timestamp_ms : Z) : Prop :=
  (Utils.datetime_min_ms <= timestamp_ms <= Utils.datetime_max_ms)%Z.

(** The session start time as milliseconds since midnight. *)
Definition start_offset (session_start_time : Z * Z) : Z :=
  ((fst session_start_time * 60 + snd session_start_time) * 60000)%Z.

(** The series [a, a + b, a + 2b, ...] of [n] values. *)
Definition line (a b : Q) (n : nat) : list Q :=
  map (fun x => a + b * x) (Utils.range n).

End UtilsVocabulary.

Section TPOVocabulary.
Import Models TPOAnalyzer.

(** What each structure event says about the last price, the current
    price and the profile. *)
Definition event_meaning (profile : TPOProfile.t) (last current : Q)
    (e : TPOStructureEvent) : Prop :=
  match e with
  | VAH_BREAKOUT => last < TPOProfile.vah profile /\ TPOProfile.vah profile <= current
  | VAH_REJECTION => TPOProfile.vah profile < last /\ current <= TPOProfile.vah profile
  | VAL_BOUNCE => last < TPOProfile.val profile /\ TPOProfile.val profile <= current
  | VAL_BREAK => TPOProfile.val profile < last /\ current <= TPOProfile.val profile
  | POC_RECLAIM => last < TPOProfile.poc profile /\ TPOProfile.poc profile <= current
  | POC_BREAKDOWN => TPOProfile.poc profile < last /\ current <= TPOProfile.poc profile
  | INSIDE_VALUE_AREA =>
      TPOProfile.is_inside_value_area profile last = false /\
      TPOProfile.is_inside_value_area profile current = true
  | OUTSIDE_VALUE_AREA =>
      TPOProfile.is_inside_value_area profile last = true /\
      TPOProfile.is_inside_value_area profile current = false
  end.

(** [volume_at_price] in the loop of [_add_price_volume]: the share of
    the volume of the candle that a price of its range receives. *)
Definition volume_at_price (tick : Q) (candle : Candle.t) : Q :=
  Candle.volume candle
  / ((Candle.high candle - Candle.low candle) / tick + 1).

(** The volume that [_add_price_volume] spreads over the map for one
    candle when the loop steps in exact arithmetic: all of it for a flat
    candle, and for a candle with a range one share per tick from the low
    up to the high. *)
Definition volume_added (tick : Q) (candle : Candle.t) : Q :=
  let price_range := Candle.high candle - Candle.low candle in
  if Qeq_bool price_range 0 then Candle.volume candle
  else
    inject_Z (Qfloor (price_range / tick) + 1)
    * (Candle.volume candle / (price_range / tick + 1)).

(** The prices of the sorted axis from index [lower] to index [upper],
    both included. *)
Definition axis_slice (prices : list Q) (lower upper : Z) : list Q :=
  firstn (Z.to_nat (upper - lower + 1)) (skipn (Z.to_nat lower) prices).

(** The value-area volume is the volume of the prices between the two
    indices. *)
Definition area_volume_inv (pvm : Dict.t Q) (prices : list Q) (a : area)
  : Prop :=
  (0 <= lower_index a <= upper_index a)%Z /\
  (upper_index a < Py.len prices)%Z /\
  value_area_volume a
  == Py.sum (map (Dict.get_default 0 pvm)
               (axis_slice prices (lower_index a) (upper_index a))).

(** [price] is within the percent tolerance of [level]: the distance is
    at most [tolerance_percent] hundredths of the size of the level. *)
Definition within_percent (price level tolerance_percent : Q) : Prop :=
  ~ level == 0 /\
  Qabs (price - level) * 100 <= tolerance_percent * Qabs level.

(** A candle with a range, five ticks wide. *)
Definition ranged_candle : Candle.t := {|
  Candle.timestamp := 1700000000000;
  Candle.open := 100;
  Candle.high := 1005 # 10;
  Candle.low := 100;
  Candle.close := 1003 # 10;
  Candle.volume := 12
|}.

(** The same candle some hours later, in the session that follows. *)
Definition next_session_candle : Candle.t := {|
  Candle.timestamp := 1700010000000;
  Candle.open := 100;
  Candle.high := 1005 # 10;
  Candle.low := 100;
  Candle.close := 1003 # 10;
  Candle.volume := 12
|}.

End TPOVocabulary.

Section VWAPHistoryVocabulary.

(** The last [n] values of [l], all of [l] when it has fewer. *)
Definition last_values {A : Type} (n : nat) (l : list A) : list A :=
  skipn (length l - n) l.

(** A square root on the rationals that is exact on the squares: the
    quotient of the integer square roots of the numerator and of the
    denominator of the reduced fraction. *)
Definition rational_root (x : Q) : Q :=
  let r := Qred x in
  inject_Z (Z.sqrt (Qnum r)) / inject_Z (Z.sqrt (Zpos (Qden r))).

(** Two bars of one unit each at 99 and at 101: a VWAP of 100 with a
    standard deviation of 1. *)
Definition spread_bars : list Models.Candle.t :=
  [ flat_candle 1700000000000 99 1; flat_candle 1700000060000 101 1 ].

(** Two bars of one unit each at 100: the close stays on the VWAP. *)
Definition resting_bars : list Models.Candle.t :=
  [ flat_candle 1700000000000 100 1; flat_candle 1700000060000 100 1 ].

End VWAPHistoryVocabulary.

Section SignalChecksVocabulary.
Import Models SignalEngine.

(** How many of the four order-flow confirmations a conditions object
    records. *)
Definition confirmations (c : SignalConditions.t) : Z :=
  count (SignalConditions.aggressive_flow c)
    (count (SignalConditions.oi_confirmed c)
       (count (SignalConditions.cvd_confirmed c)
          (count (SignalConditions.delta_confirmed c) 0%Z))).

(** How many of the four bullish order-flow tests the metrics pass:
    positive delta, bullish CVD trend, positive OI change, at least two
    consecutive buy bars. *)
Definition long_confirmations (flow : OrderFlowMetrics.t) : Z :=
  count (2 <=? OrderFlowMetrics.consecutive_buy_bars flow)%Z
    (count (Py.Qlt_bool 0 (OrderFlowMetrics.oi_change_percent flow))
       (count (is_bullish_trend (OrderFlowMetrics.delta_trend flow))
          (count (Py.Qlt_bool 0 (OrderFlowMetrics.delta flow)) 0%Z))).

(** The bearish tests: negative delta, bearish CVD trend, positive OI
    change, at least two consecutive sell bars. *)
Definition short_confirmations (flow : OrderFlowMetrics.t) : Z :=
  count (2 <=? OrderFlowMetrics.consecutive_sell_bars flow)%Z
    (count (Py.Qlt_bool 0 (OrderFlowMetrics.oi_change_percent flow))
       (count (is_bearish_trend (OrderFlowMetrics.delta_trend flow))
          (count (Py.Qlt_bool (OrderFlowMetrics.delta flow) 0) 0%Z))).

(** What stands behind an entry signal of each direction. *)
Definition long_entry_grounds (self : t) (c : check) (signal : SignalEvent.t)
  : Prop :=
  is_long_event (tpo_event c) = true /\
  SignalConditions.tpo_event (SignalEvent.conditions signal) = tpo_event c /\
  exists vwap flow,
    vwap_data c = Some vwap /\ orderflow_data c = Some flow /\
    (VWAPData.vwap vwap <= current_price c \/
     VWAPData.is_pullback_zone vwap (current_price c)
       (LongConfig.vwap_pullback_tolerance (long_config self)) = Ok true) /\
    ((if LongConfig.require_all_orderflow (long_config self) then 4 else 3)
     <= long_confirmations flow)%Z /\
    confirmations (SignalEvent.conditions signal) = long_confirmations flow /\
    Py.min (LongConfig.min_confidence (long_config self)) 1
    <= SignalEvent.confidence signal.

Definition short_entry_grounds (self : t) (c : check) (signal : SignalEvent.t)
  : Prop :=
  is_short_event (tpo_event c) = true /\
  SignalConditions.tpo_event (SignalEvent.conditions signal) = tpo_event c /\
  exists vwap flow,
    vwap_data c = Some vwap /\ orderflow_data c = Some flow /\
    (current_price c <= VWAPData.vwap vwap \/
     (VWAPData.is_pullback_zone vwap (current_price c)
        (ShortConfig.vwap_rejection_tolerance (short_config self)) = Ok true /\
      OrderFlowMetrics.delta flow < 0)) /\
    ((if ShortConfig.require_all_orderflow (short_config self) then 4 else 3)
     <= short_confirmations flow)%Z /\
    confirmations (SignalEvent.conditions signal) = short_confirmations flow /\
    Py.min (ShortConfig.min_confidence (short_config self)) 1
    <= SignalEvent.confidence signal.

(** What stands behind a failure signal: the price is within 0.2 percent
    of the level or of the band, and at most 0.2 percent away from the
    extreme price the engine has tracked. *)
Definition upside_failure_grounds (self : t) (c : check)
    (signal : SignalEvent.t) : Prop :=
  SignalConditions.tpo_event (SignalEvent.conditions signal)
  = Some VAH_REJECTION /\
  exists tpo vwap high,
    tpo_data c = Some tpo /\ vwap_data c = Some vwap /\
    (within_percent (current_price c) (TPOProfile.vah tpo) 0.2 \/
     within_percent (current_price c) (VWAPData.upper_1std vwap) 0.2) /\
    recent_high (_update_price_tracking self (current_price c)) = Some high /\
    high * 0.998 <= current_price c /\ current_price c <= high /\
    Py.min (FailureConfig.min_confidence (failure_config self)) 1
    <= SignalEvent.confidence signal /\
    0 < SignalEvent.confidence signal.

Definition downside_failure_grounds (self : t) (c : check)
    (signal : SignalEvent.t) : Prop :=
  SignalConditions.tpo_event (SignalEvent.conditions signal)
  = Some VAL_BOUNCE /\
  exists tpo vwap low,
    tpo_data c = Some tpo /\ vwap_data c = Some vwap /\
    (within_percent (current_price c) (TPOProfile.val tpo) 0.2 \/
     within_percent (current_price c) (VWAPData.lower_1std vwap) 0.2) /\
    recent_low (_update_price_tracking self (current_price c)) = Some low /\
    current_price c <= low * 1.002 /\ low <= current_price c /\
    Py.min (FailureConfig.min_confidence (failure_config self)) 1
    <= SignalEvent.confidence signal /\
    0 < SignalEvent.confidence signal.

(** The engine after a sequence of calls, raising ones included. *)
Definition after_checks (self : t) (calls : list check) : t :=
  fold_left (fun s c => fst (check_with s c)) calls self.

(** Selling pressure: a negative delta and a bearish CVD trend. *)
Definition bearish_flow : OrderFlowMetrics.t := {|
  OrderFlowMetrics.timestamp := 1700000000000;
  OrderFlowMetrics.delta := -5;
  OrderFlowMetrics.cumulative_delta := -20;
  OrderFlowMetrics.delta_trend := BEARISH;
  OrderFlowMetrics.buy_volume := 0;
  OrderFlowMetrics.sell_volume := 0;
  OrderFlowMetrics.total_volume := 0;
  OrderFlowMetrics.oi := 1000;
  OrderFlowMetrics.oi_change := 10;
  OrderFlowMetrics.oi_change_percent := 1;
  OrderFlowMetrics.bid_volume := 0;
  OrderFlowMetrics.ask_volume := 0;
  OrderFlowMetrics.imbalance_ratio := 0;
  OrderFlowMetrics.absorption_detected := false;
  OrderFlowMetrics.absorption_price := None;
  OrderFlowMetrics.absorption_volume := 0;
  OrderFlowMetrics.consecutive_buy_bars := 0;
  OrderFlowMetrics.consecutive_sell_bars := 3
|}.

(** A price at the value-area high, the highest price seen, met by
    selling. *)
Definition rejection_at (time : Z) : check := {|
  current_time := time;
  current_price := 110;
  tpo_data := Some example_profile;
  tpo_event := None;
  vwap_data := Some example_vwap;
  orderflow_data := Some bearish_flow
|}.

(** A call at [price] that carries no market data. *)
Definition bare_check (time : Z) (price : Q) : check := {|
  current_time := time;
  current_price := price;
  tpo_data := None;
  tpo_event := None;
  vwap_data := None;
  orderflow_data := None
|}.

End SignalChecksVocabulary.

Section AlertVocabulary.
Import Models AlertModels AlertManager.

(** The manager after a sequence of signals, raising calls included, and
    the alerts handed to the channels on the way. *)
Fixpoint send_all (self : t) (signals : list SignalEvent.t)
  : t * list AlertPriority :=
  match signals with
  | [] => (self, [])
  | signal :: rest =>
      let '(self1, alert, _) := send_signal_alert self signal in
      let '(self2, alerts) := send_all self1 rest in
      (self2, match alert with
              | Some priority => priority :: alerts
              | None => alerts
              end)
  end.

(** Two signals that the duplicate check cannot tell apart. *)
Definition same_alert (self : t) (s1 s2 : SignalEvent.t) : Prop :=
  SignalEvent.symbol s1 = SignalEvent.symbol s2 /\
  SignalEvent.signal_type s1 = SignalEvent.signal_type s2 /\
  window_bucket self s1 = window_bucket self s2.

(** Throttling on, duplicates within 300 seconds, three alerts an hour. *)
Definition example_manager : t := init true true 300 3.

Definition example_signal (time : Z) (kind : SignalType) : SignalEvent.t := {|
  SignalEvent.timestamp := time;
  SignalEvent.symbol := "BTCUSDT";
  SignalEvent.signal_type := kind;
  SignalEvent.price := 100;
  SignalEvent.conditions := SignalConditions.default;
  SignalEvent.confidence := 0.85;
  SignalEvent.tpo_data := None;
  SignalEvent.vwap_data := None;
  SignalEvent.orderflow_data := None;
  SignalEvent.alerted := false;
  SignalEvent.alert_timestamp := None
|}.

End AlertVocabulary.

(** * Properties *)

(** ** Comparisons and lists *)

(** Closes [true = (lo <=? i) && (i <? hi)] on integers. *)
Ltac in_range :=
  symmetry; rewrite ?andb_true_iff, ?Z.leb_le, ?Z.ltb_lt; lia.

Section Basics.

Lemma Qlt_bool_iff (x y : Q) : Py.Qlt_bool x y = true <-> x < y.
Proof.
  unfold Py.Qlt_bool. rewrite negb_true_iff.
  split; intro H.
  - apply Qnot_le_lt. intro Hle. apply Qle_bool_iff in Hle. congruence.
  - destruct (Qle_bool y x) eqn:E; [|reflexivity].
    apply Qle_bool_iff in E. apply Qle_not_lt in E. contradiction.
Qed.

Lemma Qlt_bool_false_iff (x y : Q) : Py.Qlt_bool x y = false <-> y <= x.
Proof.
  unfold Py.Qlt_bool. rewrite negb_false_iff. apply Qle_bool_iff.
Qed.

Lemma Qle_bool_false_iff (x y : Q) : Qle_bool x y = false <-> y < x.
Proof.
  rewrite <- Qlt_bool_iff. unfold Py.Qlt_bool.
  destruct (Qle_bool x y); simpl; split; congruence.
Qed.

Lemma Qeq_bool_false_iff (x y : Q) : Qeq_bool x y = false <-> ~ x == y.
Proof.
  split; intro H.
  - intro E. apply Qeq_bool_iff in E. congruence.
  - destruct (Qeq_bool x y) eqn:E; [|reflexivity].
    apply Qeq_bool_iff in E. contradiction.
Qed.

Lemma len_nonneg {A : Type} (l : list A) : (0 <= Py.len l)%Z.
Proof. unfold Py.len. lia. Qed.

Lemma index_in_range {A : Type} (l : list A) (i : Z) :
  (0 <= i < Py.len l)%Z ->
  exists a, Py.index l i = Ok a /\ nth_error l (Z.to_nat i) = Some a.
Proof.
  intros Hi. unfold Py.index.
  replace (i <? 0)%Z with false by lia.
  replace ((0 <=? i) && (i <? Py.len l))%Z with true by lia.
  destruct (nth_error l (Z.to_nat i)) as [a|] eqn:E.
  - exists a. split; reflexivity.
  - apply nth_error_None in E. unfold Py.len in Hi. lia.
Qed.

End Basics.

(** ** The sorted price axis of the profile *)

Section PriceAxis.
Import TPOAnalyzer.

Lemma insert_In (x y : Q) (l : list Q) :
  In y (insert x l) <-> y = x \/ In y l.
Proof.
  induction l as [|z l IH]; simpl.
  - intuition.
  - destruct (Qle_bool x z); simpl; rewrite ?IH; intuition.
Qed.

Lemma sorted_In (y : Q) (l : list Q) : In y (sorted l) <-> In y l.
Proof.
  induction l as [|x l IH]; simpl; [tauto|].
  rewrite insert_In, IH. intuition.
Qed.

Lemma insert_sorted (x : Q) (l : list Q) :
  StronglySorted Qle l -> StronglySorted Qle (insert x l).
Proof.
  induction 1 as [|z l Hs IH Hall]; simpl.
  - constructor; constructor.
  - destruct (Qle_bool x z) eqn:E.
    + apply Qle_bool_iff in E.
      constructor; [constructor; assumption|].
      constructor; [assumption|].
      eapply Forall_impl; [|exact Hall].
      intros a Ha. eapply Qle_trans; eassumption.
    + apply Qle_bool_false_iff in E.
      constructor; [assumption|].
      apply Forall_forall. intros a Ha.
      apply insert_In in Ha. destruct Ha as [->|Ha].
      * apply Qlt_le_weak; assumption.
      * rewrite Forall_forall in Hall. auto.
Qed.

Lemma sorted_sorted (l : list Q) : StronglySorted Qle (sorted l).
Proof.
  induction l as [|x l IH]; simpl; [constructor|].
  apply insert_sorted; assumption.
Qed.

Lemma sorted_nth_le (l : list Q) :
  StronglySorted Qle l ->
  forall i j a b, (i <= j)%nat ->
    nth_error l i = Some a -> nth_error l j = Some b -> a <= b.
Proof.
  induction 1 as [|z l Hs IH Hall]; intros i j a b Hij Hi Hj.
  - destruct i; discriminate.
  - destruct i as [|i], j as [|j]; simpl in *.
    + injection Hi as <-. injection Hj as <-. apply Qle_refl.
    + injection Hi as <-. apply nth_error_In in Hj.
      rewrite Forall_forall in Hall. auto.
    + lia.
    + eapply IH; [|eassumption|eassumption]. lia.
Qed.

Lemma list_index_spec (l : list Q) (x : Q) :
  (exists y, In y l /\ y == x) ->
  exists i a, list_index l x = Ok i /\ (0 <= i < Py.len l)%Z /\
              nth_error l (Z.to_nat i) = Some a /\ a == x.
Proof.
  induction l as [|z l IH]; intros (y & Hin & Hy); [destruct Hin|].
  simpl. destruct (Qeq_bool z x) eqn:E.
  - apply Qeq_bool_iff in E. exists 0%Z, z.
    unfold Py.len; simpl length. repeat split; try lia; assumption.
  - destruct Hin as [->|Hin].
    + apply Qeq_bool_iff in Hy. congruence.
    + destruct IH as (i & a & Hidx & Hr & Hn & Ha); [eauto|].
      rewrite Hidx. simpl. exists (i + 1)%Z, a.
      unfold Py.len in *; simpl length.
      repeat split; try lia; try assumption.
      replace (Z.to_nat (i + 1)) with (S (Z.to_nat i)) by lia.
      exact Hn.
Qed.

Lemma max_item_In (best : Q * Q) (items : list (Q * Q)) :
  In (max_item best items) (best :: items).
Proof.
  revert best. induction items as [|item rest IH]; intros best; simpl.
  - left; reflexivity.
  - destruct (IH (if Py.Qlt_bool (snd best) (snd item) then item else best))
      as [H|H].
    + destruct (Py.Qlt_bool (snd best) (snd item)); rewrite <- H; auto.
    + auto.
Qed.

End PriceAxis.

(** ** The distribution loop *)

Section Distribution.
Import Models TPOAnalyzer.

Lemma Qfloor_pred (y : Q) : (Qfloor (y - 1) <= Qfloor y - 1)%Z.
Proof.
  pose proof (Qfloor_le (y - 1)) as H.
  assert (Hle : inject_Z (Qfloor (y - 1) + 1) <= y).
  { rewrite inject_Z_plus. change (inject_Z 1) with 1. lra. }
  apply Qfloor_resp_le in Hle. rewrite Qfloor_Z in Hle. lia.
Qed.

Lemma round_to_tick_total (price tick : Q) :
  0 < tick -> exists q, Utils.round_to_tick price tick = Ok q.
Proof.
  intro Htick. unfold Utils.round_to_tick, Py.div.
  replace (Qeq_bool tick 0) with false; [cbn; eauto|].
  symmetry. apply Qeq_bool_false_iff. lra.
Qed.

(** With a positive tick the loop of [_add_price_volume] neither raises
    nor needs more fuel than the number of ticks left up to the high. *)
Lemma distribute_total (candle : Candle.t) (letter : ascii) (tick : Q)
    (fuel : nat) :
  0 < tick ->
  forall (pvm : Dict.t Q) (ptm : Dict.t (list ascii)) (current_price : Q),
    Candle.low candle <= current_price ->
    (Qfloor ((Candle.high candle - current_price) / tick) < Z.of_nat fuel)%Z ->
    exists maps,
      distribute fuel candle letter (Candle.high candle - Candle.low candle)
        tick pvm ptm current_price = Ok maps.
Proof.
  intro Htick.
  induction fuel as [|fuel IH]; intros pvm ptm current Hlow Hfuel.
  - cbn [distribute].
    destruct (Qle_bool current (Candle.high candle)) eqn:E; cbn [negb]; [|eauto].
    apply Qle_bool_iff in E. exfalso.
    assert (H0 : inject_Z 0 <= (Candle.high candle - current) / tick).
    { change (inject_Z 0) with 0. apply Qle_shift_div_l; [exact Htick|]. lra. }
    apply Qfloor_resp_le in H0. rewrite Qfloor_Z in H0. lia.
  - cbn [distribute].
    destruct (Qle_bool current (Candle.high candle)) eqn:E; cbn [negb]; [|eauto].
    apply Qle_bool_iff in E.
    destruct (round_to_tick_total current tick Htick) as (key & Hkey).
    rewrite Hkey. cbn [rbind]. unfold Py.div.
    assert (Htick0 : Qeq_bool tick 0 = false)
      by (apply Qeq_bool_false_iff; lra).
    rewrite Htick0. cbn [rbind].
    assert (Hticks : 0 <= (Candle.high candle - Candle.low candle) / tick).
    { apply Qle_shift_div_l; [exact Htick|]. lra. }
    assert (Hden : Qeq_bool ((Candle.high candle - Candle.low candle) / tick + 1) 0
                   = false)
      by (apply Qeq_bool_false_iff; lra).
    rewrite Hden. cbn [rbind].
    apply IH; [lra|].
    assert (Hstep : (Candle.high candle - (current + tick)) / tick
                    == (Candle.high candle - current) / tick - 1)
      by (field; lra).
    rewrite Hstep. pose proof (Qfloor_pred ((Candle.high candle - current) / tick)).
    lia.
Qed.

(** [_add_price_volume] returns whenever the tick size is positive, as it
    is in every analyzer built by [init]. *)
Lemma add_price_volume_total (self : t) (candle : Candle.t) :
  0 < tick_size self ->
  exists self',
    _add_price_volume self candle = Ok self' /\
    current_session_start self' = current_session_start self /\
    tick_size self' = tick_size self.
Proof.
  intro Htick. unfold _add_price_volume.
  destruct (round_to_tick_total (Candle.open candle) _ Htick) as (q1 & ->).
  destruct (round_to_tick_total (Candle.high candle) _ Htick) as (q2 & ->).
  destruct (round_to_tick_total (Candle.low candle) _ Htick) as (q3 & ->).
  destruct (round_to_tick_total (Candle.close candle) _ Htick) as (q4 & ->).
  cbn [rbind].
  destruct (Qeq_bool (Candle.high candle - Candle.low candle) 0);
    [eexists; repeat split; reflexivity|].
  edestruct (distribute_total candle) as (maps & ->); [exact Htick| | |].
  - apply Qle_refl.
  - unfold distribute_fuel.
    destruct (Qfloor ((Candle.high candle - Candle.low candle) / tick_size self));
      lia.
  - cbn [rbind]. eexists; repeat split; reflexivity.
Qed.

End Distribution.

(** ** The value-area loop *)

Section ValueArea.
Import TPOAnalyzer.

Variable pvm : Dict.t Q.
Variable prices : list Q.
Variable target_volume : Q.
Variable poc_index : Z.

Lemma expand_total (fuel : nat) :
  forall a,
    area_inv prices poc_index a ->
    (Py.len prices - 1 - upper_index a + lower_index a < Z.of_nat fuel)%Z ->
    exists a', expand fuel pvm prices target_volume a = Ok a' /\
               area_inv prices poc_index a' /\
               area_stopped pvm prices target_volume a'.
Proof.
  induction fuel as [|fuel IH]; intros a Hinv Hfuel;
    pose proof Hinv as (Hlo & Hup & Hpl & Hpu).
  - lia.
  - cbn [expand].
    destruct (Py.Qlt_bool (value_area_volume a) target_volume) eqn:Hlt;
      cbn [negb].
    2:{ apply Qlt_bool_false_iff in Hlt. exists a. unfold area_stopped. auto. }
    destruct (upper_index a + 1 <? Py.len prices)%Z eqn:Eup;
      destruct (0 <=? lower_index a - 1)%Z eqn:Edn.
    + destruct (index_in_range prices (upper_index a + 1)) as (pu & Hiu & Hnu);
        [lia|].
      destruct (index_in_range prices (lower_index a - 1)) as (pl & Hil & Hnl);
        [lia|].
      rewrite Hiu, Hil. cbn [rbind].
      destruct (Qle_bool (Dict.get_default 0 pvm pl) (Dict.get_default 0 pvm pu));
        cbn [andb]; rewrite ?Hiu, ?Hil; cbn [rbind]; apply IH; cbn;
        try lia; unfold area_inv; cbn; repeat split; try lia; eauto;
        eexists; split; try eassumption; reflexivity.
    + destruct (index_in_range prices (upper_index a + 1)) as (pu & Hiu & Hnu);
        [lia|].
      rewrite Hiu. cbn [rbind].
      destruct (Qle_bool 0 (Dict.get_default 0 pvm pu)) eqn:Hcmp; cbn [andb].
      * cbn [rbind]. apply IH; cbn; try lia.
        unfold area_inv; cbn; repeat split; try lia; eauto.
        eexists; split; try eassumption; reflexivity.
      * apply Qle_bool_false_iff in Hcmp. exists a. split; [reflexivity|].
        split; [assumption|]. right; right. split; [lia|]. eauto.
    + destruct (index_in_range prices (lower_index a - 1)) as (pl & Hil & Hnl);
        [lia|].
      rewrite Hil. cbn [rbind]. rewrite andb_false_r.
      cbn [rbind]. apply IH; cbn; try lia.
      unfold area_inv; cbn; repeat split; try lia; eauto.
      eexists; split; try eassumption; reflexivity.
    + cbn [rbind]. rewrite andb_false_r.
      exists a. split; [reflexivity|]. split; [assumption|].
      right; left. lia.
Qed.

End ValueArea.

(** ** Profile recomputation *)

Section Profile.
Import Models TPOAnalyzer.

(** [max_item] returns the first item of greatest volume: everything
    before it is strictly smaller, everything after it is no greater. *)
Lemma max_item_first_gen (items : list (Q * Q)) :
  forall (pre : list (Q * Q)) (best : Q * Q) (mid : list (Q * Q)),
    Forall (fun kv => snd kv < snd best) pre ->
    Forall (fun kv => snd kv <= snd best) mid ->
    exists before after,
      pre ++ best :: mid ++ items = before ++ max_item best items :: after /\
      Forall (fun kv => snd kv < snd (max_item best items)) before /\
      Forall (fun kv => snd kv <= snd (max_item best items)) after.
Proof.
  induction items as [|item rest IH]; intros pre best mid Hpre Hmid; cbn [max_item].
  - exists pre, mid. rewrite app_nil_r. auto.
  - destruct (Py.Qlt_bool (snd best) (snd item)) eqn:E.
    + apply Qlt_bool_iff in E.
      destruct (IH (pre ++ best :: mid) item []) as (before & after & Heq & Hb & Ha).
      * apply Forall_app. split.
        -- eapply Forall_impl; [|exact Hpre]. cbn; intros kv Hkv.
           eapply Qlt_trans; eassumption.
        -- constructor; [assumption|].
           eapply Forall_impl; [|exact Hmid]. cbn; intros kv Hkv.
           eapply Qle_lt_trans; eassumption.
      * constructor.
      * exists before, after. split; [|auto].
        rewrite <- Heq. rewrite <- app_assoc. reflexivity.
    + apply Qlt_bool_false_iff in E.
      destruct (IH pre best (mid ++ [item])) as (before & after & Heq & Hb & Ha).
      * assumption.
      * apply Forall_app. split; [assumption|]. constructor; [assumption|constructor].
      * exists before, after. split; [|auto].
        rewrite <- Heq. rewrite <- app_assoc. reflexivity.
Qed.

Lemma max_item_first (first : Q * Q) (rest : list (Q * Q)) :
  exists before after,
    first :: rest = before ++ max_item first rest :: after /\
    Forall (fun kv => snd kv < snd (max_item first rest)) before /\
    Forall (fun kv => snd kv <= snd (max_item first rest)) after.
Proof.
  destruct (max_item_first_gen rest [] first []) as (before & after & H);
    [constructor|constructor|].
  exists before, after. exact H.
Qed.

(** The recomputation terminates without raising on a non-empty map once
    a session has started, and its result is described by the final
    variables of the value-area loop. *)
Lemma calculate_profile_spec (self : t) (start : Z) :
  price_volume_map self <> [] ->
  current_session_start self = Some start ->
  let pvm := price_volume_map self in
  let prices := sorted (Dict.keys pvm) in
  let total := Py.sum (Dict.values pvm) in
  exists self' p a poc_index,
    _calculate_profile self = Ok self' /\
    current_profile self' = Some p /\
    area_inv prices poc_index a /\
    area_stopped pvm prices (total * (value_area_percent self / 100)) a /\
    (exists q, nth_error prices (Z.to_nat poc_index) = Some q /\
               q == TPOProfile.poc p) /\
    TPOProfile.poc p = fst (max_item (hd (0, 0) pvm) (tl pvm)) /\
    TPOProfile.vah p = upper_price a /\
    TPOProfile.val p = lower_price a /\
    TPOProfile.value_area_volume p = value_area_volume a /\
    TPOProfile.total_volume p = total.
Proof.
  intros Hne Hstart. cbv zeta. unfold _calculate_profile.
  destruct (price_volume_map self) as [|first rest] eqn:Epvm; [contradiction|].
  cbn [hd tl].
  set (pvm := first :: rest).
  set (prices := sorted (Dict.keys pvm)).
  set (total := Py.sum (Dict.values pvm)).
  set (poc_price := fst (max_item first rest)).
  assert (Hin : exists y, In y prices /\ y == poc_price).
  { exists poc_price. split; [|reflexivity].
    apply sorted_In. unfold Dict.keys. apply in_map. apply max_item_In. }
  destruct (list_index_spec prices poc_price Hin) as (i & q & Hidx & Hr & Hn & Hq).
  rewrite Hidx. cbn [rbind].
  set (a0 := {| value_area_volume := Dict.get_default 0 pvm poc_price;
                upper_price := poc_price; lower_price := poc_price;
                upper_index := i; lower_index := i |}).
  destruct (expand_total pvm prices (total * (value_area_percent self / 100)) i
              (length prices) a0) as (a & Hexp & Hinv & Hstop).
  { unfold area_inv, a0; cbn [lower_index upper_index lower_price upper_price].
    repeat split; try lia; eauto. }
  { unfold a0; cbn [lower_index upper_index]. unfold Py.len. lia. }
  rewrite Hexp. cbn [rbind]. rewrite Hstart.
  eexists _, _, a, i. split; [reflexivity|]. cbn.
  split; [reflexivity|].
  repeat split; try assumption; try reflexivity; try apply Hinv.
  exists q. split; assumption.
Qed.

End Profile.

(** ** The claims on the TPO profile *)

Section ProfileClaims.
Import Models TPOAnalyzer.

Lemma get_default_nonneg (pvm : Dict.t Q) (k : Q) :
  nonneg_volumes pvm -> 0 <= Dict.get_default 0 pvm k.
Proof.
  unfold Dict.get_default.
  induction 1 as [|[k' v] m Hv Hm IH]; cbn [Dict.get].
  - apply Qle_refl.
  - destruct (Qeq_bool k' k); [exact Hv|exact IH].
Qed.

Lemma keys_of_axis (pvm : Dict.t Q) (n : nat) (q : Q) :
  nth_error (sorted (Dict.keys pvm)) n = Some q -> In q (Dict.keys pvm).
Proof. intro H. apply sorted_In. eapply nth_error_In; eassumption. Qed.

(** C9. Every profile stored by a recomputation has VAL <= POC <= VAH; on
    a non-empty map, once the session has started, the recomputation
    does store one. *)
Theorem profile_levels_ordered (self : t) (start : Z) :
  price_volume_map self <> [] ->
  current_session_start self = Some start ->
  exists self' p,
    _calculate_profile self = Ok self' /\
    current_profile self' = Some p /\
    TPOProfile.val p <= TPOProfile.poc p /\
    TPOProfile.poc p <= TPOProfile.vah p.
Proof.
  intros Hne Hstart.
  destruct (calculate_profile_spec self start Hne Hstart)
    as (self' & p & a & i & Hcalc & Hcur & Hinv & _ & (q & Hq & Hqp) & _
        & Hvah & Hval & _).
  destruct Hinv as (Hlo & Hup & (pl & Hpl & Hple) & (pu & Hpu & Hpue)).
  pose proof (sorted_sorted (Dict.keys (price_volume_map self))) as Hs.
  exists self', p. repeat split; try assumption.
  - rewrite Hval, <- Hple, <- Hqp.
    eapply (sorted_nth_le _ Hs); [|exact Hpl|exact Hq]. lia.
  - rewrite Hvah, <- Hpue, <- Hqp.
    eapply (sorted_nth_le _ Hs); [|exact Hq|exact Hpu]. lia.
Qed.

Lemma profile_levels_ordered_witness :
  price_volume_map example_session <> [] /\
  current_session_start example_session = Some 1699920000000%Z /\
  exists self' p,
    _calculate_profile example_session = Ok self' /\
    current_profile self' = Some p /\
    TPOProfile.val p <= TPOProfile.poc p /\
    TPOProfile.poc p <= TPOProfile.vah p.
Proof.
  assert (H1 : price_volume_map example_session <> []) by discriminate.
  assert (H2 : current_session_start example_session = Some 1699920000000%Z)
    by reflexivity.
  exact (conj H1 (conj H2 (profile_levels_ordered example_session _ H1 H2))).
Defined.

(** C5, as the code has it. Among the prices of greatest volume the POC
    is the first one in the insertion order of the price-to-volume map:
    every entry before it has a strictly smaller volume, every entry
    after it has a volume that is no greater. *)
Theorem poc_is_first_maximum (self : t) (start : Z) :
  price_volume_map self <> [] ->
  current_session_start self = Some start ->
  exists self' p v before after,
    _calculate_profile self = Ok self' /\
    current_profile self' = Some p /\
    price_volume_map self = before ++ (TPOProfile.poc p, v) :: after /\
    Forall (fun kv => snd kv < v) before /\
    Forall (fun kv => snd kv <= v) after.
Proof.
  intros Hne Hstart.
  destruct (calculate_profile_spec self start Hne Hstart)
    as (self' & p & a & i & Hcalc & Hcur & _ & _ & _ & Hpoc & _).
  destruct (price_volume_map self) as [|first rest] eqn:Epvm; [contradiction|].
  cbn [hd tl] in Hpoc.
  destruct (max_item_first first rest) as (before & after & Heq & Hb & Ha).
  exists self', p, (snd (max_item first rest)), before, after.
  repeat split; try assumption.
  rewrite Hpoc, <- surjective_pairing. exact Heq.
Qed.

Lemma poc_is_first_maximum_witness :
  price_volume_map example_session <> [] /\
  current_session_start example_session = Some 1699920000000%Z /\
  exists self' p v before after,
    _calculate_profile example_session = Ok self' /\
    current_profile self' = Some p /\
    price_volume_map example_session
      = before ++ (TPOProfile.poc p, v) :: after /\
    Forall (fun kv => snd kv < v) before /\
    Forall (fun kv => snd kv <= v) after.
Proof.
  assert (H1 : price_volume_map example_session <> []) by discriminate.
  assert (H2 : current_session_start example_session = Some 1699920000000%Z)
    by reflexivity.
  exact (conj H1 (conj H2 (poc_is_first_maximum example_session _ H1 H2))).
Defined.

(** C5, as the specification words it, fails: after 5 units at 101 and
    then 5 units at 100 both prices carry the greatest volume, and the
    POC is 101. *)
Lemma poc_tie_counterexample :
  exists self,
    run_updates example_analyzer tied_candles = Ok self /\
    ~ lowest_tie_is_poc self.
Proof.
  eexists. split; [vm_compute; reflexivity|].
  intro H.
  assert (Hle : 101 <= 100).
  { apply H.
    - vm_compute. reflexivity.
    - exists 5. split.
      + right; left; reflexivity.
      + repeat constructor; cbn; lra. }
  lra.
Qed.

End ProfileClaims.

(** ** The session VWAP *)

Section VWAPClaims.
Import Models VWAPCalculator.

Variable pow_half : Q -> Q.

Lemma Qeq_bool_zero_compat (x y : Q) :
  x == y -> Qeq_bool x 0 = Qeq_bool y 0.
Proof.
  intro H. destruct (Qeq_bool y 0) eqn:E.
  - apply Qeq_bool_iff. apply Qeq_bool_iff in E. rewrite H. exact E.
  - apply Qeq_bool_false_iff. apply Qeq_bool_false_iff in E.
    rewrite H. exact E.
Qed.

Lemma sum_snoc (l : list Q) (x : Q) : Py.sum (l ++ [x]) = Py.sum l + x.
Proof. unfold Py.sum. rewrite fold_left_app. reflexivity. Qed.

Lemma sum_pv_snoc (cs : list Candle.t) (c : Candle.t) :
  sum_pv (cs ++ [c]) = sum_pv cs + typical_price c * Candle.volume c.
Proof. unfold sum_pv. rewrite map_app. apply sum_snoc. Qed.

Lemma sum_volume_snoc (cs : list Candle.t) (c : Candle.t) :
  sum_volume (cs ++ [c]) = sum_volume cs + Candle.volume c.
Proof. unfold sum_volume. rewrite map_app. apply sum_snoc. Qed.

Lemma sum_pv2_snoc (cs : list Candle.t) (c : Candle.t) :
  sum_pv2 (cs ++ [c])
  = sum_pv2 cs + typical_price c * typical_price c * Candle.volume c.
Proof. unfold sum_pv2. rewrite map_app. apply sum_snoc. Qed.

Lemma deque_append_In {A : Type} (n : nat) (d : list A) (x y : A) :
  In y (Py.deque_append n d x) -> In y d \/ y = x.
Proof.
  unfold Py.deque_append. intro H.
  assert (Hin : In y (d ++ [x])).
  { rewrite <- (firstn_skipn (length (d ++ [x]) - n) (d ++ [x])).
    apply in_or_app. right. exact H. }
  apply in_app_or in Hin. destruct Hin as [Hin|[Hin|[]]]; auto.
Qed.

Lemma percent_distance_total (price reference : Q) :
  ~ reference == 0 ->
  exists d, percent_distance price reference = Ok d.
Proof.
  intro H. unfold percent_distance, Py.div.
  apply Qeq_bool_false_iff in H. rewrite H. cbn. eauto.
Qed.

(** With a non-zero VWAP and a history of non-zero VWAPs the tracking of
    pullbacks and rejections returns, and only touches the counters. *)
Lemma tracking_total (self : t) (data : VWAPData.t) (price : Q) :
  current_vwap self = Some data ->
  ~ VWAPData.vwap data == 0 ->
  Forall (fun w => ~ w == 0) (vwap_history self) ->
  exists p r, _update_pullback_tracking self price = Ok (with_counters self p r).
Proof.
  intros Hcur Hnz Hhist.
  unfold _update_pullback_tracking, is_pullback, is_rejection. rewrite Hcur.
  destruct (percent_distance_total price _ Hnz) as (d & Hd).
  rewrite Hd. cbn [rbind].
  destruct (Qle_bool d (pullback_tolerance self)); [eauto|].
  destruct (length (vwap_history self) <? 2)%nat eqn:Elen; cbn [rbind]; [eauto|].
  apply Nat.ltb_ge in Elen.
  unfold Py.index. cbn [Z.ltb Z.compare].
  assert (Hlen : (0 <= Py.len (vwap_history self) + -2)%Z)
    by (unfold Py.len; lia).
  replace ((0 <=? Py.len (vwap_history self) + -2)
           && (Py.len (vwap_history self) + -2 <? Py.len (vwap_history self)))%Z
    with true by lia.
  destruct (nth_error (vwap_history self)
              (Z.to_nat (Py.len (vwap_history self) + -2))) as [prev|] eqn:En.
  2:{ apply nth_error_None in En. unfold Py.len in *. lia. }
  cbn [rbind].
  assert (Hprev : ~ prev == 0).
  { rewrite Forall_forall in Hhist. apply Hhist.
    eapply nth_error_In; eassumption. }
  destruct (percent_distance_total price _ Hprev) as (dp & Hdp).
  rewrite Hdp. cbn [rbind].
  destruct (_ && _); eauto.
Qed.

(** One bar inside the running session. *)
Lemma update_in_session (self : t) (s : Z) (done : list Candle.t)
    (c : Candle.t) :
  session_inv s done self ->
  in_session (session_reset_time self) s c ->
  ~ session_vwap done c == 0 ->
  exists self' data,
    update pow_half self c = Ok (self', data) /\
    VWAPData.vwap data == session_vwap done c /\
    session_reset_time self' = session_reset_time self /\
    session_inv s (done ++ [c]) self'.
Proof.
  intros (Hs & Hpv & Hv & Hpv2 & Hh) Hin Hnz.
  unfold update. unfold in_session in Hin. rewrite Hin. cbn [rbind].
  rewrite Hs, Z.eqb_refl. cbn [negb].
  fold (typical_price c).
  set (pv' := cumulative_pv self + typical_price c * Candle.volume c).
  set (v' := cumulative_volume self + Candle.volume c).
  set (vwap := if Qeq_bool v' 0 then typical_price c else pv' / v').
  assert (Epv : pv' == sum_pv (done ++ [c])).
  { rewrite sum_pv_snoc. unfold pv'. rewrite Hpv. reflexivity. }
  assert (Ev : v' == sum_volume (done ++ [c])).
  { rewrite sum_volume_snoc. unfold v'. rewrite Hv. reflexivity. }
  assert (Evwap : vwap == session_vwap done c).
  { unfold vwap, session_vwap. rewrite (Qeq_bool_zero_compat _ _ Ev).
    destruct (Qeq_bool (sum_volume (done ++ [c])) 0); [reflexivity|].
    rewrite Epv, Ev. reflexivity. }
  match goal with
  | |- context [_update_pullback_tracking ?st ?price] =>
      edestruct (tracking_total st _ price eq_refl) as (p & r & Htrack)
  end.
  - cbn. rewrite Evwap. exact Hnz.
  - cbn. apply Forall_forall. intros w Hw.
    apply deque_append_In in Hw. destruct Hw as [Hw| ->].
    + rewrite Forall_forall in Hh. auto.
    + fold v' pv' vwap. rewrite Evwap. exact Hnz.
  - rewrite Htrack. cbn [rbind].
    eexists _, _. split; [reflexivity|]. cbn.
    split; [exact Evwap|]. split; [reflexivity|].
    unfold session_inv; cbn. repeat split; try assumption.
    { fold (typical_price c). rewrite sum_pv2_snoc, Hpv2. reflexivity. }
    apply Forall_forall. intros w Hw.
    apply deque_append_In in Hw. destruct Hw as [Hw| ->].
    + rewrite Forall_forall in Hh. auto.
    + fold v' pv' vwap. rewrite Evwap. exact Hnz.
Qed.

(** The first bar of a session is handled as by a freshly reset
    calculator. *)
Lemma update_new_session (self : t) (s : Z) (c : Candle.t) :
  in_session (session_reset_time self) s c ->
  current_session_start self <> Some s ->
  update pow_half self c = update pow_half (_reset_session self s) c.
Proof.
  intros Hin Hne. unfold update. unfold in_session in Hin.
  cbn [session_reset_time _reset_session]. rewrite Hin. cbn [rbind].
  cbn [current_session_start _reset_session]. rewrite Z.eqb_refl. cbn [negb].
  destruct (current_session_start self) as [current|]; [|reflexivity].
  destruct (s =? current)%Z eqn:E; [|reflexivity].
  apply Z.eqb_eq in E. subst. contradiction.
Qed.

Lemma feed_in_session (candles : list Candle.t) :
  forall (self : t) (s : Z) (done : list Candle.t),
    session_inv s done self ->
    Forall (in_session (session_reset_time self) s) candles ->
    Forall (fun b => ~ session_vwap (fst b) (snd b) == 0)
      (bars_so_far done candles) ->
    exists self' outputs,
      feed pow_half self candles = Ok (self', outputs) /\
      Forall2 (fun d b => VWAPData.vwap d == session_vwap (fst b) (snd b))
        outputs (bars_so_far done candles) /\
      session_inv s (done ++ candles) self'.
Proof.
  induction candles as [|c rest IH]; intros self s done Hinv Hin Hnz.
  - exists self, []. cbn. rewrite app_nil_r. auto.
  - cbn [bars_so_far] in *. inversion Hin as [|? ? Hc Hrest]; subst.
    inversion Hnz as [|? ? Hnzc Hnzrest]; subst. cbn [fst snd] in Hnzc.
    destruct (update_in_session self s done c Hinv Hc Hnzc)
      as (self1 & data & Hupd & Hvwap & Hrt & Hinv1).
    destruct (IH self1 s (done ++ [c]) Hinv1) as (self' & outs & Hfeed & Hall & Hinv');
      [rewrite Hrt; assumption|assumption|].
    exists self', (data :: outs). cbn [feed]. rewrite Hupd. cbn [rbind fst snd].
    rewrite Hfeed. cbn [rbind fst snd].
    split; [reflexivity|]. split.
    + constructor; assumption.
    + rewrite <- app_assoc in Hinv'. exact Hinv'.
Qed.

(** Bars with positive prices and no negative volume never give a zero
    VWAP, so the condition of the theorem below holds for them. *)
Lemma market_bars_sums (cs : list Candle.t) :
  Forall market_bar cs ->
  0 <= sum_volume cs /\ 0 <= sum_pv cs /\ (0 < sum_volume cs -> 0 < sum_pv cs).
Proof.
  induction cs as [|c cs IH] using rev_ind; intro H.
  - unfold sum_volume, sum_pv, Py.sum; cbn. lra.
  - apply Forall_app in H. destruct H as (Hcs & Hc).
    inversion Hc as [|? ? (Htp & Hv) _]; subst.
    destruct (IH Hcs) as (H1 & H2 & H3).
    rewrite sum_volume_snoc, sum_pv_snoc.
    assert (Hpv : 0 <= typical_price c * Candle.volume c) by nra.
    repeat split; try lra.
    intro Hpos.
    destruct (Qlt_le_dec 0 (sum_volume cs)) as [Hcs_pos|Hcs_zero].
    + specialize (H3 Hcs_pos). lra.
    + assert (0 < Candle.volume c) by lra. nra.
Qed.

Lemma market_bars_nonzero_vwap (cs earlier : list Candle.t) :
  Forall market_bar earlier ->
  Forall market_bar cs ->
  Forall (fun b => ~ session_vwap (fst b) (snd b) == 0) (bars_so_far earlier cs).
Proof.
  revert earlier. induction cs as [|c cs IH]; intros earlier He Hcs; [constructor|].
  inversion Hcs as [|? ? Hc Hrest]; subst.
  assert (Hall : Forall market_bar (earlier ++ [c])).
  { apply Forall_app. split; [assumption|]. constructor; [assumption|constructor]. }
  cbn [bars_so_far]. constructor; [|apply IH; assumption].
  cbn [fst snd]. unfold session_vwap.
  destruct (market_bars_sums _ Hall) as (Hv & Hpv & Hpos).
  destruct (Qeq_bool (sum_volume (earlier ++ [c])) 0) eqn:E.
  - destruct Hc as (Htp & _). lra.
  - apply Qeq_bool_false_iff in E.
    assert (Hvpos : 0 < sum_volume (earlier ++ [c])).
    { destruct (Qlt_le_dec 0 (sum_volume (earlier ++ [c]))) as [H|H]; [exact H|].
      exfalso. apply E. lra. }
    specialize (Hpos Hvpos).
    assert (0 < sum_pv (earlier ++ [c]) / sum_volume (earlier ++ [c])).
    { apply Qlt_shift_div_l; [exact Hvpos|]. lra. }
    lra.
Qed.





End VWAPClaims.

Section VWAPWitness.
Import Models VWAPCalculator.


End VWAPWitness.

Section VWAPRaises.
Import Models VWAPCalculator.


End VWAPRaises.

(** ** Order flow *)

Section OrderFlowClaims.
Import Models OrderFlowAnalyzer.

Lemma check_absorption_cumulative_delta (self : t) (price : Q) :
  cumulative_delta (fst (_check_absorption self price)) = cumulative_delta self.
Proof.
  unfold _check_absorption.
  repeat match goal with
         | |- context [if ?b then _ else _] => destruct b
         | |- context [match ?r with Ok _ => _ | Raise _ => _ | OutOfFuel => _ end] =>
             destruct r
         end; reflexivity.
Qed.

Lemma update_trend_cumulative_delta (self : t) :
  cumulative_delta (_update_trend self) = cumulative_delta self.
Proof.
  unfold _update_trend.
  repeat match goal with
         | |- context [if ?b then _ else _] => destruct b
         end; reflexivity.
Qed.

Lemma update_consecutive_cumulative_delta (self : t) :
  cumulative_delta (_update_consecutive_bars self) = cumulative_delta self.
Proof.
  unfold _update_consecutive_bars.
  repeat match goal with
         | |- context [if ?b then _ else _] => destruct b
         end; reflexivity.
Qed.

(** [finalize_bar] adds the delta of the bar to the cumulative delta,
    also when its absorption check raises. *)
Lemma finalize_bar_cumulative_delta (self : t) (price : Q) :
  cumulative_delta (fst (finalize_bar self price))
  = cumulative_delta self + current_delta self.
Proof.
  unfold finalize_bar.
  match goal with
  | |- context [_check_absorption ?s ?p] =>
      pose proof (check_absorption_cumulative_delta s p) as H;
      destruct (_check_absorption s p) as [self4 [u|e|]]
  end; cbn [fst] in *; cbn [cumulative_delta with_bar_volumes];
    rewrite H, update_consecutive_cumulative_delta, update_trend_cumulative_delta;
    reflexivity.
Qed.

Lemma step_cumulative_delta (self : t) (c : call) :
  cumulative_delta (step self c)
  = match c with
    | FinalizeBar _ => cumulative_delta self + current_delta self
    | Reset => 0
    | _ => cumulative_delta self
    end.
Proof.
  destruct c as [trades|orderbook|new_oi|price|]; cbn [step].
  - reflexivity.
  - unfold update_from_orderbook.
    destruct orderbook as [book|]; [|reflexivity].
    destruct (OrderBookSnapshot.bids book), (OrderBookSnapshot.asks book);
      try reflexivity.
    match goal with |- context [if ?b then _ else _] => destruct b end;
      reflexivity.
  - reflexivity.
  - apply finalize_bar_cumulative_delta.
  - reflexivity.
Qed.

Lemma run_cumulative_delta (calls : list call) :
  forall (self : t) (since_reset : list Q),
    cumulative_delta self == Py.sum since_reset ->
    cumulative_delta (run self calls)
    == Py.sum (finalized_deltas self calls since_reset).
Proof.
  induction calls as [|c rest IH]; intros self since_reset Hinv; [exact Hinv|].
  cbn [run fold_left finalized_deltas]. apply IH.
  rewrite step_cumulative_delta.
  destruct c; try exact Hinv.
  - rewrite sum_snoc, Hinv. reflexivity.
  - reflexivity.
Qed.

(** C6. Whatever calls an analyzer receives after its creation, its
    cumulative delta is the sum of the per-bar deltas of the bars
    finalized since the last [reset]; [reset] itself sets it to 0. *)
Theorem cvd_is_running_sum (delta_thr : Q) (bars_required trend_lookback : Z)
    (oi_change imbalance_thr volume_mult price_tol : Q) (lookback : nat)
    (calls : list call) :
  let fresh :=
    init delta_thr bars_required trend_lookback oi_change imbalance_thr
      volume_mult price_tol lookback in
  cumulative_delta (run fresh calls)
  == Py.sum (finalized_deltas fresh calls [])
  /\ cumulative_delta (reset (run fresh calls)) = 0.
Proof.
  intro fresh. split; [|reflexivity].
  apply run_cumulative_delta. reflexivity.
Qed.

Lemma deque_append_snoc {A : Type} (n : nat) (d : list A) (x : A) :
  (0 < n)%nat -> exists d', Py.deque_append n d x = d' ++ [x].
Proof.
  intro Hn. unfold Py.deque_append.
  exists (skipn (length (d ++ [x]) - n) d).
  rewrite skipn_app.
  replace (length (d ++ [x]) - n - length d)%nat with O
    by (rewrite length_app; cbn; lia).
  reflexivity.
Qed.

Lemma index_last {A : Type} (d : list A) (x : A) :
  Py.index (d ++ [x]) (-1) = Ok x.
Proof.
  unfold Py.index, Py.len. rewrite length_app. cbn [length Z.ltb Z.compare].
  replace ((0 <=? Z.of_nat (length d + 1) + -1)
           && (Z.of_nat (length d + 1) + -1 <? Z.of_nat (length d + 1)))%Z
    with true by in_range.
  replace (Z.to_nat (Z.of_nat (length d + 1) + -1)) with (length d) by lia.
  rewrite nth_error_app2, Nat.sub_diag by lia. reflexivity.
Qed.

Lemma index_before_last {A : Type} (l : list A) :
  (2 <= length l)%nat ->
  exists a, Py.index l (-2) = Ok a /\ nth_error l (length l - 2) = Some a.
Proof.
  intro Hlen. unfold Py.index, Py.len. cbn [Z.ltb Z.compare].
  replace ((0 <=? Z.of_nat (length l) + -2)
           && (Z.of_nat (length l) + -2 <? Z.of_nat (length l)))%Z
    with true by in_range.
  replace (Z.to_nat (Z.of_nat (length l) + -2)) with (length l - 2)%nat by lia.
  destruct (nth_error l (length l - 2)) as [a|] eqn:E.
  - exists a. split; reflexivity.
  - apply nth_error_None in E. lia.
Qed.

Lemma update_trend_shape (self : t) :
  exists trend, _update_trend self = with_trend self trend.
Proof.
  unfold _update_trend.
  repeat match goal with
         | |- context [if ?b then _ else _] => destruct b
         end; eauto.
Qed.

Lemma update_consecutive_shape (self : t) :
  exists b s, _update_consecutive_bars self = with_consecutive self b s.
Proof.
  unfold _update_consecutive_bars.
  repeat match goal with
         | |- context [if ?b then _ else _] => destruct b
         end; eauto.
Qed.

(** The absorption check on a full window that ends with volume [x]. *)
Lemma check_absorption_spec (self : t) (price : Q) (earlier : list Q) (x : Q) :
  volume_history self = earlier ++ [x] ->
  length (volume_history self) = absorption_lookback self ->
  (forall previous,
      (2 <= length (price_history self))%nat ->
      nth_error (price_history self) (length (price_history self) - 2)
      = Some previous -> ~ previous == 0) ->
  exists self',
    _check_absorption self price = (self', Ok tt) /\
    current_delta self' = current_delta self /\
    (absorption_detected self' = true <->
     Py.sum (volume_history self) / inject_Z (Py.len (volume_history self))
       * absorption_volume_multiplier self <= x /\
     (2 <= length (price_history self))%nat /\
     exists previous,
       nth_error (price_history self) (length (price_history self) - 2)
       = Some previous /\
       price_change_percent price previous <= absorption_price_tolerance self).
Proof.
  intros Hvh Hfull Hprev. unfold _check_absorption.
  rewrite Hfull, Nat.ltb_irrefl.
  unfold Py.div at 1.
  assert (Hlen : Qeq_bool (inject_Z (Py.len (volume_history self))) 0 = false).
  { apply Qeq_bool_false_iff. unfold Py.len. rewrite Hvh, length_app.
    cbn [length]. unfold Qeq; cbn. lia. }
  rewrite Hlen.
  replace (Py.index (volume_history self) (-1)) with (@Ok Q x)
    by (rewrite Hvh; symmetry; apply index_last).
  set (avg := Py.sum (volume_history self)
              / inject_Z (Py.len (volume_history self))).
  destruct (Py.Qlt_bool x (avg * absorption_volume_multiplier self)) eqn:Evol.
  { apply Qlt_bool_iff in Evol. eexists. split; [reflexivity|].
    split; [reflexivity|]. cbn.
    split; [discriminate|]. intros (Hle & _).
    exfalso. apply (Qlt_not_le _ _ Evol). exact Hle. }
  apply Qlt_bool_false_iff in Evol.
  destruct (length (price_history self) <? 2)%nat eqn:Eph.
  { apply Nat.ltb_lt in Eph. eexists. split; [reflexivity|].
    split; [reflexivity|]. cbn.
    split; [discriminate|]. intros (_ & Hlen2 & _). lia. }
  apply Nat.ltb_ge in Eph.
  destruct (index_before_last (price_history self) Eph) as (prev & Hidx & Hnth).
  rewrite Hidx. cbn [rbind]. unfold Py.div.
  pose proof (Hprev prev Eph Hnth) as Hnz. apply Qeq_bool_false_iff in Hnz.
  rewrite Hnz. cbn [rbind].
  fold (price_change_percent price prev).
  destruct (Qle_bool (price_change_percent price prev)
              (absorption_price_tolerance self)) eqn:Etol.
  - apply Qle_bool_iff in Etol. eexists. split; [reflexivity|].
    split; [reflexivity|]. cbn.
    split; [|reflexivity]. intros _. repeat split; try assumption.
    exists prev. split; assumption.
  - apply Qle_bool_false_iff in Etol. eexists. split; [reflexivity|].
    split; [reflexivity|]. cbn.
    split; [discriminate|]. intros (_ & _ & (prev' & Hnth' & Hle)).
    rewrite Hnth in Hnth'. injection Hnth' as <-.
    exfalso. apply (Qlt_not_le _ _ Etol). exact Hle.
Qed.

(** C7, as the code has it. When the lookback window is full once the
    bar is appended, and the prior bar's price is not zero,
    [finalize_bar] returns and sets the absorption flag exactly when the
    volume of the bar is at least the average volume of the window times
    the multiplier and the absolute percent change from the prior bar's
    price is at most the tolerance; otherwise it clears the flag. *)
Theorem absorption_iff_thresholds (self : t) (price : Q) :
  (0 < absorption_lookback self)%nat ->
  full_window self ->
  (forall previous, prior_price self price = Some previous -> ~ previous == 0) ->
  exists self',
    finalize_bar self price = (self', Ok tt) /\
    (absorption_detected self' = true <->
     average_volume self * absorption_volume_multiplier self
       <= latest_volume self /\
     exists previous,
       prior_price self price = Some previous /\
       price_change_percent price previous <= absorption_price_tolerance self).
Proof.
  intros Hpos Hfull Hprev. unfold finalize_bar.
  match goal with
  | |- context [_update_consecutive_bars (_update_trend ?s1)] =>
      destruct (update_trend_shape s1) as (trend & Htrend);
      destruct (update_consecutive_shape (_update_trend s1)) as (b & s & Hcons);
      rewrite Hcons, Htrend
  end.
  destruct (deque_append_snoc (absorption_lookback self) (volume_history self)
              (latest_volume self) Hpos) as (earlier & Hsnoc).
  match goal with
  | |- context [_check_absorption ?s3 price] =>
      destruct (check_absorption_spec s3 price earlier (latest_volume self))
        as (self4 & Hcheck & _ & Hiff)
  end.
  - exact Hsnoc.
  - exact Hfull.
  - cbn. fold (latest_volume self). fold (window_prices self price).
    intros previous Hlen Hnth. apply Hprev. unfold prior_price.
    apply Nat.leb_le in Hlen. rewrite Hlen. exact Hnth.
  - rewrite Hcheck. eexists. split; [reflexivity|].
    cbn [absorption_detected with_bar_volumes].
    rewrite Hiff. cbn.
    fold (latest_volume self). fold (window_volumes self).
    fold (window_prices self price). fold (average_volume self).
    unfold prior_price.
    split.
    + intros (Hvol & Hlen & (previous & Hnth & Hchange)).
      split; [exact Hvol|]. exists previous.
      apply Nat.leb_le in Hlen. rewrite Hlen. split; assumption.
    + intros (Hvol & (previous & Hnth & Hchange)).
      split; [exact Hvol|].
      destruct (2 <=? length (window_prices self price))%nat eqn:E;
        [|discriminate].
      apply Nat.leb_le in E. split; [exact E|].
      exists previous. split; assumption.
Qed.

Lemma absorption_iff_thresholds_witness :
  let self := run example_flow boundary_calls in
  (0 < absorption_lookback self)%nat /\
  full_window self /\
  (forall previous, prior_price self 100 = Some previous -> ~ previous == 0) /\
  exists self',
    finalize_bar self 100 = (self', Ok tt) /\
    (absorption_detected self' = true <->
     average_volume self * absorption_volume_multiplier self
       <= latest_volume self /\
     exists previous,
       prior_price self 100 = Some previous /\
       price_change_percent 100 previous <= absorption_price_tolerance self).
Proof.
  intro self.
  assert (H1 : (0 < absorption_lookback self)%nat) by (vm_compute; lia).
  assert (H2 : full_window self) by (vm_compute; reflexivity).
  assert (H3 : forall previous,
             prior_price self 100 = Some previous -> ~ previous == 0).
  { intros previous H. vm_compute in H. injection H as <-. discriminate. }
  exact (conj H1 (conj H2 (conj H3
           (absorption_iff_thresholds self 100 H1 H2 H3)))).
Defined.

(** C7, as the specification words it, fails on the boundary: with a
    lookback of 2 and a multiplier of 1.5, a bar of volume 3 after a bar
    of volume 1, both closed at 100, has exactly the threshold volume
    (the average 2 times 1.5) and the flag is set. *)
Lemma absorption_boundary_counterexample :
  ~ absorption_only_strictly_above (run example_flow boundary_calls) 100.
Proof.
  intro H.
  edestruct H as (Hlt & _).
  - vm_compute. reflexivity.
  - vm_compute. reflexivity.
  - reflexivity.
  - vm_compute in Hlt. discriminate.
Qed.

(** C8 at the scenario of the specification, in the order of the main
    loop: after the trades buy 0.1, sell 0.2, buy 0.15 and
    [finalize_bar], the snapshot of [get_metrics] carries the delta 0.05
    of the bar just closed next to buy and sell volumes already cleared
    to 0. *)
Lemma metrics_after_finalize :
  let closed := finalize_bar (update_from_trades example_flow three_trades) 100 in
  let metrics := get_metrics (fst closed) 1700000000000 in
  snd closed = Ok tt /\
  OrderFlowMetrics.delta metrics == 0.05 /\
  OrderFlowMetrics.buy_volume metrics == 0 /\
  OrderFlowMetrics.sell_volume metrics == 0 /\
  ~ OrderFlowMetrics.delta metrics
    == OrderFlowMetrics.buy_volume metrics - OrderFlowMetrics.sell_volume metrics.
Proof.
  cbv zeta. repeat split; try (vm_compute; reflexivity).
  vm_compute. discriminate.
Qed.

End OrderFlowClaims.

(** ** Signals *)

Section SignalChecks.
Import Models SignalEngine.

Lemma bump_nonneg (cond : bool) (weight score : Q) :
  0 <= weight -> 0 <= score -> 0 <= bump cond weight score.
Proof. unfold bump. destruct cond; lra. Qed.

Lemma sum_nonneg (a b : Q) : 0 <= a -> 0 <= b -> 0 <= a + b.
Proof. lra. Qed.

Lemma min_in_unit (confidence : Q) :
  0 <= confidence ->
  0 <= Py.min confidence 1 /\ Py.min confidence 1 <= 1.
Proof.
  intro H. unfold Py.min.
  destruct (Py.Qlt_bool 1 confidence) eqn:E.
  - lra.
  - apply Qlt_bool_false_iff in E. lra.
Qed.

Ltac score_nonneg :=
  repeat first [ apply sum_nonneg | apply bump_nonneg; [lra|] ]; lra.

(** Takes apart the next test or fallible step of a check in [H]. *)
Ltac next_branch H :=
  match type of H with
  | context [rbind ?r _] => destruct r; cbn [rbind] in H
  | context [if ?b then _ else _] => destruct b
  end.

Lemma upside_failure_nonneg (self : t) (price : Q) (tpo : TPOProfile.t)
    (vwap : VWAPData.t) (flow : OrderFlowMetrics.t) (c : SignalConditions.t) :
  0 <= fst (_check_upside_failure self price tpo vwap flow c).
Proof.
  unfold _check_upside_failure.
  repeat match goal with
         | |- context [if ?b then _ else _] => destruct b
         end; cbn [fst]; score_nonneg.
Qed.

Lemma downside_failure_nonneg (self : t) (price : Q) (tpo : TPOProfile.t)
    (vwap : VWAPData.t) (flow : OrderFlowMetrics.t) (c : SignalConditions.t) :
  0 <= fst (_check_downside_failure self price tpo vwap flow c).
Proof.
  unfold _check_downside_failure.
  repeat match goal with
         | |- context [if ?b then _ else _] => destruct b
         end; cbn [fst]; score_nonneg.
Qed.

Lemma check_failure_patterns_spec (self : t) (time : Z) (price : Q)
    (tpo : option TPOProfile.t) (vwap : option VWAPData.t)
    (flow : option OrderFlowMetrics.t) :
  emits_for Failure self time
    (fst (_check_failure_patterns self time price tpo vwap flow))
    (snd (_check_failure_patterns self time price tpo vwap flow)).
Proof.
  unfold _check_failure_patterns.
  destruct (_is_in_cooldown self (last_failure_signal_time self) time) eqn:Ecd;
    [reflexivity|].
  destruct tpo as [tpo|], vwap as [vwap|], flow as [flow|]; try reflexivity.
  pose proof (upside_failure_nonneg self price tpo vwap flow
                SignalConditions.default) as Hup.
  destruct (_check_upside_failure self price tpo vwap flow
              SignalConditions.default) as [up c1].
  cbn [fst] in Hup.
  destruct (negb (Qeq_bool up 0)).
  { cbn. destruct (min_in_unit up Hup). repeat split; assumption. }
  pose proof (downside_failure_nonneg self price tpo vwap flow c1) as Hdown.
  destruct (_check_downside_failure self price tpo vwap flow c1) as [down c2].
  cbn [fst] in Hdown.
  destruct (negb (Qeq_bool down 0)); [|reflexivity].
  cbn. destruct (min_in_unit down Hdown). repeat split; assumption.
Qed.

Lemma check_long_entry_spec (self : t) (time : Z) (price : Q)
    (tpo : option TPOProfile.t) (event : option TPOStructureEvent)
    (vwap : option VWAPData.t) (flow : option OrderFlowMetrics.t)
    (self' : t) (out : option SignalEvent.t) :
  _check_long_entry self time price tpo event vwap flow = Ok (self', out) ->
  emits_for Long self time self' out.
Proof.
  unfold _check_long_entry. intro H.
  destruct (_is_in_cooldown self (last_long_signal_time self) time) eqn:Ecd.
  { injection H as <- <-. reflexivity. }
  destruct tpo as [tpo|], vwap as [vwap|], flow as [flow|];
    try (injection H as <- <-; reflexivity).
  cbv zeta in H.
  repeat next_branch H;
    try discriminate; injection H as <- <-; try reflexivity.
  cbn. split; [exact Ecd|]. split; [reflexivity|]. split; [reflexivity|].
  match goal with
  | |- 0 <= Py.min ?c 1 /\ _ =>
      assert (Hc : 0 <= c) by score_nonneg;
      destruct (min_in_unit c Hc)
  end.
  repeat split; assumption.
Qed.

Lemma check_short_entry_spec (self : t) (time : Z) (price : Q)
    (tpo : option TPOProfile.t) (event : option TPOStructureEvent)
    (vwap : option VWAPData.t) (flow : option OrderFlowMetrics.t)
    (self' : t) (out : option SignalEvent.t) :
  _check_short_entry self time price tpo event vwap flow = Ok (self', out) ->
  emits_for Short self time self' out.
Proof.
  unfold _check_short_entry. intro H.
  destruct (_is_in_cooldown self (last_short_signal_time self) time) eqn:Ecd.
  { injection H as <- <-. reflexivity. }
  destruct tpo as [tpo|], vwap as [vwap|], flow as [flow|];
    try (injection H as <- <-; reflexivity).
  cbv zeta in H.
  repeat next_branch H;
    try discriminate; injection H as <- <-; try reflexivity.
  cbn. split; [exact Ecd|]. split; [reflexivity|]. split; [reflexivity|].
  match goal with
  | |- 0 <= Py.min ?c 1 /\ _ =>
      assert (Hc : 0 <= c) by score_nonneg;
      destruct (min_in_unit c Hc)
  end.
  repeat split; assumption.
Qed.

Lemma check_signals_spec (self : t) (time : Z) (price : Q)
    (tpo : option TPOProfile.t) (event : option TPOStructureEvent)
    (vwap : option VWAPData.t) (flow : option OrderFlowMetrics.t) :
  respects_timers self time
    (fst (check_signals self time price tpo event vwap flow))
    (snd (check_signals self time price tpo event vwap flow)).
Proof.
  unfold check_signals.
  set (self1 := _update_price_tracking self price).
  pose proof (check_failure_patterns_spec self1 time price tpo vwap flow) as Hf.
  destruct (_check_failure_patterns self1 time price tpo vwap flow)
    as [self2 [signal|]]; cbn [fst snd] in *; unfold emits_for in Hf.
  { destruct Hf as (Hcd & Hts & Hcat & H0 & H1 & ->).
    unfold respects_timers. rewrite Hcat. split; [reflexivity|].
    repeat split; try assumption.
    intros [| |] Hne; try reflexivity. contradiction. }
  subst self2.
  destruct (_check_long_entry self1 time price tpo event vwap flow)
    as [[self3 [signal|]]|e|] eqn:El; cbn [fst snd];
    try (split; [reflexivity|]; intros [| |]; reflexivity).
  { apply check_long_entry_spec in El. unfold emits_for in El.
    destruct El as (Hcd & Hts & Hcat & H0 & H1 & ->).
    unfold respects_timers. rewrite Hcat. split; [reflexivity|].
    repeat split; try assumption.
    intros [| |] Hne; try reflexivity. contradiction. }
  apply check_long_entry_spec in El. unfold emits_for in El. subst self3.
  destruct (_check_short_entry self1 time price tpo event vwap flow)
    as [[self4 [signal|]]|e|] eqn:Es; cbn [fst snd];
    try (split; [reflexivity|]; intros [| |]; reflexivity).
  - apply check_short_entry_spec in Es. unfold emits_for in Es.
    destruct Es as (Hcd & Hts & Hcat & H0 & H1 & ->).
    unfold respects_timers. rewrite Hcat. split; [reflexivity|].
    repeat split; try assumption.
    intros [| |] Hne; try reflexivity. contradiction.
  - apply check_short_entry_spec in Es. unfold emits_for in Es. subst self4.
    split; [reflexivity|]. intros [| |]; reflexivity.
Qed.

(** C3. Every signal that [check_signals] returns has a confidence in
    the closed interval from 0 to 1. *)
Theorem confidence_in_unit_interval (self : t) (time : Z) (price : Q)
    (tpo : option TPOProfile.t) (event : option TPOStructureEvent)
    (vwap : option VWAPData.t) (flow : option OrderFlowMetrics.t)
    (self' : t) (signal : SignalEvent.t) :
  check_signals self time price tpo event vwap flow = (self', Ok (Some signal)) ->
  0 <= SignalEvent.confidence signal /\ SignalEvent.confidence signal <= 1.
Proof.
  intro H.
  pose proof (check_signals_spec self time price tpo event vwap flow) as Hs.
  rewrite H in Hs. cbn [fst snd] in Hs.
  destruct Hs as (_ & _ & _ & H0 & H1 & _). split; assumption.
Qed.

Lemma confidence_in_unit_interval_witness :
  let r := check_with example_engine (breakout_at 1700000000000) in
  exists signal,
    r = (fst r, Ok (Some signal)) /\
    SignalEvent.signal_type signal = LONG_ENTRY /\
    0 <= SignalEvent.confidence signal /\ SignalEvent.confidence signal <= 1.
Proof.
  intro r. eexists.
  assert (H : r = (fst r, Ok (Some _))) by (vm_compute; reflexivity).
  split; [exact H|]. split; [reflexivity|].
  exact (confidence_in_unit_interval _ _ _ _ _ _ _ _ _ H).
Defined.

End SignalChecks.

Section Cooldown.
Import Models SignalEngine.

Lemma div1000 (x : Q) : x / 1000 == x * (1 # 1000).
Proof. reflexivity. Qed.

(** Outside the cooldown the time elapsed since the last signal, in
    milliseconds, is at least 1000 times the cooldown. *)
Lemma not_in_cooldown_gap (self : t) (last time : Z) :
  _is_in_cooldown self (Some last) time = false ->
  1000 * cooldown_seconds self <= inject_Z (time - last).
Proof.
  unfold _is_in_cooldown. intro H. apply Qlt_bool_false_iff in H.
  rewrite div1000 in H. lra.
Qed.

(** A gap of at least 1000 times the cooldown, in milliseconds, is not
    within the cooldown. *)
Lemma gap_not_within (cooldown : Q) (e1 e2 : SignalEvent.t) :
  0 <= cooldown ->
  1000 * cooldown
    <= inject_Z (SignalEvent.timestamp e2 - SignalEvent.timestamp e1) ->
  ~ within_cooldown cooldown e1 e2.
Proof.
  intros Hc Hgap. unfold within_cooldown.
  rewrite Qabs_pos by lra. rewrite div1000. lra.
Qed.

Lemma negative_cooldown_never_within (cooldown : Q) (e1 e2 : SignalEvent.t) :
  cooldown < 0 -> ~ within_cooldown cooldown e1 e2.
Proof.
  intros Hc. unfold within_cooldown. rewrite div1000.
  pose proof (Qabs_nonneg
                (inject_Z (SignalEvent.timestamp e2 - SignalEvent.timestamp e1))).
  lra.
Qed.

Lemma emitted_cons (self : t) (c : check) (rest : list check) :
  emitted self (c :: rest)
  = match snd (check_with self c) with
    | Ok (Some signal) => signal :: emitted (fst (check_with self c)) rest
    | _ => emitted (fst (check_with self c)) rest
    end.
Proof.
  cbn [emitted]. destruct (check_with self c) as [self' [[signal|]|e|]];
    reflexivity.
Qed.

(** Once the timer of a category holds [last], every later signal of the
    category comes at least the cooldown after [last]. *)
Lemma later_signals_after (calls : list check) :
  forall (self : t) (cat : category) (last : Z),
    0 <= cooldown_seconds self ->
    last_signal_time self cat = Some last ->
    Forall
      (fun e => category_of (SignalEvent.signal_type e) = cat ->
                1000 * cooldown_seconds self
                <= inject_Z (SignalEvent.timestamp e - last))
      (emitted self calls).
Proof.
  induction calls as [|c rest IH]; intros self cat last Hc Hlast; [constructor|].
  rewrite emitted_cons.
  pose proof (check_signals_spec self (current_time c) (current_price c)
                (tpo_data c) (tpo_event c) (vwap_data c) (orderflow_data c)) as Hs.
  fold (check_with self c) in Hs.
  destruct (check_with self c) as [self' out]. cbn [fst snd] in *.
  destruct Hs as (Hcool & Hs).
  destruct out as [[signal|]|e|];
    try (rewrite <- Hcool; apply IH;
         [rewrite Hcool; assumption | rewrite Hs; assumption]).
  cbv zeta in Hs. destruct Hs as (Hcd & Hts & _ & _ & Hset & Hother).
  set (cat' := category_of (SignalEvent.signal_type signal)) in *.
  assert (Hdec : cat' = cat \/ cat' <> cat)
    by (destruct cat', cat; auto; right; discriminate).
  destruct Hdec as [Heq|Hne].
  - rewrite Heq, Hlast in Hcd. apply not_in_cooldown_gap in Hcd.
    constructor.
    + intros _. rewrite Hts. exact Hcd.
    + rewrite Heq in Hset.
      specialize (IH self' cat (current_time c)).
      rewrite Hcool in IH. specialize (IH Hc Hset).
      eapply Forall_impl; [|exact IH].
      cbn beta. intros e He Hcat. specialize (He Hcat).
      assert (Hpos : (0 <= current_time c - last)%Z).
      { rewrite Zle_Qle. change (inject_Z 0) with 0. lra. }
      assert (Hmono : inject_Z (SignalEvent.timestamp e - current_time c)
                      <= inject_Z (SignalEvent.timestamp e - last)).
      { rewrite <- Zle_Qle. lia. }
      lra.
  - constructor.
    + intros Hcat. contradiction.
    + rewrite <- Hcool. apply IH; [rewrite Hcool; assumption|].
      rewrite Hother by (intro E; apply Hne; symmetry; exact E).
      exact Hlast.
Qed.

Lemma emitted_separated (calls : list check) :
  forall self : t,
    0 <= cooldown_seconds self ->
    ForallOrdPairs
      (fun e1 e2 =>
         category_of (SignalEvent.signal_type e1)
         = category_of (SignalEvent.signal_type e2) ->
         ~ within_cooldown (cooldown_seconds self) e1 e2)
      (emitted self calls).
Proof.
  induction calls as [|c rest IH]; intros self Hc; [constructor|].
  rewrite emitted_cons.
  pose proof (check_signals_spec self (current_time c) (current_price c)
                (tpo_data c) (tpo_event c) (vwap_data c) (orderflow_data c)) as Hs.
  fold (check_with self c) in Hs.
  destruct (check_with self c) as [self' out]. cbn [fst snd] in *.
  destruct Hs as (Hcool & Hs).
  assert (Hc' : 0 <= cooldown_seconds self') by (rewrite Hcool; assumption).
  destruct out as [[signal|]|e|];
    try (rewrite <- Hcool; apply IH; assumption).
  cbv zeta in Hs. destruct Hs as (_ & Hts & _ & _ & Hset & _).
  constructor.
  - pose proof (later_signals_after rest self'
                  (category_of (SignalEvent.signal_type signal))
                  (current_time c) Hc' Hset) as Hlater.
    eapply Forall_impl; [|exact Hlater].
    cbn beta. intros e He Hcat.
    apply gap_not_within; [assumption|].
    rewrite Hts, <- Hcool. apply He. symmetry. exact Hcat.
  - rewrite <- Hcool. apply IH; assumption.
Qed.

Lemma all_pairs {A : Type} (R : A -> A -> Prop) (l : list A) :
  (forall a b, R a b) -> ForallOrdPairs R l.
Proof.
  intro H. induction l as [|a l IH]; constructor; [|assumption].
  apply Forall_forall. intros b _. apply H.
Qed.

(** C4. Over any sequence of [check_signals] calls on one engine, no two
    emitted signals of one category (long entries, short entries,
    failures), and so no two of the same type, have timestamps less than
    [cooldown_seconds] apart.  Each category is gated by its own timer: a
    call made during the cooldown of a category returns no signal of that
    category, a call that emits is outside the cooldown of the category of
    its signal and sets the timer of that category to the current time
    and leaves the two other timers as they were, and a call that emits
    nothing leaves the three timers as they were. *)
Theorem signals_respect_cooldown (self : t) (calls : list check) :
  ForallOrdPairs
    (fun e1 e2 =>
       category_of (SignalEvent.signal_type e1)
       = category_of (SignalEvent.signal_type e2) ->
       ~ within_cooldown (cooldown_seconds self) e1 e2)
    (emitted self calls)
  /\
  (forall (c : check) (cat : category) (signal : SignalEvent.t),
    _is_in_cooldown self (last_signal_time self cat) (current_time c) = true ->
    snd (check_with self c) = Ok (Some signal) ->
    category_of (SignalEvent.signal_type signal) <> cat)
  /\
  (forall c : check,
    match snd (check_with self c) with
    | Ok (Some signal) =>
        let cat := category_of (SignalEvent.signal_type signal) in
        _is_in_cooldown self (last_signal_time self cat) (current_time c)
        = false /\
        SignalEvent.timestamp signal = current_time c /\
        last_signal_time (fst (check_with self c)) cat
        = Some (current_time c) /\
        forall other : category,
          other <> cat ->
          last_signal_time (fst (check_with self c)) other
          = last_signal_time self other
    | _ =>
        forall cat : category,
          last_signal_time (fst (check_with self c)) cat
          = last_signal_time self cat
    end).
Proof.
  split; [|split].
  - destruct (Qlt_le_dec (cooldown_seconds self) 0) as [Hneg|Hpos].
    + apply all_pairs. intros e1 e2 _.
      apply negative_cooldown_never_within. exact Hneg.
    + apply emitted_separated. exact Hpos.
  - intros c cat signal Hcd Hout Hcat.
    pose proof (check_signals_spec self (current_time c) (current_price c)
                  (tpo_data c) (tpo_event c) (vwap_data c) (orderflow_data c))
      as (_ & Hs).
    fold (check_with self c) in Hs. rewrite Hout in Hs. cbv zeta in Hs.
    destruct Hs as (Hfree & _). rewrite Hcat, Hcd in Hfree. discriminate.
  - intro c.
    pose proof (check_signals_spec self (current_time c) (current_price c)
                  (tpo_data c) (tpo_event c) (vwap_data c) (orderflow_data c))
      as (_ & Hs).
    fold (check_with self c) in Hs.
    destruct (snd (check_with self c)) as [[signal|]|e|]; try exact Hs.
    cbv zeta in Hs |- *.
    destruct Hs as (Hfree & Hts & _ & _ & Hset & Hother).
    split; [exact Hfree|]. split; [exact Hts|]. split; [exact Hset|exact Hother].
Qed.

Lemma signals_respect_cooldown_witness :
  let calls := [ breakout_at 1700000000000; rejection_at 1700000030000;
                 breakout_at 1700000045000; rejection_at 1700000050000;
                 breakout_at 1700000060000; rejection_at 1700000090000 ] in
  let after_first := fst (check_with example_engine (breakout_at 1700000000000)) in
  map (fun e => (SignalEvent.signal_type e, SignalEvent.timestamp e))
    (emitted example_engine calls)
  = [ (LONG_ENTRY, 1700000000000%Z); (SHORT_FAILURE, 1700000030000%Z);
      (LONG_ENTRY, 1700000060000%Z); (SHORT_FAILURE, 1700000090000%Z) ] /\
  ForallOrdPairs
    (fun e1 e2 =>
       category_of (SignalEvent.signal_type e1)
       = category_of (SignalEvent.signal_type e2) ->
       ~ within_cooldown (cooldown_seconds example_engine) e1 e2)
    (emitted example_engine calls) /\
  last_signal_time after_first Long = Some 1700000000000%Z /\
  last_signal_time after_first Short = last_signal_time example_engine Short /\
  last_signal_time after_first Failure
  = last_signal_time example_engine Failure.
Proof.
  intros calls after_first.
  split; [vm_compute; reflexivity|].
  destruct (signals_respect_cooldown example_engine calls) as (Hpairs & _ & Hown).
  split; [exact Hpairs|].
  specialize (Hown (breakout_at 1700000000000)).
  fold after_first in Hown.
  destruct (snd (check_with example_engine (breakout_at 1700000000000)))
    as [[signal|]|e|] eqn:E; try (vm_compute in E; discriminate).
  cbv zeta in Hown. destruct Hown as (_ & _ & Hset & Hother).
  assert (Hcat : category_of (SignalEvent.signal_type signal) = Long).
  { vm_compute in E. injection E as <-. reflexivity. }
  rewrite Hcat in Hset, Hother.
  split; [exact Hset|].
  split; apply Hother; discriminate.
Defined.

End Cooldown.

(** ** Zero references *)

Section ZeroReferenceClaims.
Import Models.

(** C10 at zero references. The three computations named by the claim
    divide by the reference without a test and raise when it is zero:
    [is_pullback_zone] and [is_pullback] on a zero VWAP (so that [update]
    raises on a bar whose prices are all zero, and [check_signals] on a
    snapshot whose VWAP is zero), and the absorption check of
    [finalize_bar] on a prior price of zero.  Their siblings [is_near],
    [calculate_percent_change] and [is_oi_increasing] test the reference
    and return. *)
Lemma zero_reference_raises :
  VWAPData.is_pullback_zone zero_vwap 100 0.001 = Raise ZeroDivisionError /\
  VWAPCalculator.is_pullback zero_calculator 100 None = Raise ZeroDivisionError /\
  (forall pow_half,
      VWAPCalculator.update pow_half example_calculator
        (flat_candle 1700000000000 0 0) = Raise ZeroDivisionError) /\
  snd (SignalEngine.check_signals example_engine 1700000000000 100
         (Some example_profile) (Some VAH_BREAKOUT) (Some zero_vwap)
         (Some bullish_flow))
    = Raise ZeroDivisionError /\
  snd (OrderFlowAnalyzer.finalize_bar (run example_flow zero_price_calls) 100)
    = Raise ZeroDivisionError /\
  Utils.is_near 100 0 0.2 = false /\
  Utils.calculate_percent_change 0 100 = 0 /\
  OrderFlowAnalyzer.is_oi_increasing (OrderFlowAnalyzer.update_oi example_flow 100)
    = false.
Proof.
  repeat split; try (vm_compute; reflexivity).
Qed.

End ZeroReferenceClaims.

(** * Further properties *)

(** ** utils.py *)

Section SessionStart.

Lemma start_offset_bounds (hm : Z * Z) :
  valid_time hm -> (0 <= start_offset hm < Utils.ms_per_day)%Z.
Proof.
  destruct hm as [h m]. unfold valid_time, start_offset, Utils.ms_per_day.
  cbn [fst snd]. lia.
Qed.

Lemma valid_time_test (h m : Z) :
  valid_time (h, m) ->
  negb ((0 <=? h) && (h <? 24) && (0 <=? m) && (m <? 60))%Z = false.
Proof.
  unfold valid_time; cbn [fst snd]. intros (Hh & Hm).
  apply negb_false_iff. rewrite !andb_true_iff, !Z.leb_le, !Z.ltb_lt. lia.
Qed.

Lemma ms_to_datetime_ok (timestamp_ms : Z) :
  representable timestamp_ms ->
  Utils.ms_to_datetime timestamp_ms = Ok timestamp_ms.
Proof.
  unfold representable, Utils.ms_to_datetime, Utils.datetime_min_ms,
    Utils.datetime_max_ms, Utils.gmtime_min_ms, Utils.gmtime_max_ms,
    Utils.time_t_min_ms, Utils.time_t_max_ms.
  intro H.
  replace (timestamp_ms <? -9223372036854776832000)%Z with false by lia.
  replace (9223372036854776832000 <? timestamp_ms)%Z with false by lia.
  replace (timestamp_ms <? -67768040609740804000)%Z with false by lia.
  replace (67768036191676795999 <? timestamp_ms)%Z with false by lia.
  replace (timestamp_ms <? -62135596800000)%Z with false by lia.
  replace (253402300799999 <? timestamp_ms)%Z with false by lia.
  reflexivity.
Qed.

Lemma ms_to_datetime_cases (timestamp_ms : Z) :
  (representable timestamp_ms /\
   Utils.ms_to_datetime timestamp_ms = Ok timestamp_ms) \/
  (~ representable timestamp_ms /\
   (Utils.ms_to_datetime timestamp_ms = Raise ValueError \/
    Utils.ms_to_datetime timestamp_ms = Raise OSError \/
    Utils.ms_to_datetime timestamp_ms = Raise OverflowError)).
Proof.
  unfold representable, Utils.ms_to_datetime, Utils.datetime_min_ms,
    Utils.datetime_max_ms, Utils.gmtime_min_ms, Utils.gmtime_max_ms,
    Utils.time_t_min_ms, Utils.time_t_max_ms.
  destruct (timestamp_ms <? -9223372036854776832000)%Z eqn:E1;
    [right; split; [lia|auto]|].
  destruct (9223372036854776832000 <? timestamp_ms)%Z eqn:E2;
    [right; split; [lia|auto]|].
  destruct (timestamp_ms <? -67768040609740804000)%Z eqn:E3;
    [right; split; [lia|auto]|].
  destruct (67768036191676795999 <? timestamp_ms)%Z eqn:E4;
    [right; split; [lia|auto]|].
  destruct (timestamp_ms <? -62135596800000)%Z eqn:E5;
    [right; split; [lia|auto]|].
  destruct (253402300799999 <? timestamp_ms)%Z eqn:E6;
    [right; split; [lia|auto]|].
  left. split; [lia|reflexivity].
Qed.

(** X1. When [get_session_start] returns, the session start it gives is at
    most 24 hours before the timestamp, and it is its own session start. *)
Theorem session_start_contains (timestamp_ms : Z) (hm : Z * Z) (s : Z) :
  Utils.get_session_start timestamp_ms hm = Ok s ->
  (s <= timestamp_ms < s + Utils.ms_per_day)%Z /\
  Utils.get_session_start s hm = Ok s.
Proof.
  destruct hm as [h m]. unfold Utils.get_session_start.
  destruct (ms_to_datetime_cases timestamp_ms) as [(Hrep & ->) | (_ & [-> | [-> | ->]])];
    cbn [rbind]; try discriminate.
  destruct (negb ((0 <=? h) && (h <? 24) && (0 <=? m) && (m <? 60))%Z) eqn:Ev;
    [discriminate|].
  assert (Hv : valid_time (h, m)).
  { apply negb_false_iff in Ev.
    rewrite !andb_true_iff, !Z.leb_le, !Z.ltb_lt in Ev.
    unfold valid_time; cbn [fst snd]. lia. }
  pose proof (start_offset_bounds (h, m) Hv) as Hoff.
  unfold start_offset in Hoff; cbn [fst snd] in Hoff.
  set (off := ((h * 60 + m) * 60000)%Z) in *.
  unfold representable, Utils.datetime_min_ms, Utils.datetime_max_ms in Hrep.
  unfold Utils.ms_per_day in *.
  pose proof (Z.div_mod timestamp_ms 86400000 ltac:(lia)) as Hdm.
  pose proof (Z.mod_pos_bound timestamp_ms 86400000 ltac:(lia)) as Hmod.
  set (day := (timestamp_ms / 86400000)%Z) in *.
  set (tod := (timestamp_ms mod 86400000)%Z) in *.
  assert (Hfix : forall d : Z,
             ((d * 86400000 + off) / 86400000 = d
              /\ (d * 86400000 + off) mod 86400000 = off)%Z).
  { intro d. split.
    - symmetry. apply (Z.div_unique _ _ d off); lia.
    - symmetry. apply (Z.mod_unique _ _ d off); lia. }
  destruct (tod <? off)%Z eqn:Etod.
  - destruct (Utils.day_of_month day =? 1)%Z eqn:Ed; [discriminate|].
    intro H. injection H as <-. apply Z.ltb_lt in Etod.
    split; [lia|].
    assert (Hday : day <> (-719162)%Z).
    { intro E. rewrite E in Ed. vm_compute in Ed. discriminate. }
    rewrite ms_to_datetime_ok
      by (unfold representable, Utils.datetime_min_ms, Utils.datetime_max_ms;
          lia).
    cbn [rbind].
    destruct (Hfix (day - 1)%Z) as (-> & ->).
    rewrite Z.ltb_irrefl. reflexivity.
  - intro H. injection H as <-. apply Z.ltb_ge in Etod.
    split; [lia|].
    rewrite ms_to_datetime_ok
      by (unfold representable, Utils.datetime_min_ms, Utils.datetime_max_ms;
          lia).
    cbn [rbind].
    destruct (Hfix day) as (-> & ->).
    rewrite Z.ltb_irrefl. reflexivity.
Qed.

Lemma session_start_contains_witness :
  Utils.get_session_start 1700000000000 (8, 30)%Z = Ok 1699950600000%Z /\
  (1699950600000 <= 1700000000000 < 1699950600000 + Utils.ms_per_day)%Z /\
  Utils.get_session_start 1699950600000 (8, 30)%Z = Ok 1699950600000%Z.
Proof.
  assert (H : Utils.get_session_start 1700000000000 (8, 30)%Z
              = Ok 1699950600000%Z) by (vm_compute; reflexivity).
  exact (conj H (session_start_contains _ _ _ H)).
Defined.

(** X2. For a valid session start time and a timestamp that a [datetime]
    holds (years 1 to 9999), [get_session_start] fails exactly on the
    first day of a month, at the times of day before the session start,
    and then with [ValueError]; with the start at midnight it does not
    fail there and gives the start of the day of the timestamp.  On a
    timestamp that no [datetime] holds it never returns: it raises
    [ValueError], [OSError] or [OverflowError]. *)
Theorem session_start_fails_iff (timestamp_ms : Z) (hm : Z * Z) :
  valid_time hm ->
  (representable timestamp_ms ->
   (Utils.get_session_start timestamp_ms hm = Raise ValueError <->
    (timestamp_ms mod Utils.ms_per_day < start_offset hm)%Z /\
    Utils.day_of_month (timestamp_ms / Utils.ms_per_day) = 1%Z) /\
   ((forall s, Utils.get_session_start timestamp_ms hm <> Ok s) ->
    Utils.get_session_start timestamp_ms hm = Raise ValueError) /\
   Utils.get_session_start timestamp_ms (0, 0)%Z
   = Ok (timestamp_ms - timestamp_ms mod Utils.ms_per_day)%Z) /\
  (~ representable timestamp_ms ->
   (forall s, Utils.get_session_start timestamp_ms hm <> Ok s) /\
   (Utils.get_session_start timestamp_ms hm = Raise ValueError \/
    Utils.get_session_start timestamp_ms hm = Raise OSError \/
    Utils.get_session_start timestamp_ms hm = Raise OverflowError)).
Proof.
  destruct hm as [h m]. intro Hv.
  unfold Utils.get_session_start, start_offset. cbn [fst snd].
  destruct (ms_to_datetime_cases timestamp_ms) as [(Hrep & ->) | (Hrep & Hraise)];
    cbn [rbind]; (split; [|intro; try contradiction]); try (intro; contradiction).
  - intros _. rewrite (valid_time_test h m Hv).
    split; [|split].
    + destruct (timestamp_ms mod Utils.ms_per_day <? (h * 60 + m) * 60000)%Z eqn:E.
      * apply Z.ltb_lt in E.
        destruct (Utils.day_of_month (timestamp_ms / Utils.ms_per_day) =? 1)%Z eqn:Ed.
        -- apply Z.eqb_eq in Ed. split; [auto|reflexivity].
        -- apply Z.eqb_neq in Ed. split; [discriminate|].
           intros (_ & H). contradiction.
      * apply Z.ltb_ge in E. split; [discriminate|]. intros (H & _). lia.
    + intro Hno.
      destruct (timestamp_ms mod Utils.ms_per_day <? (h * 60 + m) * 60000)%Z.
      * destruct (Utils.day_of_month (timestamp_ms / Utils.ms_per_day) =? 1)%Z;
          [reflexivity|]. exfalso. eapply Hno. reflexivity.
      * exfalso. eapply Hno. reflexivity.
    + cbn [negb andb Z.leb Z.ltb Z.compare].
      change ((0 * 60 + 0) * 60000)%Z with 0%Z.
      pose proof (Z.mod_pos_bound timestamp_ms Utils.ms_per_day) as Hmod.
      unfold Utils.ms_per_day in *.
      replace (timestamp_ms mod 86400000 <? 0)%Z with false by lia.
      f_equal.
      pose proof (Z.div_mod timestamp_ms 86400000). lia.
  - destruct Hraise as [-> | [-> | ->]]; cbn [rbind];
      (split; [intros s; discriminate|auto]).
Qed.

Lemma session_start_fails_iff_witness :
  valid_time (8, 0)%Z /\
  representable 1698798600000 /\
  Utils.get_session_start 1698798600000 (8, 0)%Z = Raise ValueError /\
  Utils.get_session_start 1698798600000 (0, 0)%Z = Ok 1698796800000%Z /\
  ~ representable 253402300800000 /\
  forall s, Utils.get_session_start 253402300800000 (8, 0)%Z <> Ok s.
Proof.
  assert (Hv : valid_time (8, 0)%Z) by (unfold valid_time; cbn; lia).
  assert (Hr : representable 1698798600000)
    by (unfold representable, Utils.datetime_min_ms, Utils.datetime_max_ms; lia).
  assert (Hn : ~ representable 253402300800000)
    by (unfold representable, Utils.datetime_min_ms, Utils.datetime_max_ms; lia).
  split; [exact Hv|]. split; [exact Hr|].
  destruct (session_start_fails_iff 1698798600000 (8, 0)%Z Hv) as (Hin & _).
  destruct (Hin Hr) as (Hiff & _ & Hmid).
  destruct (session_start_fails_iff 253402300800000 (8, 0)%Z Hv) as (_ & Hout).
  split; [|split; [|split; [exact Hn|exact (proj1 (Hout Hn))]]].
  - apply Hiff. split; vm_compute; reflexivity.
  - rewrite Hmid. vm_compute. reflexivity.
Defined.

End SessionStart.

Section Rounding.

Lemma round_within_half (x : Q) :
  Qabs (inject_Z (Py.round x) - x) <= 1 # 2.
Proof.
  unfold Py.round.
  pose proof (Qfloor_le x) as Hlo. pose proof (Qlt_floor x) as Hhi.
  rewrite inject_Z_plus in Hhi. change (inject_Z 1) with 1 in Hhi.
  set (f := Qfloor x) in *.
  apply Qabs_Qle_condition.
  destruct (Py.Qlt_bool (x - inject_Z f) (1 # 2)) eqn:E1.
  { apply Qlt_bool_iff in E1. split; lra. }
  apply Qlt_bool_false_iff in E1.
  destruct (Py.Qlt_bool (1 # 2) (x - inject_Z f)) eqn:E2.
  { rewrite inject_Z_plus. change (inject_Z 1) with 1. split; lra. }
  apply Qlt_bool_false_iff in E2.
  destruct (Z.even f).
  - split; lra.
  - rewrite inject_Z_plus. change (inject_Z 1) with 1. split; lra.
Qed.

Lemma round_of_integer (x : Q) (k : Z) : x == inject_Z k -> Py.round x = k.
Proof.
  intro H. unfold Py.round.
  assert (Hf : Qfloor x = k) by (rewrite H; apply Qfloor_Z).
  rewrite Hf.
  replace (Py.Qlt_bool (x - inject_Z k) (1 # 2)) with true; [reflexivity|].
  symmetry. apply Qlt_bool_iff. lra.
Qed.

(** X3. With a positive tick [round_to_tick] returns a whole number of
    ticks that is at most half a tick away from the price, and it leaves a
    whole number of ticks where it is. *)
Theorem round_to_tick_nearest (price tick : Q) :
  0 < tick ->
  exists k : Z,
    Utils.round_to_tick price tick = Ok (inject_Z k * tick) /\
    Qabs (inject_Z k * tick - price) <= tick / 2 /\
    Utils.round_to_tick (inject_Z k * tick) tick = Ok (inject_Z k * tick).
Proof.
  intro Htick. unfold Utils.round_to_tick, Py.div.
  assert (Hnz : Qeq_bool tick 0 = false) by (apply Qeq_bool_false_iff; lra).
  rewrite Hnz. cbn [rbind].
  exists (Py.round (price / tick)). split; [reflexivity|]. split.
  - pose proof (round_within_half (price / tick)) as H.
    apply Qabs_Qle_condition in H. destruct H as (H1 & H2).
    assert (Hp : price == price / tick * tick) by (field; lra).
    set (r := inject_Z (Py.round (price / tick))) in *.
    set (q := price / tick) in *.
    assert (Hhalf : tick / 2 == (1 # 2) * tick) by (field).
    apply Qabs_Qle_condition. rewrite Hhalf.
    split.
    + setoid_replace (r * tick - price) with ((r - q) * tick) by (rewrite Hp at 1; ring).
      nra.
    + setoid_replace (r * tick - price) with ((r - q) * tick) by (rewrite Hp at 1; ring).
      nra.
  - rewrite (round_of_integer _ (Py.round (price / tick))); [reflexivity|].
    field. lra.
Qed.

Lemma round_to_tick_nearest_witness :
  0 < 1 # 10 /\
  exists k : Z,
    Utils.round_to_tick (100037 # 1000) (1 # 10) = Ok (inject_Z k * (1 # 10)) /\
    Qabs (inject_Z k * (1 # 10) - (100037 # 1000)) <= (1 # 10) / 2 /\
    Utils.round_to_tick (inject_Z k * (1 # 10)) (1 # 10)
    = Ok (inject_Z k * (1 # 10)).
Proof.
  assert (H : 0 < 1 # 10) by reflexivity.
  exact (conj H (round_to_tick_nearest (100037 # 1000) (1 # 10) H)).
Defined.

End Rounding.

(** ** Sums *)

Section Sums.

Lemma fold_plus_acc (l : list Q) (a : Q) :
  fold_left Qplus l a == a + fold_left Qplus l 0.
Proof.
  revert a. induction l as [|x l IH]; intro a; cbn [fold_left].
  - ring.
  - rewrite (IH (a + x)), (IH (0 + x)). ring.
Qed.

Lemma sum_cons (x : Q) (l : list Q) : Py.sum (x :: l) == x + Py.sum l.
Proof.
  unfold Py.sum. cbn [fold_left]. rewrite fold_plus_acc. ring.
Qed.

Lemma sum_app (l1 l2 : list Q) : Py.sum (l1 ++ l2) == Py.sum l1 + Py.sum l2.
Proof.
  induction l1 as [|x l1 IH]; cbn [app].
  - unfold Py.sum at 2. cbn. ring.
  - rewrite !sum_cons, IH. ring.
Qed.

Lemma sum_map_ext {A : Type} (f g : A -> Q) (l : list A) :
  (forall x, In x l -> f x == g x) ->
  Py.sum (map f l) == Py.sum (map g l).
Proof.
  induction l as [|x l IH]; intro H; cbn [map]; [reflexivity|].
  assert (Hx : f x == g x) by (apply H; cbn; auto).
  assert (Hl : Py.sum (map f l) == Py.sum (map g l))
    by (apply IH; intros y Hy; apply H; cbn; auto).
  rewrite !sum_cons, Hx, Hl. reflexivity.
Qed.

Lemma sum_map_scale {A : Type} (c : Q) (f : A -> Q) (l : list A) :
  Py.sum (map (fun x => c * f x) l) == c * Py.sum (map f l).
Proof.
  induction l as [|x l IH]; cbn [map].
  - unfold Py.sum; cbn. ring.
  - rewrite !sum_cons, IH. ring.
Qed.

Lemma sum_map_plus {A : Type} (f g : A -> Q) (l : list A) :
  Py.sum (map (fun x => f x + g x) l) == Py.sum (map f l) + Py.sum (map g l).
Proof.
  induction l as [|x l IH]; cbn [map].
  - unfold Py.sum; cbn. ring.
  - rewrite !sum_cons, IH. ring.
Qed.

Lemma sum_map_const {A : Type} (c : Q) (l : list A) :
  Py.sum (map (fun _ => c) l) == inject_Z (Py.len l) * c.
Proof.
  induction l as [|x l IH]; cbn [map].
  - unfold Py.sum, Py.len; cbn. ring.
  - rewrite sum_cons, IH. unfold Py.len. cbn [length].
    rewrite Nat2Z.inj_succ, <- Z.add_1_r, inject_Z_plus.
    change (inject_Z 1) with 1. ring.
Qed.

Lemma sum_nonneg_list (l : list Q) : Forall (fun x => 0 <= x) l -> 0 <= Py.sum l.
Proof.
  induction 1 as [|x l Hx Hl IH].
  - unfold Py.sum; cbn. lra.
  - rewrite sum_cons. lra.
Qed.

End Sums.

(** ** Linear regression *)

Section Slope.

Lemma combine_map_self {A B : Type} (g : A -> B) (l : list A) :
  combine l (map g l) = map (fun x => (x, g x)) l.
Proof. induction l as [|x l IH]; cbn; [reflexivity|]. rewrite IH. reflexivity. Qed.

Lemma range_two (n : nat) :
  (2 <= n)%nat ->
  exists rest, Utils.range n = 0 :: 1 :: rest.
Proof.
  intro Hn. destruct n as [|[|n]]; try lia.
  unfold Utils.range. cbn [seq map]. eexists. reflexivity.
Qed.

Lemma square_nonneg (y : Q) : 0 <= y * y.
Proof.
  destruct (Qlt_le_dec y 0) as [H|H].
  - setoid_replace (y * y) with ((- y) * (- y)) by ring.
    apply Qmult_le_0_compat; lra.
  - apply Qmult_le_0_compat; lra.
Qed.

(** With two or more points the squared deviations of the indices do not
    sum to zero. *)
Lemma index_spread_positive (n : nat) (m : Q) :
  (2 <= n)%nat ->
  0 < Py.sum (map (fun x => (x - m) * (x - m)) (Utils.range n)).
Proof.
  intro Hn. destruct (range_two n Hn) as (rest & ->).
  cbn [map]. rewrite !sum_cons.
  assert (Hrest : 0 <= Py.sum (map (fun x => (x - m) * (x - m)) rest)).
  { apply sum_nonneg_list. apply Forall_forall. intros y Hy.
    apply in_map_iff in Hy. destruct Hy as (x & <- & _). apply square_nonneg. }
  pose proof (square_nonneg (0 - m)) as H0.
  pose proof (square_nonneg (1 - m)) as H1.
  destruct (Qlt_le_dec m (1 # 2)) as [Hm|Hm].
  - assert (1 # 4 <= (1 - m) * (1 - m)) by nra. lra.
  - assert (1 # 4 <= (0 - m) * (0 - m)) by nra. lra.
Qed.

(** X4. On a series of two or more values that grows by the same step [b]
    from one value to the next, [calculate_slope] returns [b]; in
    particular it returns 0 on a flat series. *)
Theorem slope_of_line (a b : Q) (n : nat) :
  (2 <= n)%nat ->
  Utils.calculate_slope (line a b n) == b.
Proof.
  intro Hn. unfold Utils.calculate_slope, line.
  rewrite length_map.
  assert (Hlen : length (Utils.range n) = n).
  { unfold Utils.range. rewrite length_map, length_seq. reflexivity. }
  rewrite Hlen.
  replace (n <? 2)%nat with false by (symmetry; apply Nat.ltb_ge; exact Hn).
  unfold Py.len. rewrite length_map, Hlen.
  set (N := inject_Z (Z.of_nat n)).
  assert (HN : 0 < N).
  { unfold N. change 0 with (inject_Z 0). rewrite <- Zlt_Qlt. lia. }
  set (xs := Utils.range n).
  set (xm := Py.sum xs / N).
  set (ym := Py.sum (map (fun x => a + b * x) xs) / N).
  assert (Hym : ym == a + b * xm).
  { unfold ym, xm.
    rewrite (sum_map_plus (fun _ => a) (fun x => b * x) xs).
    rewrite sum_map_const, (sum_map_scale b (fun x => x) xs), map_id.
    unfold Py.len. fold xs in Hlen. rewrite Hlen. fold N. field. lra. }
  rewrite combine_map_self, map_map. cbn [fst snd].
  set (den := Py.sum (map (fun xi => (xi - xm) * (xi - xm)) xs)).
  assert (Hden : 0 < den) by (apply index_spread_positive; exact Hn).
  assert (Hnum : Py.sum (map (fun x => (x - xm) * (a + b * x - ym)) xs)
                 == b * den).
  { unfold den. rewrite <- sum_map_scale. apply sum_map_ext.
    intros x _. rewrite Hym. ring. }
  replace (Qeq_bool den 0) with false
    by (symmetry; apply Qeq_bool_false_iff; lra).
  rewrite Hnum. field. lra.
Qed.

Lemma slope_of_line_witness :
  (2 <= 4)%nat /\ Utils.calculate_slope (line 10 (3 # 2) 4) == 3 # 2.
Proof.
  assert (H : (2 <= 4)%nat) by lia.
  exact (conj H (slope_of_line 10 (3 # 2) 4 H)).
Defined.

End Slope.

(** ** tpo_analyzer.py *)

Section TPOUpdate.
Import Models TPOAnalyzer.

Lemma add_price_volume_shape (self self' : t) (candle : Candle.t) :
  _add_price_volume self candle = Ok self' ->
  exists pvm ptm, self' = with_maps self pvm ptm.
Proof.
  unfold _add_price_volume. intro H.
  repeat match type of H with
         | context [rbind ?r _] => destruct r; cbn [rbind] in H; try discriminate
         | context [if ?b then _ else _] => destruct b
         end; try discriminate; injection H as <-; eauto.
Qed.

Lemma calculate_profile_shape (self self' : t) :
  _calculate_profile self = Ok self' ->
  self' = self \/ exists p, self' = with_current_profile self (Some p).
Proof.
  unfold _calculate_profile. intro H.
  destruct (price_volume_map self) as [|first rest].
  - injection H as <-. auto.
  - repeat match type of H with
           | context [rbind ?r _] => destruct r; cbn [rbind] in H; try discriminate
           end.
    destruct (current_session_start self); [|discriminate].
    injection H as <-. eauto.
Qed.

(** On a started session the recomputation returns, whatever the map. *)
Lemma calculate_profile_total (self : t) (start : Z) :
  current_session_start self = Some start ->
  exists self', _calculate_profile self = Ok self'.
Proof.
  intro Hs. destruct (price_volume_map self) as [|first rest] eqn:E.
  - exists self. unfold _calculate_profile. rewrite E. reflexivity.
  - destruct (calculate_profile_spec self start) as (self' & _ & _ & _ & H & _);
      [rewrite E; discriminate|assumption|].
    eauto.
Qed.

(** The analyzer after the session and time-slice steps of [update]. *)
Lemma update_unfold (self : t) (candle : Candle.t) (s : Z) :
  Utils.get_session_start (Candle.timestamp candle) (session_start_time self)
  = Ok s ->
  exists self2,
    current_session_start self2 = Some s /\
    tick_size self2 = tick_size self /\
    (current_session_start self <> Some s ->
     self2 = with_slice (_start_new_session self s) 1
               (Some (Candle.timestamp candle))) /\
    (current_session_start self = Some s ->
     price_volume_map self2 = price_volume_map self) /\
    update self candle
    = (self3 <- _add_price_volume self2 candle ;;
       self4 <- _calculate_profile self3 ;;
       Ok (with_last_price self4 (Some (Candle.close candle)),
           _detect_structure_event self4 (Candle.close candle))).
Proof.
  intro Hs. unfold update. rewrite Hs. cbn [rbind].
  destruct (current_session_start self) as [current|] eqn:Ec.
  - destruct (s =? current)%Z eqn:E; cbn [negb].
    + apply Z.eqb_eq in E. subst current.
      eexists. split; [|split; [|split; [|split; [|reflexivity]]]].
      * destruct (_is_new_time_slice self (Candle.timestamp candle)); cbn; exact Ec.
      * destruct (_is_new_time_slice self (Candle.timestamp candle)); reflexivity.
      * intro Hne. contradiction.
      * intros _.
        destruct (_is_new_time_slice self (Candle.timestamp candle)); reflexivity.
    + apply Z.eqb_neq in E.
      eexists. split; [|split; [|split; [|split; [|reflexivity]]]];
        try reflexivity.
      intro H. injection H as H. congruence.
  - eexists. split; [|split; [|split; [|split; [|reflexivity]]]];
      try reflexivity.
    discriminate.
Qed.

(** X5. [update] returns on every candle whose session start
    [get_session_start] can give, provided the tick size is positive (as in
    every analyzer built by [init]): its loops end and nothing else
    raises.  The analyzer it leaves is in the session of the candle and
    remembers the close as last price. *)
Theorem tpo_update_returns (self : t) (candle : Candle.t) (s : Z) :
  0 < tick_size self ->
  Utils.get_session_start (Candle.timestamp candle) (session_start_time self)
  = Ok s ->
  exists self' event,
    update self candle = Ok (self', event) /\
    current_session_start self' = Some s /\
    last_price self' = Some (Candle.close candle) /\
    tick_size self' = tick_size self.
Proof.
  intros Htick Hs.
  destruct (update_unfold self candle s Hs) as (self2 & Hs2 & Ht2 & _ & _ & ->).
  destruct (add_price_volume_total self2 candle) as (self3 & H3 & Hs3 & Ht3);
    [rewrite Ht2; exact Htick|].
  rewrite H3. cbn [rbind].
  destruct (calculate_profile_total self3 s) as (self4 & H4); [congruence|].
  rewrite H4. cbn [rbind].
  eexists _, _. split; [reflexivity|].
  destruct (calculate_profile_shape _ _ H4) as [->|(p & ->)]; cbn;
    repeat split; congruence.
Qed.

Lemma tpo_update_returns_witness :
  0 < tick_size example_analyzer /\
  Utils.get_session_start 1700000000000 (session_start_time example_analyzer)
  = Ok 1699920000000%Z /\
  exists self' event,
    update example_analyzer (flat_candle 1700000000000 101 5) = Ok (self', event) /\
    current_session_start self' = Some 1699920000000%Z /\
    last_price self' = Some 101 /\
    tick_size self' = tick_size example_analyzer.
Proof.
  assert (H1 : 0 < tick_size example_analyzer) by reflexivity.
  assert (H2 : Utils.get_session_start 1700000000000
                 (session_start_time example_analyzer) = Ok 1699920000000%Z)
    by reflexivity.
  exact (conj H1 (conj H2
           (tpo_update_returns example_analyzer
              (flat_candle 1700000000000 101 5) _ H1 H2))).
Defined.

End TPOUpdate.

Section TPOVolumes.
Import Models TPOAnalyzer.

Lemma dict_add_nonneg (pvm : Dict.t Q) (k v : Q) :
  nonneg_volumes pvm -> 0 <= v ->
  nonneg_volumes (Dict.set pvm k (Dict.get_default 0 pvm k + v)).
Proof.
  intros Hm Hv. pose proof (get_default_nonneg pvm k Hm) as Hg.
  assert (Hw : 0 <= Dict.get_default 0 pvm k + v) by lra.
  revert Hw. generalize (Dict.get_default 0 pvm k + v). intros w Hw. clear Hg.
  induction Hm as [|[k' v'] m Hv' Hm IH]; cbn [Dict.set].
  - constructor; [exact Hw|constructor].
  - destruct (Qeq_bool k' k).
    + constructor; [exact Hw|exact Hm].
    + constructor; [exact Hv'|apply IH].
Qed.

Lemma dict_add_sum (pvm : Dict.t Q) (k v : Q) :
  Py.sum (Dict.values (Dict.set pvm k (Dict.get_default 0 pvm k + v)))
  == Py.sum (Dict.values pvm) + v.
Proof.
  unfold Dict.get_default, Dict.values.
  induction pvm as [|[k' v'] m IH]; cbn [Dict.set Dict.get map snd].
  - rewrite sum_cons. ring.
  - destruct (Qeq_bool k' k); cbn [map snd]; rewrite !sum_cons.
    + ring.
    + rewrite IH. ring.
Qed.

Lemma Qfloor_pred_eq (y : Q) : Qfloor (y - 1) = (Qfloor y - 1)%Z.
Proof.
  pose proof (Qfloor_pred y) as Hle.
  assert (Hge : inject_Z (Qfloor y - 1) <= y - 1).
  { pose proof (Qfloor_le y).
    replace (Qfloor y - 1)%Z with (Qfloor y + (-1))%Z by lia.
    rewrite inject_Z_plus. change (inject_Z (-1)) with (-1 # 1). lra. }
  apply Qfloor_resp_le in Hge. rewrite Qfloor_Z in Hge. lia.
Qed.

(** The loop of [_add_price_volume] adds one share per tick from the
    current price up to the high, and keeps volumes non-negative. *)
Lemma distribute_accounting (candle : Candle.t) (letter : ascii) (tick : Q)
    (fuel : nat) :
  0 < tick ->
  forall (pvm : Dict.t Q) (ptm : Dict.t (list ascii)) (current : Q)
         (pvm' : Dict.t Q) (ptm' : Dict.t (list ascii)),
    Candle.low candle <= current ->
    distribute fuel candle letter (Candle.high candle - Candle.low candle)
      tick pvm ptm current = Ok (pvm', ptm') ->
    let share :=
      Candle.volume candle
      / ((Candle.high candle - Candle.low candle) / tick + 1) in
    Py.sum (Dict.values pvm')
    == Py.sum (Dict.values pvm)
       + (if Qle_bool current (Candle.high candle)
          then inject_Z (Qfloor ((Candle.high candle - current) / tick) + 1)
          else 0) * share
    /\ (0 <= Candle.volume candle -> nonneg_volumes pvm -> nonneg_volumes pvm').
Proof.
  intro Htick.
  induction fuel as [|fuel IH]; intros pvm ptm current pvm' ptm' Hlow;
    cbn [distribute];
    destruct (Qle_bool current (Candle.high candle)) eqn:E; cbn [negb];
    try discriminate;
    try (intro H; injection H as <- <-; split; [ring|auto]).
  apply Qle_bool_iff in E.
  destruct (round_to_tick_total current tick Htick) as (key & ->).
  cbn [rbind]. unfold Py.div.
  assert (Htick0 : Qeq_bool tick 0 = false) by (apply Qeq_bool_false_iff; lra).
  rewrite Htick0. cbn [rbind].
  assert (Hticks : 0 <= (Candle.high candle - Candle.low candle) / tick).
  { apply Qle_shift_div_l; [exact Htick|]. lra. }
  assert (Hden : Qeq_bool ((Candle.high candle - Candle.low candle) / tick + 1) 0
                 = false) by (apply Qeq_bool_false_iff; lra).
  rewrite Hden. cbn [rbind].
  intro H. apply IH in H; [|lra]. cbv zeta in *.
  set (share := Candle.volume candle
                / ((Candle.high candle - Candle.low candle) / tick + 1)) in *.
  destruct H as (Hsum & Hnn). split.
  - rewrite Hsum, dict_add_sum.
    assert (Hstep : (Candle.high candle - (current + tick)) / tick
                    == (Candle.high candle - current) / tick - 1)
      by (field; lra).
    set (x := (Candle.high candle - current) / tick) in *.
    assert (Hx : 0 <= x) by (apply Qle_shift_div_l; [exact Htick|]; lra).
    destruct (Qle_bool (current + tick) (Candle.high candle)) eqn:E2.
    + rewrite Hstep, Qfloor_pred_eq.
      replace (Qfloor x - 1 + 1)%Z with (Qfloor x) by lia.
      rewrite inject_Z_plus. change (inject_Z 1) with 1. ring.
    + apply Qle_bool_false_iff in E2.
      assert (Hx1 : x < 1).
      { apply Qlt_shift_div_r; [exact Htick|]. lra. }
      assert (Hf : Qfloor x = 0%Z).
      { pose proof (Qfloor_le x) as H1. pose proof (Qlt_floor x) as H2.
        assert (H3 : inject_Z (Qfloor x) < inject_Z 1)
          by (change (inject_Z 1) with 1; lra).
        assert (H4 : inject_Z 0 < inject_Z (Qfloor x + 1))
          by (change (inject_Z 0) with 0; lra).
        rewrite <- Zlt_Qlt in H3, H4. lia. }
      rewrite Hf. change (inject_Z (0 + 1)) with 1. ring.
  - intros Hv Hm. apply Hnn; [exact Hv|].
    apply dict_add_nonneg; [exact Hm|].
    unfold share. apply Qle_shift_div_l; lra.
Qed.

Lemma add_price_volume_sum (self : t) (candle : Candle.t) :
  0 < tick_size self ->
  Candle.low candle <= Candle.high candle ->
  exists self',
    _add_price_volume self candle = Ok self' /\
    Py.sum (Dict.values (price_volume_map self'))
    == Py.sum (Dict.values (price_volume_map self))
       + volume_added (tick_size self) candle /\
    (0 <= Candle.volume candle -> nonneg_volumes (price_volume_map self) ->
     nonneg_volumes (price_volume_map self')).
Proof.
  intros Htick Hrange.
  destruct (add_price_volume_total self candle Htick) as (self' & Hadd & _).
  exists self'. split; [exact Hadd|].
  unfold volume_added.
  revert Hadd. unfold _add_price_volume.
  destruct (round_to_tick_total (Candle.open candle) _ Htick) as (q1 & ->).
  destruct (round_to_tick_total (Candle.high candle) _ Htick) as (q2 & ->).
  destruct (round_to_tick_total (Candle.low candle) _ Htick) as (q3 & ->).
  destruct (round_to_tick_total (Candle.close candle) _ Htick) as (q4 & ->).
  cbn [rbind].
  destruct (Qeq_bool (Candle.high candle - Candle.low candle) 0).
  - intro H. injection H as <-. cbn [price_volume_map with_maps].
    split; [apply dict_add_sum|].
    intros Hv Hm. apply dict_add_nonneg; assumption.
  - destruct (distribute _ candle _ _ _ _ _ _) as [[pvm' ptm']| |] eqn:Ed;
      cbn [rbind]; try discriminate.
    intro H. injection H as <-. cbn [price_volume_map with_maps fst].
    apply distribute_accounting in Ed; [|exact Htick|apply Qle_refl].
    destruct Ed as (Hsum & Hnn). split; [|exact Hnn].
    rewrite Hsum.
    replace (Qle_bool (Candle.low candle) (Candle.high candle)) with true
      by (symmetry; apply Qle_bool_iff; exact Hrange).
    reflexivity.
Qed.

(** What the candle adds lies within one share of its volume: a share per
    tick touched, the first at the low, none above the high. *)
Lemma volume_added_bounds (tick : Q) (candle : Candle.t) :
  0 < tick ->
  Candle.low candle <= Candle.high candle ->
  (Candle.high candle == Candle.low candle ->
   volume_added tick candle == Candle.volume candle) /\
  (Candle.low candle < Candle.high candle ->
   exists n : Z,
     (1 <= n)%Z /\
     volume_added tick candle == inject_Z n * volume_at_price tick candle) /\
  (0 <= Candle.volume candle ->
   Candle.volume candle - volume_at_price tick candle
   <= volume_added tick candle /\
   volume_added tick candle <= Candle.volume candle).
Proof.
  intros Htick Hrange. unfold volume_added, volume_at_price.
  set (x := (Candle.high candle - Candle.low candle) / tick).
  assert (Hx : 0 <= x) by (apply Qle_shift_div_l; [exact Htick|]; lra).
  assert (Hn : (1 <= Qfloor x + 1)%Z).
  { apply Qfloor_resp_le in Hx. change (Qfloor 0) with 0%Z in Hx. lia. }
  assert (Hlo : x < inject_Z (Qfloor x + 1)) by apply Qlt_floor.
  assert (Hhi : inject_Z (Qfloor x + 1) <= x + 1).
  { rewrite inject_Z_plus. change (inject_Z 1) with 1.
    pose proof (Qfloor_le x). lra. }
  destruct (Qeq_bool (Candle.high candle - Candle.low candle) 0) eqn:E.
  - apply Qeq_bool_iff in E.
    assert (Hx0 : x == 0) by (unfold x; rewrite E; field; lra).
    split; [reflexivity|]. split; [intro; lra|].
    intro Hv. split; [|lra].
    assert (Hs : Candle.volume candle / (x + 1) == Candle.volume candle)
      by (rewrite Hx0; field).
    rewrite Hs. lra.
  - apply Qeq_bool_false_iff in E.
    split; [intro; lra|]. split.
    + intros _. exists (Qfloor x + 1)%Z. split; [exact Hn|reflexivity].
    + intro Hv.
      assert (Hs : 0 <= Candle.volume candle / (x + 1))
        by (apply Qle_shift_div_l; lra).
      assert (Hfull : (x + 1) * (Candle.volume candle / (x + 1))
                      == Candle.volume candle) by (field; lra).
      set (share := Candle.volume candle / (x + 1)) in *.
      set (n := inject_Z (Qfloor x + 1)) in *.
      assert (H1 : x * share <= n * share)
        by (apply Qmult_le_compat_r; [lra|exact Hs]).
      assert (H2 : n * share <= (x + 1) * share)
        by (apply Qmult_le_compat_r; [exact Hhi|exact Hs]).
      split; lra.
Qed.

(** X6. With a positive tick, [_add_price_volume] returns on every candle
    whose low is not above its high.  It raises the total volume of the
    map by the whole volume of a flat candle; for a candle with a range it
    raises it by a whole number of equal shares, at least one, each the
    volume over the ticks of the range plus one, and, when the volume is
    not negative, by no more than the volume of the candle and by no less
    than the volume short of one share. *)
Theorem add_price_volume_accounting (self : t) (candle : Candle.t) :
  0 < tick_size self ->
  Candle.low candle <= Candle.high candle ->
  exists self',
    _add_price_volume self candle = Ok self' /\
    let before := Py.sum (Dict.values (price_volume_map self)) in
    let after := Py.sum (Dict.values (price_volume_map self')) in
    let share := volume_at_price (tick_size self) candle in
    (Candle.high candle == Candle.low candle ->
     after == before + Candle.volume candle) /\
    (Candle.low candle < Candle.high candle ->
     exists n : Z, (1 <= n)%Z /\ after == before + inject_Z n * share) /\
    (0 <= Candle.volume candle ->
     before + Candle.volume candle - share <= after /\
     after <= before + Candle.volume candle).
Proof.
  intros Htick Hrange.
  destruct (add_price_volume_sum self candle Htick Hrange)
    as (self' & Hadd & Hsum & _).
  destruct (volume_added_bounds (tick_size self) candle Htick Hrange)
    as (Hflat & Hshares & Hbounds).
  exists self'. split; [exact Hadd|]. cbv zeta. split; [|split].
  - intro H. rewrite Hsum, (Hflat H). reflexivity.
  - intro H. destruct (Hshares H) as (n & Hn & En).
    exists n. split; [exact Hn|]. rewrite Hsum, En. reflexivity.
  - intro H. destruct (Hbounds H). rewrite Hsum. split; lra.
Qed.

Lemma add_price_volume_accounting_witness :
  0 < tick_size example_session /\
  Candle.low ranged_candle <= Candle.high ranged_candle /\
  exists self',
    _add_price_volume example_session ranged_candle = Ok self' /\
    let before := Py.sum (Dict.values (price_volume_map example_session)) in
    let after := Py.sum (Dict.values (price_volume_map self')) in
    let share := volume_at_price (tick_size example_session) ranged_candle in
    (Candle.high ranged_candle == Candle.low ranged_candle ->
     after == before + Candle.volume ranged_candle) /\
    (Candle.low ranged_candle < Candle.high ranged_candle ->
     exists n : Z, (1 <= n)%Z /\ after == before + inject_Z n * share) /\
    (0 <= Candle.volume ranged_candle ->
     before + Candle.volume ranged_candle - share <= after /\
     after <= before + Candle.volume ranged_candle).
Proof.
  assert (H1 : 0 < tick_size example_session) by reflexivity.
  assert (H2 : Candle.low ranged_candle <= Candle.high ranged_candle)
    by (vm_compute; discriminate).
  exact (conj H1 (conj H2
           (add_price_volume_accounting example_session ranged_candle H1 H2))).
Defined.

End TPOVolumes.

(** ** tpo_analyzer.py: sessions, volumes over many candles, events *)

Section TPOSessions.
Import Models TPOAnalyzer.

Lemma add_price_volume_nonneg (self self' : t) (candle : Candle.t) :
  0 < tick_size self ->
  0 <= Candle.volume candle ->
  nonneg_volumes (price_volume_map self) ->
  _add_price_volume self candle = Ok self' ->
  nonneg_volumes (price_volume_map self').
Proof.
  intros Htick Hv Hm. unfold _add_price_volume.
  destruct (round_to_tick_total (Candle.open candle) _ Htick) as (q1 & ->).
  destruct (round_to_tick_total (Candle.high candle) _ Htick) as (q2 & ->).
  destruct (round_to_tick_total (Candle.low candle) _ Htick) as (q3 & ->).
  destruct (round_to_tick_total (Candle.close candle) _ Htick) as (q4 & ->).
  cbn [rbind].
  destruct (Qeq_bool (Candle.high candle - Candle.low candle) 0).
  - intro H. injection H as <-. cbn [price_volume_map with_maps].
    apply dict_add_nonneg; assumption.
  - destruct (distribute _ candle _ _ _ _ _ _) as [[pvm' ptm']| |] eqn:Ed;
      cbn [rbind]; try discriminate.
    intro H. injection H as <-. cbn [price_volume_map with_maps fst].
    apply distribute_accounting in Ed; [|exact Htick|apply Qle_refl].
    destruct Ed as (_ & Hnn). apply Hnn; assumption.
Qed.

Lemma update_session_start (self : t) (candle : Candle.t)
    (x : t * option TPOStructureEvent) :
  update self candle = Ok x ->
  exists s,
    Utils.get_session_start (Candle.timestamp candle) (session_start_time self)
    = Ok s.
Proof.
  unfold update.
  destruct (Utils.get_session_start _ _) as [s| |]; cbn [rbind];
    try discriminate.
  eauto.
Qed.

(** The map that [_add_price_volume] receives inside [update]: the map of
    the analyzer within a session, the empty map at the start of one. *)
Lemma update_map_before_add (self self2 : t) (s : Z) (candle : Candle.t) :
  (current_session_start self <> Some s ->
   self2 = with_slice (_start_new_session self s) 1
             (Some (Candle.timestamp candle))) ->
  (current_session_start self = Some s ->
   price_volume_map self2 = price_volume_map self) ->
  price_volume_map self2 = price_volume_map self \/ price_volume_map self2 = [].
Proof.
  intros Hnew Hsame.
  destruct (current_session_start self) as [c|] eqn:Ec.
  - destruct (Z.eq_dec c s) as [->|Hne].
    + left. apply Hsame. reflexivity.
    + right. rewrite Hnew; [reflexivity|]. congruence.
  - right. rewrite Hnew; [reflexivity|]. discriminate.
Qed.

Lemma update_nonneg (self self' : t) (candle : Candle.t)
    (event : option TPOStructureEvent) :
  0 < tick_size self ->
  0 <= Candle.volume candle ->
  nonneg_volumes (price_volume_map self) ->
  update self candle = Ok (self', event) ->
  nonneg_volumes (price_volume_map self') /\ tick_size self' = tick_size self.
Proof.
  intros Htick Hv Hm Hup.
  destruct (update_session_start _ _ _ Hup) as (s & Hs).
  destruct (update_unfold self candle s Hs)
    as (self2 & Hs2 & Ht2 & Hnew & Hsame & Heq).
  rewrite Heq in Hup.
  assert (Hm2 : nonneg_volumes (price_volume_map self2)).
  { destruct (update_map_before_add _ _ _ _ Hnew Hsame) as [-> | ->];
      [exact Hm|constructor]. }
  destruct (_add_price_volume self2 candle) as [self3| |] eqn:E3;
    cbn [rbind] in Hup; try discriminate.
  assert (Hm3 : nonneg_volumes (price_volume_map self3)).
  { eapply add_price_volume_nonneg; [|exact Hv|exact Hm2|exact E3].
    rewrite Ht2. exact Htick. }
  destruct (add_price_volume_shape _ _ _ E3) as (pvm & ptm & ->).
  destruct (_calculate_profile _) as [self4| |] eqn:E4;
    cbn [rbind] in Hup; try discriminate.
  injection Hup as <- _.
  destruct (calculate_profile_shape _ _ E4) as [->|(p & ->)];
    cbn in *; split; assumption.
Qed.

Lemma fold_updates_failed (candles : list Candle.t) (r : result t) :
  (forall s, r <> Ok s) ->
  fold_left (fun r candle => s <- r ;; x <- update s candle ;; Ok (fst x))
    candles r = r.
Proof.
  revert r. induction candles as [|c rest IH]; intros r Hr; [reflexivity|].
  cbn [fold_left].
  destruct r as [s|e|]; [destruct (Hr s); reflexivity| |];
    cbn [rbind]; apply IH; discriminate.
Qed.

Lemma run_updates_cons (self : t) (c : Candle.t) (rest : list Candle.t) :
  run_updates self (c :: rest)
  = match update self c with
    | Ok x => run_updates (fst x) rest
    | Raise e => Raise e
    | OutOfFuel => OutOfFuel
    end.
Proof.
  unfold run_updates. cbn [fold_left rbind].
  destruct (update self c) as [x|e|]; cbn [rbind];
    [reflexivity| |]; apply fold_updates_failed; discriminate.
Qed.

(** X7. Volumes never turn negative: when no candle fed to the analyzer
    has a negative volume, every price of the price-to-volume map keeps a
    non-negative volume, over any number of updates and session changes
    (the condition under which the value area is known to reach its
    target). *)
Theorem volumes_stay_nonneg (candles : list Candle.t) (self self' : t) :
  0 < tick_size self ->
  nonneg_volumes (price_volume_map self) ->
  Forall (fun c => 0 <= Candle.volume c) candles ->
  run_updates self candles = Ok self' ->
  nonneg_volumes (price_volume_map self').
Proof.
  revert self. induction candles as [|c rest IH]; intros self Htick Hm Hv Hrun.
  - injection Hrun as <-. exact Hm.
  - rewrite run_updates_cons in Hrun.
    destruct (update self c) as [[s ev]| |] eqn:Eu; try discriminate.
    inversion Hv as [|? ? Hc Hrest]; subst.
    destruct (update_nonneg _ _ _ _ Htick Hc Hm Eu) as (Hm' & Ht').
    apply (IH s); [rewrite Ht'; exact Htick|exact Hm'|exact Hrest|exact Hrun].
Qed.

Lemma volumes_stay_nonneg_witness :
  exists self',
    run_updates example_analyzer (ranged_candle :: tied_candles) = Ok self' /\
    nonneg_volumes (price_volume_map self').
Proof.
  destruct (run_updates example_analyzer (ranged_candle :: tied_candles))
    as [self'| |] eqn:E; try (vm_compute in E; discriminate).
  exists self'. split; [reflexivity|].
  apply (volumes_stay_nonneg (ranged_candle :: tied_candles) example_analyzer).
  - reflexivity.
  - constructor.
  - repeat constructor; discriminate.
  - exact E.
Defined.

(** X8. The first candle of a new session (its session start differs from
    the analyzer's, or the analyzer has none yet) starts the distribution
    afresh: the profile of the session that ended, when there is one,
    becomes the previous profile; what the maps held has no part in the
    result, which is the same whatever they held; the map holds volume of
    this candle only, all of it for a flat candle and, for a volume that
    is not negative, never more than it nor less than it short of one
    share; the letter index is 1 and the slice time is the candle's
    timestamp. *)
Theorem session_rollover (self : t) (candle : Candle.t) (s : Z) :
  0 < tick_size self ->
  Candle.low candle <= Candle.high candle ->
  Utils.get_session_start (Candle.timestamp candle) (session_start_time self)
  = Ok s ->
  current_session_start self <> Some s ->
  exists self' event,
    update self candle = Ok (self', event) /\
    current_session_start self' = Some s /\
    previous_profile self'
    = match current_profile self with
      | Some p => Some p
      | None => previous_profile self
      end /\
    (forall pvm ptm,
        update (with_maps self pvm ptm) candle = Ok (self', event)) /\
    (Candle.high candle == Candle.low candle ->
     Py.sum (Dict.values (price_volume_map self')) == Candle.volume candle) /\
    (0 <= Candle.volume candle ->
     Candle.volume candle - volume_at_price (tick_size self) candle
     <= Py.sum (Dict.values (price_volume_map self')) /\
     Py.sum (Dict.values (price_volume_map self')) <= Candle.volume candle) /\
    current_letter_index self' = 1%Z /\
    last_slice_time self' = Some (Candle.timestamp candle).
Proof.
  intros Htick Hrange Hs Hne.
  assert (Hmaps : forall pvm ptm,
             update (with_maps self pvm ptm) candle = update self candle).
  { intros pvm ptm. unfold update.
    change (session_start_time (with_maps self pvm ptm))
      with (session_start_time self).
    rewrite Hs. cbn [rbind].
    change (current_session_start (with_maps self pvm ptm))
      with (current_session_start self).
    destruct (current_session_start self) as [current|] eqn:Ec;
      [|reflexivity].
    destruct (s =? current)%Z eqn:E; [|reflexivity].
    apply Z.eqb_eq in E. subst current. contradiction. }
  destruct (update_unfold self candle s Hs)
    as (self2 & Hs2 & Ht2 & Hnew & _ & Hup).
  specialize (Hnew Hne).
  destruct (add_price_volume_sum self2 candle) as (self3 & H3 & Hsum & _);
    [rewrite Ht2; exact Htick|exact Hrange|].
  destruct (volume_added_bounds (tick_size self) candle Htick Hrange)
    as (Hflat & _ & Hbounds).
  rewrite H3 in Hup. cbn [rbind] in Hup.
  destruct (add_price_volume_shape _ _ _ H3) as (pvm & ptm & E3).
  destruct (calculate_profile_total self3 s) as (self4 & H4).
  { rewrite E3. cbn. exact Hs2. }
  rewrite H4 in Hup. cbn [rbind] in Hup.
  eexists _, _. split; [exact Hup|].
  assert (Hsum' : Py.sum (Dict.values (price_volume_map self3))
                  == volume_added (tick_size self) candle).
  { rewrite Hsum, Ht2, Hnew. cbn. ring. }
  assert (Hmap4 : price_volume_map self4 = price_volume_map self3).
  { destruct (calculate_profile_shape _ _ H4) as [->|(p & ->)]; reflexivity. }
  split; [|split; [|split; [|split; [|split; [|split]]]]].
  - destruct (calculate_profile_shape _ _ H4) as [->|(p & ->)];
      rewrite E3; cbn; exact Hs2.
  - destruct (calculate_profile_shape _ _ H4) as [->|(p & ->)];
      rewrite E3; cbn; rewrite Hnew; reflexivity.
  - intros pvm' ptm'. rewrite Hmaps. exact Hup.
  - intro H. cbn [price_volume_map with_last_price].
    rewrite Hmap4, Hsum'. exact (Hflat H).
  - intro H. cbn [price_volume_map with_last_price].
    rewrite Hmap4, Hsum'. exact (Hbounds H).
  - destruct (calculate_profile_shape _ _ H4) as [->|(p & ->)];
      rewrite E3; cbn; rewrite Hnew; reflexivity.
  - destruct (calculate_profile_shape _ _ H4) as [->|(p & ->)];
      rewrite E3; cbn; rewrite Hnew; reflexivity.
Qed.

Lemma session_rollover_witness :
  let self := with_current_profile example_session (Some example_profile) in
  let r := update self next_session_candle in
  exists self' event,
    r = Ok (self', event) /\
    current_session_start self' = Some 1700006400000%Z /\
    previous_profile self' = Some example_profile /\
    (forall pvm ptm,
        update (with_maps self pvm ptm) next_session_candle
        = Ok (self', event)) /\
    (Candle.high next_session_candle == Candle.low next_session_candle ->
     Py.sum (Dict.values (price_volume_map self'))
     == Candle.volume next_session_candle) /\
    (0 <= Candle.volume next_session_candle ->
     Candle.volume next_session_candle
     - volume_at_price (tick_size self) next_session_candle
     <= Py.sum (Dict.values (price_volume_map self')) /\
     Py.sum (Dict.values (price_volume_map self'))
     <= Candle.volume next_session_candle) /\
    current_letter_index self' = 1%Z /\
    last_slice_time self' = Some 1700010000000%Z.
Proof.
  cbv zeta.
  apply (session_rollover
           (with_current_profile example_session (Some example_profile))
           next_session_candle 1700006400000%Z).
  - reflexivity.
  - cbn. lra.
  - reflexivity.
  - discriminate.
Defined.

End TPOSessions.

Section TPOEvents.
Import Models TPOAnalyzer.

Lemma crossing_meaning (last current level proximity : Q)
    (up down e : TPOStructureEvent) :
  crossing last current level proximity up down = Some e ->
  (e = up /\ last < level /\ level <= current) \/
  (e = down /\ level < last /\ current <= level).
Proof.
  unfold crossing.
  destruct (Utils.is_near current level proximity); [|discriminate].
  destruct (Py.Qlt_bool last level && Qle_bool level current) eqn:E1.
  - intro H. injection H as <-. left.
    apply andb_true_iff in E1. destruct E1 as (H1 & H2).
    apply Qlt_bool_iff in H1. apply Qle_bool_iff in H2. auto.
  - destruct (Py.Qlt_bool level last && Qle_bool current level) eqn:E2;
      [|discriminate].
    intro H. injection H as <-. right.
    apply andb_true_iff in E2. destruct E2 as (H1 & H2).
    apply Qlt_bool_iff in H1. apply Qle_bool_iff in H2. auto.
Qed.

(** X9. A structure event is reported only against a current profile and a
    remembered last price, and says what its name says: a breakout,
    bounce or reclaim has the last price strictly below the level and the
    current price at or above it, a rejection, break or breakdown the
    reverse, and the two value-area events a change of side. *)
Theorem structure_event_meaning (self : t) (current_price : Q)
    (e : TPOStructureEvent) :
  _detect_structure_event self current_price = Some e ->
  exists profile last,
    current_profile self = Some profile /\
    last_price self = Some last /\
    event_meaning profile last current_price e.
Proof.
  unfold _detect_structure_event.
  destruct (current_profile self) as [profile|]; [|discriminate].
  destruct (last_price self) as [last|]; [|discriminate].
  intro H. exists profile, last. split; [reflexivity|]. split; [reflexivity|].
  destruct (crossing last current_price (TPOProfile.vah profile) _ _ _)
    as [e1|] eqn:E1.
  { injection H as <-.
    destruct (crossing_meaning _ _ _ _ _ _ _ E1) as [(-> & ?)|(-> & ?)];
      assumption. }
  destruct (crossing last current_price (TPOProfile.val profile) _ _ _)
    as [e2|] eqn:E2.
  { injection H as <-.
    destruct (crossing_meaning _ _ _ _ _ _ _ E2) as [(-> & ?)|(-> & ?)];
      assumption. }
  destruct (crossing last current_price (TPOProfile.poc profile) _ _ _)
    as [e3|] eqn:E3.
  { injection H as <-.
    destruct (crossing_meaning _ _ _ _ _ _ _ E3) as [(-> & ?)|(-> & ?)];
      assumption. }
  destruct (TPOProfile.is_inside_value_area profile last) eqn:Ew;
    destruct (TPOProfile.is_inside_value_area profile current_price) eqn:Ei;
    cbn in H; try discriminate; injection H as <-; cbn [event_meaning];
    rewrite Ew, Ei; auto.
Qed.

Lemma structure_event_meaning_witness :
  let self := with_last_price
                (with_current_profile example_session (Some example_profile))
                (Some 89) in
  exists profile last,
    current_profile self = Some profile /\
    last_price self = Some last /\
    event_meaning profile last 90 VAL_BOUNCE.
Proof.
  apply structure_event_meaning. vm_compute. reflexivity.
Defined.

End TPOEvents.

(** ** tpo_analyzer.py and models.py: the stored profile *)

Section AxisSlices.

Lemma firstn_succ_nth {A : Type} (n : nat) :
  forall (l : list A) (x : A),
    nth_error l n = Some x -> firstn (S n) l = firstn n l ++ [x].
Proof.
  induction n as [|n IH]; intros [|y l] x H; try discriminate.
  - injection H as ->. reflexivity.
  - cbn [nth_error] in H. cbn [firstn app]. f_equal.
    exact (IH l x H).
Qed.

Lemma skipn_nth {A : Type} (k : nat) :
  forall (l : list A) (x : A),
    nth_error l k = Some x -> skipn k l = x :: skipn (S k) l.
Proof.
  induction k as [|k IH]; intros [|y l] x H; try discriminate.
  - injection H as ->. reflexivity.
  - cbn [nth_error] in H. exact (IH l x H).
Qed.

Lemma axis_slice_single (prices : list Q) (i : Z) (p : Q) :
  (0 <= i)%Z -> nth_error prices (Z.to_nat i) = Some p ->
  axis_slice prices i i = [p].
Proof.
  intros Hi Hp. unfold axis_slice.
  replace (Z.to_nat (i - i + 1)) with 1%nat by lia.
  rewrite (skipn_nth _ _ _ Hp). reflexivity.
Qed.

Lemma axis_slice_up (prices : list Q) (lower upper : Z) (p : Q) :
  (0 <= lower <= upper)%Z ->
  nth_error prices (Z.to_nat (upper + 1)) = Some p ->
  axis_slice prices lower (upper + 1) = axis_slice prices lower upper ++ [p].
Proof.
  intros Hr Hp. unfold axis_slice.
  replace (Z.to_nat (upper + 1 - lower + 1))
    with (S (Z.to_nat (upper - lower + 1))) by lia.
  apply firstn_succ_nth. rewrite nth_error_skipn.
  replace (Z.to_nat lower + Z.to_nat (upper - lower + 1))%nat
    with (Z.to_nat (upper + 1)) by lia.
  exact Hp.
Qed.

Lemma axis_slice_down (prices : list Q) (lower upper : Z) (p : Q) :
  (0 <= lower - 1)%Z -> (lower <= upper)%Z ->
  nth_error prices (Z.to_nat (lower - 1)) = Some p ->
  axis_slice prices (lower - 1) upper = p :: axis_slice prices lower upper.
Proof.
  intros Hl Hr Hp. unfold axis_slice.
  rewrite (skipn_nth _ _ _ Hp).
  replace (Z.to_nat (upper - (lower - 1) + 1))
    with (S (Z.to_nat (upper - lower + 1))) by lia.
  replace (S (Z.to_nat (lower - 1))) with (Z.to_nat lower) by lia.
  reflexivity.
Qed.

Lemma axis_slice_split (prices : list Q) (lower upper : Z) :
  prices
  = firstn (Z.to_nat lower) prices
    ++ axis_slice prices lower upper
    ++ skipn (Z.to_nat (upper - lower + 1)) (skipn (Z.to_nat lower) prices).
Proof.
  unfold axis_slice. rewrite !firstn_skipn. reflexivity.
Qed.

End AxisSlices.

Section ValueAreaVolume.
Import Models TPOAnalyzer.

Variable pvm : Dict.t Q.
Variable prices : list Q.
Variable target_volume : Q.

Lemma get_key_compat {V : Type} (m : Dict.t V) (k1 k2 : Q) :
  k1 == k2 -> Dict.get m k1 = Dict.get m k2.
Proof.
  intro Hk. induction m as [|[k v] m IH]; [reflexivity|].
  cbn [Dict.get].
  assert (E : Qeq_bool k k1 = Qeq_bool k k2).
  { destruct (Qeq_bool k k2) eqn:E2.
    - apply Qeq_bool_iff in E2. apply Qeq_bool_iff. rewrite Hk. exact E2.
    - apply Qeq_bool_false_iff in E2. apply Qeq_bool_false_iff.
      rewrite Hk. exact E2. }
  rewrite E, IH. reflexivity.
Qed.

Lemma sum_snoc_map (f : Q -> Q) (l : list Q) (p : Q) :
  Py.sum (map f (l ++ [p])) == Py.sum (map f l) + f p.
Proof.
  rewrite map_app, sum_app. cbn [map]. rewrite sum_cons.
  change (Py.sum []) with 0. ring.
Qed.

(** The loop keeps the value-area volume equal to the volume of the
    prices between its two indices. *)
Lemma expand_volume (fuel : nat) :
  forall a a',
    area_volume_inv pvm prices a ->
    expand fuel pvm prices target_volume a = Ok a' ->
    area_volume_inv pvm prices a'.
Proof.
  induction fuel as [|fuel IH]; intros a a' Hinv; cbn [expand];
    destruct (Py.Qlt_bool (value_area_volume a) target_volume);
    cbn [negb]; try discriminate;
    try (intro H; injection H as <-; exact Hinv).
  destruct Hinv as (Hlo & Hup & Hvol).
  destruct (upper_index a + 1 <? Py.len prices)%Z eqn:Eup;
    destruct (0 <=? lower_index a - 1)%Z eqn:Edn.
  - destruct (index_in_range prices (upper_index a + 1)) as (pu & Hiu & Hnu);
      [lia|].
    destruct (index_in_range prices (lower_index a - 1)) as (pl & Hil & Hnl);
      [lia|].
    rewrite Hiu, Hil. cbn [rbind].
    destruct (Qle_bool (Dict.get_default 0 pvm pl) (Dict.get_default 0 pvm pu));
      cbn [andb]; rewrite ?Hiu, ?Hil; cbn [rbind]; apply IH;
      unfold area_volume_inv; cbn; (split; [lia|]); (split; [lia|]).
    + rewrite (axis_slice_up _ _ _ _ Hlo Hnu), sum_snoc_map, Hvol. reflexivity.
    + rewrite (axis_slice_down _ _ _ pl); [|lia|lia|exact Hnl].
      cbn [map]. rewrite sum_cons, Hvol. ring.
  - destruct (index_in_range prices (upper_index a + 1)) as (pu & Hiu & Hnu);
      [lia|].
    rewrite Hiu. cbn [rbind].
    destruct (Qle_bool 0 (Dict.get_default 0 pvm pu)); cbn [andb].
    + cbn [rbind]. apply IH.
      unfold area_volume_inv; cbn; (split; [lia|]); (split; [lia|]).
      rewrite (axis_slice_up _ _ _ _ Hlo Hnu), sum_snoc_map, Hvol. reflexivity.
    + intro H. injection H as <-. repeat split; try lia; exact Hvol.
  - destruct (index_in_range prices (lower_index a - 1)) as (pl & Hil & Hnl);
      [lia|].
    rewrite Hil. cbn [rbind]. rewrite andb_false_r.
    cbn [rbind]. apply IH.
    unfold area_volume_inv; cbn; (split; [lia|]); (split; [lia|]).
    rewrite (axis_slice_down _ _ _ pl); [|lia|lia|exact Hnl].
    cbn [map]. rewrite sum_cons, Hvol. ring.
  - cbn [rbind]. rewrite andb_false_r.
    intro H. injection H as <-. repeat split; try lia; exact Hvol.
Qed.

End ValueAreaVolume.

Section StoredProfile.
Import Models TPOAnalyzer TPOProfileMethods.

(** The recomputation on a non-empty map of a started session, with the
    two invariants of its loop. *)
Lemma calculate_profile_area (self : t) (start : Z) :
  price_volume_map self <> [] ->
  current_session_start self = Some start ->
  let pvm := price_volume_map self in
  let prices := sorted (Dict.keys pvm) in
  exists self' p a poc_index,
    _calculate_profile self = Ok self' /\
    self' = with_current_profile self (Some p) /\
    area_inv prices poc_index a /\
    area_volume_inv pvm prices a /\
    (exists q, nth_error prices (Z.to_nat poc_index) = Some q /\
               q == TPOProfile.poc p) /\
    TPOProfile.vah p = upper_price a /\
    TPOProfile.val p = lower_price a /\
    TPOProfile.value_area_volume p = value_area_volume a /\
    TPOProfile.total_volume p = Py.sum (Dict.values pvm) /\
    TPOProfile.price_levels p = pvm /\
    TPOProfile.session_start p = start /\
    area_stopped pvm prices
      (Py.sum (Dict.values pvm) * (value_area_percent self / 100)) a.
Proof.
  intros Hne Hstart. cbv zeta. unfold _calculate_profile.
  destruct (price_volume_map self) as [|first rest] eqn:Epvm; [contradiction|].
  set (pvm := first :: rest).
  set (prices := sorted (Dict.keys pvm)).
  set (poc_price := fst (max_item first rest)).
  assert (Hin : exists y, In y prices /\ y == poc_price).
  { exists poc_price. split; [|reflexivity].
    apply sorted_In. unfold Dict.keys. apply in_map. apply max_item_In. }
  destruct (list_index_spec prices poc_price Hin) as (i & q & Hidx & Hr & Hn & Hq).
  rewrite Hidx. cbn [rbind].
  set (a0 := {| value_area_volume := Dict.get_default 0 pvm poc_price;
                upper_price := poc_price; lower_price := poc_price;
                upper_index := i; lower_index := i |}).
  destruct (expand_total pvm prices
              (Py.sum (Dict.values pvm) * (value_area_percent self / 100)) i
              (length prices) a0) as (a & Hexp & Hinv & Hstop).
  { unfold area_inv, a0; cbn [lower_index upper_index lower_price upper_price].
    repeat split; try lia; eauto. }
  { unfold a0; cbn [lower_index upper_index]. unfold Py.len. lia. }
  assert (Hvol : area_volume_inv pvm prices a).
  { eapply expand_volume; [|exact Hexp].
    unfold area_volume_inv, a0;
      cbn [lower_index upper_index value_area_volume].
    split; [lia|]. split; [lia|].
    rewrite (axis_slice_single _ _ q); [|lia|exact Hn].
    cbn [map]. rewrite sum_cons. change (Py.sum []) with 0.
    unfold Dict.get_default. rewrite (get_key_compat pvm q poc_price Hq).
    ring. }
  rewrite Hexp. cbn [rbind]. rewrite Hstart.
  eexists _, _, a, i. split; [reflexivity|]. split; [reflexivity|]. cbn.
  repeat split; try assumption; try reflexivity; try apply Hinv; try apply Hvol.
  exists q. split; assumption.
Qed.

Lemma calculate_profile_order (self : t) (start : Z) :
  price_volume_map self <> [] ->
  current_session_start self = Some start ->
  exists self' p,
    _calculate_profile self = Ok self' /\
    current_profile self' = Some p /\
    TPOProfile.val p <= TPOProfile.poc p /\
    TPOProfile.poc p <= TPOProfile.vah p.
Proof.
  intros Hne Hstart.
  destruct (calculate_profile_area self start Hne Hstart)
    as (self' & p & a & i & Hcalc & -> & Hinv & _ & (q & Hq & Hqp)
        & Hvah & Hval & _).
  destruct Hinv as (Hlo & Hup & (pl & Hpl & Hple) & (pu & Hpu & Hpue)).
  pose proof (sorted_sorted (Dict.keys (price_volume_map self))) as Hs.
  exists (with_current_profile self (Some p)), p.
  split; [exact Hcalc|]. split; [reflexivity|]. split.
  - rewrite Hval, <- Hple, <- Hqp.
    eapply (sorted_nth_le _ Hs); [|exact Hpl|exact Hq]. lia.
  - rewrite Hvah, <- Hpue, <- Hqp.
    eapply (sorted_nth_le _ Hs); [|exact Hq|exact Hpu]. lia.
Qed.

(** X10. The value-area volume that a recomputation stores is the volume
    of a run of neighbouring prices of the sorted price axis: the prices
    from VAL up to VAH, with nothing left out in between and nothing
    counted twice. *)
Theorem value_area_volume_is_run_sum (self : t) (start : Z) :
  price_volume_map self <> [] ->
  current_session_start self = Some start ->
  let pvm := price_volume_map self in
  let prices := sorted (Dict.keys pvm) in
  exists self' p lower upper below above,
    _calculate_profile self = Ok self' /\
    current_profile self' = Some p /\
    prices = below ++ axis_slice prices lower upper ++ above /\
    (exists q, hd_error (axis_slice prices lower upper) = Some q /\
               q == TPOProfile.val p) /\
    (exists q, nth_error prices (Z.to_nat upper) = Some q /\
               q == TPOProfile.vah p) /\
    Z.of_nat (length (axis_slice prices lower upper)) = (upper - lower + 1)%Z /\
    Z.of_nat (length below) = lower /\
    TPOProfile.value_area_volume p
    == Py.sum (map (Dict.get_default 0 pvm) (axis_slice prices lower upper)).
Proof.
  intros Hne Hstart. cbv zeta.
  destruct (calculate_profile_area self start Hne Hstart)
    as (self' & p & a & i & Hcalc & -> & Hinv & Hvol & _
        & Hvah & Hval & Hvav & _).
  destruct Hinv as (Hlo & Hup & (pl & Hpl & Hple) & (pu & Hpu & Hpue)).
  destruct Hvol as (Hr & Hlen & Hsum).
  set (prices := sorted (Dict.keys (price_volume_map self))) in *.
  exists (with_current_profile self (Some p)), p,
    (lower_index a), (upper_index a).
  eexists _, _. split; [exact Hcalc|]. split; [reflexivity|].
  split; [apply axis_slice_split|].
  assert (Hlenp : (Z.to_nat (lower_index a) <= length prices)%nat)
    by (unfold Py.len in *; lia).
  repeat split.
  - exists pl. split; [|rewrite Hval; exact Hple].
    unfold axis_slice. rewrite (skipn_nth _ _ _ Hpl).
    replace (Z.to_nat (upper_index a - lower_index a + 1))
      with (S (Z.to_nat (upper_index a - lower_index a))) by lia.
    reflexivity.
  - exists pu. split; [exact Hpu|rewrite Hvah; exact Hpue].
  - unfold axis_slice. rewrite length_firstn, length_skipn.
    unfold Py.len in *. lia.
  - rewrite length_firstn. lia.
  - rewrite Hvav. exact Hsum.
Qed.

Lemma value_area_volume_is_run_sum_witness :
  exists self' p lower upper below above,
    _calculate_profile example_session = Ok self' /\
    current_profile self' = Some p /\
    sorted (Dict.keys (price_volume_map example_session))
    = below
      ++ axis_slice (sorted (Dict.keys (price_volume_map example_session)))
           lower upper
      ++ above /\
    (exists q,
        hd_error
          (axis_slice (sorted (Dict.keys (price_volume_map example_session)))
             lower upper) = Some q /\
        q == TPOProfile.val p) /\
    (exists q,
        nth_error (sorted (Dict.keys (price_volume_map example_session)))
          (Z.to_nat upper) = Some q /\
        q == TPOProfile.vah p) /\
    Z.of_nat
      (length
         (axis_slice (sorted (Dict.keys (price_volume_map example_session)))
            lower upper)) = (upper - lower + 1)%Z /\
    Z.of_nat (length below) = lower /\
    TPOProfile.value_area_volume p
    == Py.sum (map (Dict.get_default 0 (price_volume_map example_session))
                 (axis_slice
                    (sorted (Dict.keys (price_volume_map example_session)))
                    lower upper)).
Proof.
  apply (value_area_volume_is_run_sum example_session 1699920000000%Z).
  - discriminate.
  - reflexivity.
Defined.

(** X11. The profile that a recomputation stores has its POC inside the
    value area as a position between 0 and 1 ([poc_position]), a value
    area of non-negative width, and carries the analyzer's map as price
    levels with the sum of its volumes as total volume. *)
Theorem stored_profile_position (self : t) (start : Z) :
  price_volume_map self <> [] ->
  current_session_start self = Some start ->
  exists self' p,
    _calculate_profile self = Ok self' /\
    current_profile self' = Some p /\
    0 <= value_area_range p /\
    0 <= poc_position p /\ poc_position p <= 1 /\
    TPOProfile.price_levels p = price_volume_map self /\
    TPOProfile.total_volume p = Py.sum (Dict.values (price_volume_map self)).
Proof.
  intros Hne Hstart.
  destruct (calculate_profile_order self start Hne Hstart)
    as (self' & p & Hcalc & Hcur & Hlo & Hhi).
  destruct (calculate_profile_area self start Hne Hstart)
    as (self'' & p' & _ & _ & Hcalc' & -> & _ & _ & _ & _ & _ & _ & Htot
        & Hlev & _).
  rewrite Hcalc in Hcalc'. injection Hcalc' as ->.
  cbn in Hcur. injection Hcur as ->.
  exists (with_current_profile self (Some p)), p.
  split; [exact Hcalc|]. split; [reflexivity|].
  assert (Hrange : 0 <= value_area_range p) by (unfold value_area_range; lra).
  split; [exact Hrange|].
  unfold poc_position.
  destruct (Qeq_bool (value_area_range p) 0) eqn:E.
  - repeat split; try assumption; cbn; lra.
  - apply Qeq_bool_false_iff in E.
    assert (Hpos : 0 < value_area_range p) by lra.
    repeat split; try assumption.
    + apply Qle_shift_div_l; [exact Hpos|]. lra.
    + apply Qle_shift_div_r; [exact Hpos|]. unfold value_area_range. lra.
Qed.

Lemma stored_profile_position_witness :
  exists self' p,
    _calculate_profile example_session = Ok self' /\
    current_profile self' = Some p /\
    0 <= value_area_range p /\
    0 <= poc_position p /\ poc_position p <= 1 /\
    TPOProfile.price_levels p = price_volume_map example_session /\
    TPOProfile.total_volume p
    = Py.sum (Dict.values (price_volume_map example_session)).
Proof.
  apply (stored_profile_position example_session 1699920000000%Z).
  - discriminate.
  - reflexivity.
Defined.

End StoredProfile.

(** ** tpo_analyzer.py: the value area and its target *)

Section ValueAreaTarget.
Import Models TPOAnalyzer.

(** The prices of a slice of the axis are those at the indices from
    [lower] to [upper]. *)
Lemma axis_slice_nth (prices : list Q) (lower upper : Z) (k : Q) :
  (0 <= lower <= upper)%Z ->
  In k (axis_slice prices lower upper) <->
  exists n, (Z.to_nat lower <= n <= Z.to_nat upper)%nat /\
            nth_error prices n = Some k.
Proof.
  intro Hr. unfold axis_slice. split.
  - intro H. apply In_nth_error in H. destruct H as (i & Hi).
    rewrite nth_error_firstn in Hi.
    destruct (Nat.ltb_spec i (Z.to_nat (upper - lower + 1))) as [Hlt|];
      [|discriminate].
    rewrite nth_error_skipn in Hi.
    exists (Z.to_nat lower + i)%nat. split; [lia|exact Hi].
  - intros (n & Hn & Hk).
    apply (nth_error_In _ (n - Z.to_nat lower)).
    rewrite nth_error_firstn.
    destruct (Nat.ltb_spec (n - Z.to_nat lower) (Z.to_nat (upper - lower + 1)))
      as [_|Hge]; [|lia].
    rewrite nth_error_skipn.
    replace (Z.to_nat lower + (n - Z.to_nat lower))%nat with n by lia.
    exact Hk.
Qed.

(** C1. On a non-empty distribution without negative volumes the
    recomputation stores a profile whose total volume is the sum of the
    volumes of the distribution and whose value-area volume is the volume
    of the prices from VAL to VAH: VAL and VAH are the prices at two
    indices [lower <= upper] of the sorted price axis, the value-area
    volume is the sum of the volumes of the prices between the two
    indices, each of which lies between VAL and VAH, and every price of
    the distribution strictly between VAL and VAH is one of them.  That
    value-area volume is at least [value_area_percent / 100] of the total
    volume, or the value area runs from the lowest to the highest price of
    the distribution. *)
Theorem value_area_reaches_target (self : t) (start : Z) :
  price_volume_map self <> [] ->
  current_session_start self = Some start ->
  nonneg_volumes (price_volume_map self) ->
  let pvm := price_volume_map self in
  let prices := sorted (Dict.keys pvm) in
  exists self' p lower upper,
    _calculate_profile self = Ok self' /\
    current_profile self' = Some p /\
    TPOProfile.total_volume p = Py.sum (Dict.values pvm) /\
    (0 <= lower <= upper)%Z /\ (upper < Py.len prices)%Z /\
    (exists q, nth_error prices (Z.to_nat lower) = Some q /\
               q == TPOProfile.val p) /\
    (exists q, nth_error prices (Z.to_nat upper) = Some q /\
               q == TPOProfile.vah p) /\
    TPOProfile.value_area_volume p
    == Py.sum (map (Dict.get_default 0 pvm) (axis_slice prices lower upper)) /\
    (forall k, In k (axis_slice prices lower upper) ->
               TPOProfile.val p <= k /\ k <= TPOProfile.vah p) /\
    (forall k, In k (Dict.keys pvm) ->
               TPOProfile.val p < k -> k < TPOProfile.vah p ->
               In k (axis_slice prices lower upper)) /\
    (value_area_percent self / 100 * TPOProfile.total_volume p
       <= TPOProfile.value_area_volume p
     \/ spans_distribution pvm p).
Proof.
  intros Hne Hstart Hnonneg. cbv zeta.
  destruct (calculate_profile_area self start Hne Hstart)
    as (self' & p & a & i & Hcalc & -> & Hinv & Hvol & _
        & Hvah & Hval & Hvav & Htot & _ & _ & Hstop).
  destruct Hinv as (Hlo & Hup & (pl & Hpl & Hple) & (pu & Hpu & Hpue)).
  destruct Hvol as (Hr & Hlen & Hsum).
  pose proof (sorted_sorted (Dict.keys (price_volume_map self))) as Hs.
  set (prices := sorted (Dict.keys (price_volume_map self))) in *.
  exists (with_current_profile self (Some p)), p,
    (lower_index a), (upper_index a).
  split; [exact Hcalc|]. split; [reflexivity|]. split; [exact Htot|].
  split; [exact Hr|]. split; [exact Hlen|].
  split; [exists pl; split; [exact Hpl|rewrite Hval; exact Hple]|].
  split; [exists pu; split; [exact Hpu|rewrite Hvah; exact Hpue]|].
  split; [rewrite Hvav; exact Hsum|].
  split; [|split].
  - intros k Hk. apply (axis_slice_nth _ _ _ _ Hr) in Hk.
    destruct Hk as (n & Hn & Hk). rewrite Hval, Hvah, <- Hple, <- Hpue.
    split.
    + eapply (sorted_nth_le _ Hs); [|exact Hpl|exact Hk]. lia.
    + eapply (sorted_nth_le _ Hs); [|exact Hk|exact Hpu]. lia.
  - intros k Hk Hlow Hhigh. apply sorted_In in Hk. fold prices in Hk.
    apply In_nth_error in Hk. destruct Hk as (n & Hk).
    apply (axis_slice_nth _ _ _ _ Hr). exists n. split; [|exact Hk].
    rewrite Hval, <- Hple in Hlow. rewrite Hvah, <- Hpue in Hhigh.
    split.
    + destruct (Nat.le_gt_cases (Z.to_nat (lower_index a)) n) as [H|H];
        [exact H|exfalso].
      assert (Hle : k <= pl)
        by (eapply (sorted_nth_le _ Hs); [|exact Hk|exact Hpl]; lia).
      lra.
    + destruct (Nat.le_gt_cases n (Z.to_nat (upper_index a))) as [H|H];
        [exact H|exfalso].
      assert (Hle : pu <= k)
        by (eapply (sorted_nth_le _ Hs); [|exact Hpu|exact Hk]; lia).
      lra.
  - destruct Hstop as [Hreach | [[Hl0 Hu] | [_ (q & _ & Hneg)]]].
    + left. rewrite Hvav, Htot, Qmult_comm. exact Hreach.
    + right.
      rewrite Hl0 in Hpl. change (Z.to_nat 0) with O in Hpl.
      unfold spans_distribution. rewrite Hval, Hvah.
      split; [|split].
      * exists pl. split; [eapply keys_of_axis; eassumption|].
        symmetry; assumption.
      * exists pu. split; [eapply keys_of_axis; eassumption|].
        symmetry; assumption.
      * intros k Hk. apply sorted_In in Hk. fold prices in Hk.
        apply In_nth_error in Hk. destruct Hk as (n & Hn).
        assert (Hlenk : (n < length prices)%nat).
        { apply nth_error_Some. congruence. }
        split.
        -- rewrite <- Hple.
           eapply (sorted_nth_le _ Hs); [|exact Hpl|exact Hn]. lia.
        -- rewrite <- Hpue.
           eapply (sorted_nth_le _ Hs); [|exact Hn|exact Hpu].
           unfold Py.len in Hu. lia.
    + exfalso. apply (Qlt_not_le _ _ Hneg). apply get_default_nonneg.
      assumption.
Qed.

Lemma value_area_reaches_target_witness :
  let pvm := price_volume_map example_session in
  let prices := sorted (Dict.keys pvm) in
  price_volume_map example_session <> [] /\
  current_session_start example_session = Some 1699920000000%Z /\
  nonneg_volumes (price_volume_map example_session) /\
  exists self' p lower upper,
    _calculate_profile example_session = Ok self' /\
    current_profile self' = Some p /\
    TPOProfile.total_volume p = Py.sum (Dict.values pvm) /\
    (0 <= lower <= upper)%Z /\ (upper < Py.len prices)%Z /\
    (exists q, nth_error prices (Z.to_nat lower) = Some q /\
               q == TPOProfile.val p) /\
    (exists q, nth_error prices (Z.to_nat upper) = Some q /\
               q == TPOProfile.vah p) /\
    TPOProfile.value_area_volume p
    == Py.sum (map (Dict.get_default 0 pvm) (axis_slice prices lower upper)) /\
    (forall k, In k (axis_slice prices lower upper) ->
               TPOProfile.val p <= k /\ k <= TPOProfile.vah p) /\
    (forall k, In k (Dict.keys pvm) ->
               TPOProfile.val p < k -> k < TPOProfile.vah p ->
               In k (axis_slice prices lower upper)) /\
    (value_area_percent example_session / 100 * TPOProfile.total_volume p
       <= TPOProfile.value_area_volume p
     \/ spans_distribution pvm p).
Proof.
  cbv zeta.
  assert (H1 : price_volume_map example_session <> []) by discriminate.
  assert (H2 : current_session_start example_session = Some 1699920000000%Z)
    by reflexivity.
  assert (H3 : nonneg_volumes (price_volume_map example_session))
    by (repeat constructor; cbn; lra).
  exact (conj H1 (conj H2 (conj H3
           (value_area_reaches_target example_session _ H1 H2 H3)))).
Defined.

End ValueAreaTarget.

(** ** vwap_calculator.py: range of the VWAP, bands, counters, history *)

Section VWAPRange.
Import Models VWAPCalculator.

Variable pow_half : Q -> Q.

(** With typical prices between [lo] and [hi] and no negative volume the
    sum of price times volume lies between [lo] and [hi] times the sum
    of volume. *)
Lemma sums_between (lo hi : Q) (cs : list Candle.t) :
  Forall (fun c => lo <= typical_price c /\ typical_price c <= hi /\
                   0 <= Candle.volume c) cs ->
  0 <= sum_volume cs /\
  lo * sum_volume cs <= sum_pv cs /\
  sum_pv cs <= hi * sum_volume cs.
Proof.
  induction cs as [|c cs IH] using rev_ind; intro H.
  - unfold sum_volume, sum_pv, Py.sum; cbn. lra.
  - apply Forall_app in H. destruct H as (Hcs & Hc).
    inversion Hc as [|? ? (Hlo & Hhi & Hv) _]; subst.
    destruct (IH Hcs) as (H1 & H2 & H3).
    rewrite sum_volume_snoc, sum_pv_snoc.
    assert (Ha : lo * Candle.volume c <= typical_price c * Candle.volume c)
      by (apply Qmult_le_compat_r; assumption).
    assert (Hb : typical_price c * Candle.volume c <= hi * Candle.volume c)
      by (apply Qmult_le_compat_r; assumption).
    repeat split; lra.
Qed.

Lemma session_vwap_between (lo hi : Q) (earlier : list Candle.t)
    (c : Candle.t) :
  Forall (fun c => lo <= typical_price c /\ typical_price c <= hi /\
                   0 <= Candle.volume c) (earlier ++ [c]) ->
  lo <= session_vwap earlier c /\ session_vwap earlier c <= hi.
Proof.
  intro H. unfold session_vwap.
  destruct (sums_between lo hi _ H) as (Hv & Hlo & Hhi).
  destruct (Qeq_bool (sum_volume (earlier ++ [c])) 0) eqn:E.
  - apply Forall_app in H. destruct H as (_ & Hc).
    inversion Hc as [|? ? (H1 & H2 & _) _]; subst. auto.
  - apply Qeq_bool_false_iff in E.
    assert (Hpos : 0 < sum_volume (earlier ++ [c])) by lra.
    split.
    + apply Qle_shift_div_l; assumption.
    + apply Qle_shift_div_r; assumption.
Qed.

Lemma bars_so_far_between (lo hi : Q) (cs : list Candle.t) :
  forall earlier,
    Forall (fun c => lo <= typical_price c /\ typical_price c <= hi /\
                     0 <= Candle.volume c) (earlier ++ cs) ->
    Forall (fun b => lo <= session_vwap (fst b) (snd b) /\
                     session_vwap (fst b) (snd b) <= hi)
      (bars_so_far earlier cs).
Proof.
  induction cs as [|c cs IH]; intros earlier H; [constructor|].
  cbn [bars_so_far]. constructor.
  - cbn [fst snd]. apply session_vwap_between.
    replace (earlier ++ c :: cs) with ((earlier ++ [c]) ++ cs) in H
      by (rewrite <- app_assoc; reflexivity).
    apply Forall_app in H. apply H.
  - apply IH. rewrite <- app_assoc. exact H.
Qed.

Lemma outputs_between (lo hi : Q) (outputs : list VWAPData.t) :
  forall bars : list (list Candle.t * Candle.t),
    Forall2 (fun d b => VWAPData.vwap d == session_vwap (fst b) (snd b))
      outputs bars ->
    Forall (fun b => lo <= session_vwap (fst b) (snd b) /\
                     session_vwap (fst b) (snd b) <= hi) bars ->
    length outputs = length bars /\
    Forall (fun d => lo <= VWAPData.vwap d /\ VWAPData.vwap d <= hi) outputs.
Proof.
  induction 1 as [|d b outs bars Hd _ IH]; intro Hb; [split; constructor|].
  inversion Hb as [|? ? (H1 & H2) Hrest]; subst.
  destruct (IH Hrest) as (Hlen & Hall). split; [cbn; congruence|].
  constructor; [|exact Hall]. rewrite Hd. auto.
Qed.

Lemma bars_so_far_length (cs : list Candle.t) :
  forall earlier, length (bars_so_far earlier cs) = length cs.
Proof.
  induction cs as [|c cs IH]; intro earlier; [reflexivity|].
  cbn. rewrite IH. reflexivity.
Qed.

(** X12. Over the bars of a session that is new to the calculator, with
    positive typical prices and no negative volume, every [update]
    returns, and the VWAP it returns lies between the lowest and the
    highest typical price of the session: between any two bounds [lo] and
    [hi] that hold all the typical prices. *)
Theorem vwap_within_typical_range (self : t) (s : Z)
    (candles : list Candle.t) (lo hi : Q) :
  Forall (in_session (session_reset_time self) s) candles ->
  current_session_start self <> Some s ->
  0 < lo ->
  Forall (fun c => lo <= typical_price c /\ typical_price c <= hi /\
                   0 <= Candle.volume c) candles ->
  exists self' outputs,
    feed pow_half self candles = Ok (self', outputs) /\
    length outputs = length candles /\
    Forall (fun d => lo <= VWAPData.vwap d /\ VWAPData.vwap d <= hi) outputs.
Proof.
  intros Hin Hne Hlo Hall.
  destruct candles as [|c rest].
  - exists self, []. cbn. repeat split; constructor.
  - inversion Hin as [|? ? Hc Hrest]; subst.
    assert (Hinv : session_inv s [] (_reset_session self s)).
    { unfold session_inv; cbn. repeat split; try reflexivity. constructor. }
    assert (Hmarket : Forall market_bar (c :: rest)).
    { eapply Forall_impl; [|exact Hall]. cbn. intros a (H1 & _ & H3).
      split; [lra|exact H3]. }
    pose proof (market_bars_nonzero_vwap (c :: rest) [] (Forall_nil _) Hmarket)
      as Hnz.
    destruct (feed_in_session pow_half (c :: rest) (_reset_session self s) s []
                Hinv) as (self' & outs & Hfeed & Hout & _);
      [assumption|assumption|].
    exists self', outs. split.
    + cbn [feed] in *. rewrite (update_new_session pow_half self s c Hc Hne).
      exact Hfeed.
    + destruct (outputs_between lo hi outs _ Hout) as (Hlen & Hbetween).
      * apply bars_so_far_between. exact Hall.
      * rewrite bars_so_far_length in Hlen. auto.
Qed.

End VWAPRange.

Section VWAPRangeWitness.
Import Models VWAPCalculator.

Lemma vwap_within_typical_range_witness :
  exists self' outputs,
    feed (fun x => x) example_calculator example_bars = Ok (self', outputs) /\
    length outputs = length example_bars /\
    Forall (fun d => 100 <= VWAPData.vwap d /\ VWAPData.vwap d <= 102) outputs.
Proof.
  apply (vwap_within_typical_range (fun x => x) example_calculator
           1699920000000%Z example_bars 100 102).
  - repeat constructor.
  - discriminate.
  - reflexivity.
  - repeat constructor; vm_compute; discriminate.
Defined.

End VWAPRangeWitness.

Section VWAPShape.
Import Models VWAPCalculator.

Variable pow_half : Q -> Q.

(** The tracking step only touches the two counters, sets at least one of
    them to zero and lets neither fall below zero. *)
Lemma tracking_shape (self self' : t) (price : Q) :
  _update_pullback_tracking self price = Ok self' ->
  current_vwap self <> None ->
  exists p r,
    self' = with_counters self p r /\
    (p = 0 \/ r = 0)%Z /\
    ((0 <= consecutive_pullback_bars self)%Z ->
     (0 <= consecutive_rejection_bars self)%Z -> (0 <= p)%Z /\ (0 <= r)%Z).
Proof.
  unfold _update_pullback_tracking. intros H Hcur.
  destruct (current_vwap self) as [data|]; [|contradiction].
  destruct (is_pullback self price None) as [[|]| |]; cbn [rbind] in H;
    try discriminate.
  - injection H as <-. eexists _, _. split; [reflexivity|]. split; lia.
  - destruct (is_rejection self price) as [[|]| |]; cbn [rbind] in H;
      try discriminate; injection H as <-;
      eexists _, _; (split; [reflexivity|]); split; lia.
Qed.

Lemma max_zero_nonneg (x : Q) : 0 <= Py.max 0 x.
Proof.
  unfold Py.max. destruct (Py.Qlt_bool 0 x) eqn:E.
  - apply Qlt_bool_iff in E. lra.
  - lra.
Qed.

(** What one returning [update] leaves: the session state before the bar
    is the calculator itself inside its session and a reset one otherwise;
    the snapshot is stored, the history gets the new VWAP, the slope is
    the slope of the history before the bar. *)
Lemma update_shape (self self' : t) (c : Candle.t) (data : VWAPData.t) :
  update pow_half self c = Ok (self', data) ->
  exists s self1 sd,
    in_session (session_reset_time self) s c /\
    (current_session_start self = Some s -> self1 = self) /\
    (current_session_start self <> Some s -> self1 = _reset_session self s) /\
    session_reset_time self' = session_reset_time self /\
    slope_lookback self' = slope_lookback self /\
    pullback_confirmation_bars self' = pullback_confirmation_bars self /\
    current_session_start self' = Some s /\
    current_vwap self' = Some data /\
    vwap_history self'
    = Py.deque_append (slope_lookback self) (vwap_history self1)
        (VWAPData.vwap data) /\
    VWAPData.slope data = _calculate_slope self1 /\
    (consecutive_pullback_bars self' = 0 \/
     consecutive_rejection_bars self' = 0)%Z /\
    (exists variance, sd = pow_half (Py.max 0 variance)) /\
    VWAPData.upper_1std data = VWAPData.vwap data + sd /\
    VWAPData.lower_1std data = VWAPData.vwap data - sd /\
    VWAPData.upper_2std data = VWAPData.vwap data + 2 * sd /\
    VWAPData.lower_2std data = VWAPData.vwap data - 2 * sd.
Proof.
  unfold update. intro H.
  destruct (Utils.get_session_start _ _) as [s| |] eqn:Es; cbn [rbind] in H;
    try discriminate.
  set (self1 := match current_session_start self with
                | Some current =>
                    if negb (s =? current)%Z then _reset_session self s
                    else self
                | None => _reset_session self s
                end) in *.
  assert (Hself1 :
    (current_session_start self = Some s -> self1 = self) /\
    (current_session_start self <> Some s -> self1 = _reset_session self s) /\
    session_reset_time self1 = session_reset_time self /\
    slope_lookback self1 = slope_lookback self /\
    pullback_confirmation_bars self1 = pullback_confirmation_bars self /\
    current_session_start self1 = Some s).
  { unfold self1. destruct (current_session_start self) as [current|] eqn:Ec.
    - destruct (s =? current)%Z eqn:E; cbn [negb].
      + apply Z.eqb_eq in E. subst current.
        repeat split; try reflexivity; try assumption. congruence.
      + apply Z.eqb_neq in E. repeat split; try reflexivity. congruence.
    - repeat split; try reflexivity. discriminate. }
  clearbody self1.
  destruct Hself1 as (Hsame & Hnew & H1 & H2 & H3 & H4).
  match type of H with
  | context [_update_pullback_tracking ?st ?price] =>
      destruct (_update_pullback_tracking st price) as [self3| |] eqn:Et
  end; cbn [rbind] in H; try discriminate.
  injection H as <- <-.
  apply tracking_shape in Et; [|discriminate].
  destruct Et as (p & r & -> & Hpr & _).
  exists s, self1. eexists.
  split; [exact Es|]. split; [exact Hsame|]. split; [exact Hnew|].
  cbn [session_reset_time slope_lookback pullback_confirmation_bars
       current_session_start current_vwap vwap_history with_counters with_bar
       consecutive_pullback_bars consecutive_rejection_bars
       VWAPData.vwap VWAPData.slope VWAPData.upper_1std VWAPData.lower_1std
       VWAPData.upper_2std VWAPData.lower_2std].
  rewrite H2.
  repeat (split; [first [reflexivity | assumption]|]).
  split; [eexists; reflexivity|].
  repeat split; reflexivity.
Qed.

(** X13. The bands of every snapshot that [update] returns are ordered
    around the VWAP and symmetric: lower 2 <= lower 1 <= VWAP <= upper 1
    <= upper 2, the two inner bands at one and the two outer bands at two
    band widths from the VWAP.  (The square root is only asked to give
    no negative result.) *)
Theorem vwap_bands_ordered (self self' : t) (c : Candle.t)
    (data : VWAPData.t) :
  (forall x, 0 <= x -> 0 <= pow_half x) ->
  update pow_half self c = Ok (self', data) ->
  current_vwap self' = Some data /\
  VWAPData.lower_2std data <= VWAPData.lower_1std data /\
  VWAPData.lower_1std data <= VWAPData.vwap data /\
  VWAPData.vwap data <= VWAPData.upper_1std data /\
  VWAPData.upper_1std data <= VWAPData.upper_2std data /\
  VWAPData.vwap data - VWAPData.lower_1std data
  == VWAPDataMethods.std_dev data /\
  VWAPData.upper_2std data - VWAPData.vwap data
  == 2 * VWAPDataMethods.std_dev data /\
  VWAPData.vwap data - VWAPData.lower_2std data
  == 2 * VWAPDataMethods.std_dev data.
Proof.
  intros Hroot H.
  destruct (update_shape _ _ _ _ H)
    as (s & self1 & sd & _ & _ & _ & _ & _ & _ & _ & Hcur & _ & _ & _
        & (variance & Hsd) & Hu1 & Hl1 & Hu2 & Hl2).
  assert (Hpos : 0 <= sd).
  { rewrite Hsd. apply Hroot. apply max_zero_nonneg. }
  unfold VWAPDataMethods.std_dev. rewrite Hu1, Hl1, Hu2, Hl2.
  split; [exact Hcur|]. repeat split; try lra; ring.
Qed.

(** X14. After every [update] that returns, at least one of the two
    counters of consecutive pullback and rejection bars is zero, so with
    a confirmation count of at least one bar a pullback and a rejection
    are never confirmed together. *)
Theorem pullback_rejection_exclusive (self self' : t) (c : Candle.t)
    (data : VWAPData.t) :
  (0 < pullback_confirmation_bars self)%Z ->
  update pow_half self c = Ok (self', data) ->
  (consecutive_pullback_bars self' = 0 \/
   consecutive_rejection_bars self' = 0)%Z /\
  is_pullback_confirmed self' && is_rejection_confirmed self' = false.
Proof.
  intros Hbars H.
  destruct (update_shape _ _ _ _ H)
    as (s & self1 & sd & _ & _ & _ & _ & _ & Hconf & _ & _ & _ & _ & Hpr & _).
  split; [exact Hpr|].
  unfold is_pullback_confirmed, is_rejection_confirmed. rewrite Hconf.
  apply andb_false_iff.
  destruct Hpr as [-> | ->]; [left|right]; apply Z.leb_gt; exact Hbars.
Qed.

Lemma deque_window {A : Type} (n : nat) (l : list A) (x : A) :
  Py.deque_append n (last_values n l) x = last_values n (l ++ [x]).
Proof.
  unfold Py.deque_append, last_values.
  rewrite !length_app, length_skipn. cbn [length].
  destruct (Nat.le_gt_cases (length l) n) as [Hle|Hgt].
  - replace (length l - n)%nat with 0%nat by lia. cbn [skipn].
    rewrite Nat.sub_0_r. reflexivity.
  - rewrite !skipn_app, length_skipn, skipn_skipn.
    f_equal; [f_equal; lia|f_equal; lia].
Qed.

Lemma last_values_length {A : Type} (n : nat) (l : list A) :
  (length (last_values n l) <= n)%nat.
Proof. unfold last_values. rewrite length_skipn. lia. Qed.

(** Inside a session the history is the window of the last VWAPs. *)
Lemma feed_history (candles : list Candle.t) :
  forall (self self' : t) (s : Z) (earlier : list Q)
         (outputs : list VWAPData.t),
    Forall (in_session (session_reset_time self) s) candles ->
    current_session_start self = Some s ->
    vwap_history self = last_values (slope_lookback self) earlier ->
    feed pow_half self candles = Ok (self', outputs) ->
    vwap_history self'
    = last_values (slope_lookback self)
        (earlier ++ map VWAPData.vwap outputs).
Proof.
  induction candles as [|c rest IH];
    intros self self' s earlier outputs Hin Hs Hh Hfeed.
  - injection Hfeed as <- <-. cbn [map]. rewrite app_nil_r. exact Hh.
  - cbn [feed] in Hfeed.
    destruct (update pow_half self c) as [[self1 data]| |] eqn:Eu;
      cbn [rbind fst snd] in Hfeed; try discriminate.
    destruct (feed pow_half self1 rest) as [[self2 outs]| |] eqn:Ef;
      cbn [rbind fst snd] in Hfeed; try discriminate.
    injection Hfeed as <- <-.
    inversion Hin as [|? ? Hc Hrest]; subst.
    destruct (update_shape _ _ _ _ Eu)
      as (s' & self0 & sd & Hs' & Hsame & _ & Hrt & Hlb & _ & Hs1 & _ & Hhist
          & _).
    unfold in_session in Hc, Hs'. rewrite Hc in Hs'. injection Hs' as <-.
    rewrite (Hsame Hs) in Hhist. rewrite Hh, deque_window in Hhist.
    rewrite <- Hlb.
    cbn [map]. replace (earlier ++ VWAPData.vwap data :: map VWAPData.vwap outs)
      with ((earlier ++ [VWAPData.vwap data]) ++ map VWAPData.vwap outs)
      by (rewrite <- app_assoc; reflexivity).
    apply (IH self1 self2 s); try assumption.
    + rewrite Hrt. exact Hrest.
    + rewrite Hlb. exact Hhist.
Qed.

(** X15. The history from which the slope is computed holds the VWAPs of
    the current session only, and of these the last [slope_lookback]:
    over the bars of a session that is new to the calculator (positive
    typical prices, no negative volume) every [update] returns and the
    history afterwards is that window of the returned VWAPs. *)
Theorem history_is_session_window (self : t) (s : Z)
    (candles : list Candle.t) :
  Forall (in_session (session_reset_time self) s) candles ->
  current_session_start self <> Some s ->
  Forall market_bar candles ->
  candles <> [] ->
  exists self' outputs,
    feed pow_half self candles = Ok (self', outputs) /\
    vwap_history self'
    = last_values (slope_lookback self) (map VWAPData.vwap outputs) /\
    (length (vwap_history self') <= slope_lookback self)%nat.
Proof.
  intros Hin Hne Hmarket Hnil.
  destruct candles as [|c rest]; [contradiction|].
  inversion Hin as [|? ? Hc Hrest]; subst.
  assert (Hinv : session_inv s [] (_reset_session self s)).
  { unfold session_inv; cbn. repeat split; try reflexivity. constructor. }
  pose proof (market_bars_nonzero_vwap (c :: rest) [] (Forall_nil _) Hmarket)
    as Hnz.
  destruct (feed_in_session pow_half (c :: rest) (_reset_session self s) s []
              Hinv) as (self' & outs & Hfeed & _ & _);
    [assumption|assumption|].
  exists self', outs.
  assert (Hh : vwap_history self'
               = last_values (slope_lookback self) (map VWAPData.vwap outs)).
  { apply (feed_history (c :: rest) (_reset_session self s) self' s []);
      try assumption; reflexivity. }
  split.
  - cbn [feed] in *. rewrite (update_new_session pow_half self s c Hc Hne).
    exact Hfeed.
  - split; [exact Hh|]. rewrite Hh. apply last_values_length.
Qed.

(** X30. On a snapshot that [update] returns with bands of some width,
    [get_band_position] reads the bands as their names say: 0 at the
    VWAP, 1 and -1 at the upper and lower one-sigma band, 2 and -2 at the
    two-sigma bands. *)
Theorem band_positions (self self' : t) (c : Candle.t) (data : VWAPData.t) :
  update pow_half self c = Ok (self', data) ->
  ~ VWAPDataMethods.std_dev data == 0 ->
  VWAPDataMethods.get_band_position data (VWAPData.vwap data) == 0 /\
  VWAPDataMethods.get_band_position data (VWAPData.upper_1std data) == 1 /\
  VWAPDataMethods.get_band_position data (VWAPData.lower_1std data) == - (1) /\
  VWAPDataMethods.get_band_position data (VWAPData.upper_2std data) == 2 /\
  VWAPDataMethods.get_band_position data (VWAPData.lower_2std data) == - (2).
Proof.
  intros H Hsd.
  destruct (update_shape _ _ _ _ H)
    as (s & self1 & sd & _ & _ & _ & _ & _ & _ & _ & _ & _ & _ & _
        & _ & Hu1 & Hl1 & Hu2 & Hl2).
  assert (Hpos : forall price,
            VWAPDataMethods.get_band_position data price
            == (price - VWAPData.vwap data) / VWAPDataMethods.std_dev data).
  { intro price. unfold VWAPDataMethods.get_band_position.
    apply Qeq_bool_false_iff in Hsd. rewrite Hsd.
    destruct (Qle_bool (VWAPData.vwap data) price); reflexivity. }
  rewrite !Hpos. unfold VWAPDataMethods.std_dev in *.
  rewrite Hl1, Hu2, Hl2. rewrite Hu1 in *.
  repeat split; field; exact Hsd.
Qed.

End VWAPShape.

Section VWAPShapeWitness.
Import Models VWAPCalculator.

Lemma rational_root_nonneg (x : Q) : 0 <= x -> 0 <= rational_root x.
Proof.
  intros _. unfold rational_root.
  apply Qmult_le_0_compat.
  - change 0 with (inject_Z 0). rewrite <- Zle_Qle. apply Z.sqrt_nonneg.
  - apply Qinv_le_0_compat.
    change 0 with (inject_Z 0). rewrite <- Zle_Qle. apply Z.sqrt_nonneg.
Qed.

Lemma vwap_bands_ordered_witness :
  let warm :=
    match feed rational_root example_calculator (firstn 1 spread_bars) with
    | Ok (self, _) => self
    | _ => example_calculator
    end in
  let r := update rational_root warm (last spread_bars (flat_candle 0 0 0)) in
  exists self' data,
    r = Ok (self', data) /\
    VWAPData.vwap data == 100 /\
    VWAPDataMethods.std_dev data == 1 /\
    current_vwap self' = Some data /\
    VWAPData.lower_2std data <= VWAPData.lower_1std data /\
    VWAPData.lower_1std data <= VWAPData.vwap data /\
    VWAPData.vwap data <= VWAPData.upper_1std data /\
    VWAPData.upper_1std data <= VWAPData.upper_2std data /\
    VWAPData.vwap data - VWAPData.lower_1std data
    == VWAPDataMethods.std_dev data /\
    VWAPData.upper_2std data - VWAPData.vwap data
    == 2 * VWAPDataMethods.std_dev data /\
    VWAPData.vwap data - VWAPData.lower_2std data
    == 2 * VWAPDataMethods.std_dev data.
Proof.
  intros warm r. eexists _, _.
  assert (H : r = Ok (_, _)) by (vm_compute; reflexivity).
  split; [exact H|].
  split; [vm_compute; reflexivity|].
  split; [vm_compute; reflexivity|].
  exact (vwap_bands_ordered rational_root warm _
           (last spread_bars (flat_candle 0 0 0)) _ rational_root_nonneg H).
Defined.

Lemma pullback_rejection_exclusive_witness :
  let warm :=
    match feed rational_root example_calculator (firstn 1 resting_bars) with
    | Ok (self, _) => self
    | _ => example_calculator
    end in
  let r := update rational_root warm (last resting_bars (flat_candle 0 0 0)) in
  exists self' data,
    r = Ok (self', data) /\
    consecutive_pullback_bars self' = 2%Z /\
    is_pullback_confirmed self' = true /\
    (consecutive_pullback_bars self' = 0 \/
     consecutive_rejection_bars self' = 0)%Z /\
    is_pullback_confirmed self' && is_rejection_confirmed self' = false.
Proof.
  intros warm r. eexists _, _.
  assert (H : r = Ok (_, _)) by (vm_compute; reflexivity).
  split; [exact H|].
  split; [reflexivity|]. split; [reflexivity|].
  eapply (pullback_rejection_exclusive rational_root warm);
    [reflexivity|exact H].
Defined.

Lemma history_is_session_window_witness :
  exists self' outputs,
    feed (fun x => x) example_calculator example_bars = Ok (self', outputs) /\
    vwap_history self'
    = last_values (slope_lookback example_calculator)
        (map VWAPData.vwap outputs) /\
    (length (vwap_history self') <= slope_lookback example_calculator)%nat.
Proof.
  apply (history_is_session_window (fun x => x) example_calculator
           1699920000000%Z example_bars).
  - repeat constructor.
  - discriminate.
  - repeat constructor; vm_compute; discriminate.
  - discriminate.
Defined.

Lemma band_positions_witness :
  let warm :=
    match feed (fun x => x) example_calculator (firstn 2 example_bars) with
    | Ok (self, _) => self
    | _ => example_calculator
    end in
  let r := update (fun x => x) warm (last example_bars (flat_candle 0 0 0)) in
  exists self' data,
    r = Ok (self', data) /\
    VWAPDataMethods.get_band_position data (VWAPData.vwap data) == 0 /\
    VWAPDataMethods.get_band_position data (VWAPData.upper_1std data) == 1 /\
    VWAPDataMethods.get_band_position data (VWAPData.lower_1std data)
    == - (1) /\
    VWAPDataMethods.get_band_position data (VWAPData.upper_2std data) == 2 /\
    VWAPDataMethods.get_band_position data (VWAPData.lower_2std data)
    == - (2).
Proof.
  intros warm r. eexists _, _.
  assert (H : r = Ok (_, _)) by (vm_compute; reflexivity).
  split; [exact H|].
  apply (band_positions (fun x => x) warm _
           (last example_bars (flat_candle 0 0 0)) _ H).
  vm_compute. discriminate.
Defined.

End VWAPShapeWitness.

(** ** orderflow_analyzer.py: bar volumes, imbalance, counters, windows *)

Section OrderFlowBars.
Import Models OrderFlowAnalyzer.

Lemma trades_fold (trades : list Trade.t) :
  forall acc : Q * Q,
    let volumes :=
      fold_left
        (fun bs trade =>
           if Trade.is_buy trade
           then (fst bs + Trade.quantity trade, snd bs)
           else (fst bs, snd bs + Trade.quantity trade))
        trades acc in
    fst volumes
    == fst acc + Py.sum (map Trade.quantity (filter Trade.is_buy trades)) /\
    snd volumes
    == snd acc + Py.sum (map Trade.quantity (filter Trade.is_sell trades)).
Proof.
  induction trades as [|trade rest IH]; intro acc; cbv zeta.
  - cbn. change (Py.sum []) with 0. split; ring.
  - cbn [fold_left filter]. unfold Trade.is_buy, Trade.is_sell in *.
    destruct (Trade.is_buyer_maker trade); cbn [negb].
    + destruct (IH (fst acc, snd acc + Trade.quantity trade)) as (Hb & Hs).
      cbv zeta in Hb, Hs. rewrite Hb, Hs. cbn [fst snd map].
      rewrite sum_cons. split; ring.
    + destruct (IH (fst acc + Trade.quantity trade, snd acc)) as (Hb & Hs).
      cbv zeta in Hb, Hs. rewrite Hb, Hs. cbn [fst snd map].
      rewrite sum_cons. split; ring.
Qed.

Lemma sum_by_side (trades : list Trade.t) :
  Py.sum (map Trade.quantity (filter Trade.is_buy trades))
  + Py.sum (map Trade.quantity (filter Trade.is_sell trades))
  == Py.sum (map Trade.quantity trades).
Proof.
  induction trades as [|trade rest IH]; [reflexivity|].
  cbn [filter map]. unfold Trade.is_buy at 1, Trade.is_sell at 1.
  destruct (Trade.is_buyer_maker trade); cbn [negb map];
    rewrite !sum_cons, <- IH; ring.
Qed.

(** X16. [update_from_trades] sets the buy volume to the quantity of the
    buys of its argument, the sell volume to that of the sells and the
    delta to their difference, so that the two volumes add up to the
    quantity of all the trades.  Each call starts from zero: trades
    handed over by an earlier call for the same bar no longer count. *)
Theorem trades_split_by_side (self : t) (trades : list Trade.t) :
  let self' := update_from_trades self trades in
  buy_volume_current self'
  == Py.sum (map Trade.quantity (filter Trade.is_buy trades)) /\
  sell_volume_current self'
  == Py.sum (map Trade.quantity (filter Trade.is_sell trades)) /\
  current_delta self' == buy_volume_current self' - sell_volume_current self' /\
  buy_volume_current self' + sell_volume_current self'
  == Py.sum (map Trade.quantity trades) /\
  forall earlier : list Trade.t,
    update_from_trades (update_from_trades self earlier) trades = self'.
Proof.
  cbv zeta. unfold update_from_trades.
  destruct (trades_fold trades (0, 0)) as (Hb & Hs). cbv zeta in Hb, Hs.
  cbn [fst snd] in Hb, Hs.
  cbn [buy_volume_current sell_volume_current current_delta with_bar_volumes].
  split; [rewrite Hb; ring|]. split; [rewrite Hs; ring|].
  split; [reflexivity|]. split; [|reflexivity].
  rewrite Hb, Hs, <- (sum_by_side trades). ring.
Qed.

Lemma firstn_In {A : Type} (n : nat) (l : list A) (x : A) :
  In x (firstn n l) -> In x l.
Proof.
  intro H. rewrite <- (firstn_skipn n l). apply in_or_app. left. exact H.
Qed.

Lemma Qabs_diff_le_sum (x y : Q) : 0 <= x -> 0 <= y -> Qabs (x - y) <= y + x.
Proof.
  intros Hx Hy. apply Qabs_case; intro H; lra.
Qed.

(** X17. The order book imbalance is a share: with no negative quantity
    in the book the ratio that [update_from_orderbook] stores lies
    between 0 and 1, and the ratio of an analyzer that had one in that
    range stays there whatever the book (a missing or one-sided book
    leaves it as it was). *)
Theorem imbalance_ratio_is_share (self : t)
    (orderbook : option OrderBookSnapshot.t) :
  0 <= current_imbalance_ratio self <= 1 ->
  (forall book, orderbook = Some book ->
     Forall (fun level => 0 <= OrderBookLevel.quantity level)
       (OrderBookSnapshot.bids book ++ OrderBookSnapshot.asks book)) ->
  0 <= current_imbalance_ratio (update_from_orderbook self orderbook) <= 1.
Proof.
  intros Hself Hbook. unfold update_from_orderbook.
  destruct orderbook as [book|]; [|exact Hself].
  specialize (Hbook book eq_refl). apply Forall_app in Hbook.
  destruct Hbook as (Hbids & Hasks).
  destruct (OrderBookSnapshot.bids book) as [|bid bids] eqn:Eb; [exact Hself|].
  destruct (OrderBookSnapshot.asks book) as [|ask asks] eqn:Ea; [exact Hself|].
  set (bid_volume := Py.sum (map OrderBookLevel.quantity (firstn 5 (bid :: bids)))).
  set (ask_volume := Py.sum (map OrderBookLevel.quantity (firstn 5 (ask :: asks)))).
  assert (Hb : 0 <= bid_volume).
  { apply sum_nonneg_list. apply Forall_map.
    apply Forall_forall. intros level Hin.
    rewrite Forall_forall in Hbids. apply Hbids.
    eapply firstn_In. exact Hin. }
  assert (Ha : 0 <= ask_volume).
  { apply sum_nonneg_list. apply Forall_map.
    apply Forall_forall. intros level Hin.
    rewrite Forall_forall in Hasks. apply Hasks.
    eapply firstn_In. exact Hin. }
  destruct (Py.Qlt_bool 0 (bid_volume + ask_volume)) eqn:E;
    cbn [current_imbalance_ratio with_imbalance]; [|lra].
  apply Qlt_bool_iff in E.
  pose proof (Qabs_nonneg (ask_volume - bid_volume)) as H0.
  pose proof (Qabs_diff_le_sum ask_volume bid_volume Ha Hb) as H1.
  split.
  - apply Qle_shift_div_l; [exact E|]. lra.
  - apply Qle_shift_div_r; [exact E|]. lra.
Qed.

Lemma imbalance_ratio_is_share_witness :
  let book := {|
    OrderBookSnapshot.timestamp := 0;
    OrderBookSnapshot.bids :=
      [ {| OrderBookLevel.price := 100; OrderBookLevel.quantity := 8 |} ];
    OrderBookSnapshot.asks :=
      [ {| OrderBookLevel.price := 101; OrderBookLevel.quantity := 2 |} ]
  |} in
  0 <= current_imbalance_ratio (update_from_orderbook example_flow (Some book))
    <= 1.
Proof.
  cbv zeta. apply imbalance_ratio_is_share.
  - cbn. lra.
  - intros book H. injection H as <-. cbn.
    repeat constructor; cbn; lra.
Defined.

End OrderFlowBars.

Section OrderFlowWindows.
Import Models OrderFlowAnalyzer.

Lemma check_absorption_shape (self : t) (price : Q) :
  exists detected p v,
    fst (_check_absorption self price) = with_absorption self detected p v.
Proof.
  unfold _check_absorption, no_absorption.
  repeat match goal with
         | |- context [if ?b then _ else _] => destruct b
         | |- context [match ?r with Ok _ => _ | Raise _ => _ | OutOfFuel => _ end] =>
             destruct r
         end; cbn [fst]; eauto;
    exists (absorption_detected self), (absorption_price self),
      (absorption_volume self); destruct self; reflexivity.
Qed.

(** What [finalize_bar] leaves in the histories and the two counters,
    whether its absorption check raises or not. *)
Lemma finalize_bar_shape (self : t) (price : Q) :
  let self' := fst (finalize_bar self price) in
  let self1 :=
    with_histories self (cumulative_delta self + current_delta self)
      (Py.deque_append 100 (delta_history self) (current_delta self))
      (Py.deque_append 100 (cvd_history self)
         (cumulative_delta self + current_delta self))
      (Py.deque_append (absorption_lookback self) (volume_history self)
         (buy_volume_current self + sell_volume_current self))
      (Py.deque_append (absorption_lookback self) (price_history self) price) in
  delta_history self' = delta_history self1 /\
  cvd_history self' = cvd_history self1 /\
  volume_history self' = volume_history self1 /\
  price_history self' = price_history self1 /\
  absorption_lookback self' = absorption_lookback self /\
  delta_threshold self' = delta_threshold self /\
  consecutive_buy_bars self'
  = consecutive_buy_bars (_update_consecutive_bars (_update_trend self1)) /\
  consecutive_sell_bars self'
  = consecutive_sell_bars (_update_consecutive_bars (_update_trend self1)).
Proof.
  cbv zeta. unfold finalize_bar.
  set (self1 := with_histories self _ _ _ _ _).
  destruct (update_trend_shape self1) as (trend & Ht).
  destruct (update_consecutive_shape (_update_trend self1)) as (b & s & Hc).
  destruct (check_absorption_shape
              (_update_consecutive_bars (_update_trend self1)) price)
    as (d & p & v & Ha).
  destruct (_check_absorption _ price) as [self4 [u|e|]]; cbn [fst] in *;
    subst self4; rewrite Hc, Ht; cbn; repeat split; reflexivity.
Qed.

Lemma last_snoc {A : Type} (l : list A) (x : A) :
  last (map Some (l ++ [x])) None = Some x.
Proof.
  rewrite map_app. cbn [map]. apply last_last.
Qed.

(** X18. [finalize_bar] counts consecutive bars by the delta of the bar it
    closes: a delta above the threshold adds one to the buy count and
    clears the sell count, a delta below minus the threshold (and not
    above the threshold) does the reverse, any other delta clears both.
    This holds also when the absorption check of the call raises. *)
Theorem consecutive_bars_count (self : t) (price : Q) :
  let self' := fst (finalize_bar self price) in
  let delta := current_delta self in
  consecutive_buy_bars self'
  = (if Py.Qlt_bool (delta_threshold self) delta
     then consecutive_buy_bars self + 1 else 0)%Z /\
  consecutive_sell_bars self'
  = (if Py.Qlt_bool (delta_threshold self) delta then 0
     else if Py.Qlt_bool delta (- delta_threshold self)
          then consecutive_sell_bars self + 1 else 0)%Z.
Proof.
  cbv zeta.
  destruct (finalize_bar_shape self price)
    as (_ & _ & _ & _ & _ & _ & -> & ->).
  set (self1 := with_histories self _ _ _ _ _).
  destruct (update_trend_shape self1) as (trend & ->).
  unfold _update_consecutive_bars, is_delta_bullish, is_delta_bearish.
  cbn [delta_history with_trend self1 with_histories delta_threshold
       consecutive_buy_bars consecutive_sell_bars].
  destruct (deque_append_snoc 100 (delta_history self) (current_delta self))
    as (d' & ->); [lia|].
  rewrite last_snoc.
  destruct (Py.Qlt_bool (delta_threshold self) (current_delta self));
    [split; reflexivity|].
  destruct (Py.Qlt_bool (current_delta self) (- delta_threshold self));
    split; reflexivity.
Qed.

Lemma deque_append_length {A : Type} (n : nat) (d : list A) (x : A) :
  length (Py.deque_append n d x) = Nat.min (length d + 1) n.
Proof.
  unfold Py.deque_append. rewrite length_skipn, length_app. cbn [length]. lia.
Qed.

Lemma deque_append_two {A : Type} (n : nat) (d : list A) (x y : A) :
  (2 <= n)%nat ->
  exists d', Py.deque_append n (Py.deque_append n d x) y = d' ++ [x; y].
Proof.
  intro Hn.
  destruct (deque_append_snoc n d x) as (d1 & Hd1); [lia|].
  pose proof (deque_append_length n d x) as Hlen.
  rewrite Hd1 in *. rewrite length_app in Hlen. cbn [length] in Hlen.
  unfold Py.deque_append.
  exists (skipn (length ((d1 ++ [x]) ++ [y]) - n) d1).
  rewrite <- app_assoc. cbn [app]. rewrite skipn_app.
  replace (length (d1 ++ [x; y]) - n - length d1)%nat with 0%nat
    by (rewrite length_app; cbn [length]; lia).
  reflexivity.
Qed.

(** X19. After two bars closed one after the other, [check_delta_flip]
    tells whether their deltas have opposite strict signs: the first
    above zero and the second below, or the reverse.  A bar with a zero
    delta never takes part in a flip. *)
Theorem delta_flip_of_two_bars (self : t) (first second : list Trade.t)
    (price1 price2 : Q) :
  let bar1 := update_from_trades self first in
  let closed1 := fst (finalize_bar bar1 price1) in
  let bar2 := update_from_trades closed1 second in
  let closed2 := fst (finalize_bar bar2 price2) in
  check_delta_flip closed2
  = (Py.Qlt_bool 0 (current_delta bar1) && Py.Qlt_bool (current_delta bar2) 0)
    || (Py.Qlt_bool (current_delta bar1) 0 && Py.Qlt_bool 0 (current_delta bar2)).
Proof.
  cbv zeta. unfold check_delta_flip.
  set (bar1 := update_from_trades self first).
  set (closed1 := fst (finalize_bar bar1 price1)).
  set (bar2 := update_from_trades closed1 second).
  destruct (finalize_bar_shape bar2 price2) as (-> & _).
  destruct (finalize_bar_shape bar1 price1) as (Hd1 & _).
  cbn [delta_history with_histories].
  assert (Hd2 : delta_history bar2 = delta_history closed1) by reflexivity.
  rewrite Hd2. unfold closed1. rewrite Hd1. cbn [delta_history with_histories].
  destruct (deque_append_two 100 (delta_history bar1) (current_delta bar1)
              (current_delta bar2)) as (d' & ->); [lia|].
  rewrite rev_app_distr. reflexivity.
Qed.

(** One call keeps the windows aligned and bounded. *)
Lemma step_windows (self : t) (c : call) :
  length (delta_history self) = length (cvd_history self) ->
  (length (delta_history self) <= 100)%nat ->
  length (volume_history self) = length (price_history self) ->
  (length (volume_history self) <= absorption_lookback self)%nat ->
  let self' := step self c in
  absorption_lookback self' = absorption_lookback self /\
  length (delta_history self') = length (cvd_history self') /\
  (length (delta_history self') <= 100)%nat /\
  length (volume_history self') = length (price_history self') /\
  (length (volume_history self') <= absorption_lookback self)%nat.
Proof.
  intros H1 H2 H3 H4. cbv zeta.
  destruct c as [trades|orderbook|new_oi|price|]; cbn [step].
  - cbn. repeat split; assumption.
  - unfold update_from_orderbook.
    destruct orderbook as [book|];
      [destruct (OrderBookSnapshot.bids book), (OrderBookSnapshot.asks book);
       try destruct (Py.Qlt_bool _ _)|];
      cbn; repeat split; assumption.
  - cbn. repeat split; assumption.
  - destruct (finalize_bar_shape self price)
      as (-> & -> & -> & -> & -> & _).
    cbn [delta_history cvd_history volume_history price_history
         with_histories].
    rewrite !deque_append_length.
    repeat split; lia.
  - cbn. repeat split; lia.
Qed.

(** X20. From a fresh analyzer and over any sequence of calls the delta
    and CVD histories have the same length, at most 100, and the volume
    and price windows have the same length, at most the absorption
    lookback: the windows that the absorption check compares stay
    aligned bar for bar. *)
Theorem windows_stay_aligned (delta_thr : Q) (bars_required trend_lookback : Z)
    (oi_change imbalance_thr volume_mult price_tol : Q) (lookback : nat)
    (calls : list call) :
  let self :=
    run (init delta_thr bars_required trend_lookback oi_change imbalance_thr
           volume_mult price_tol lookback) calls in
  length (delta_history self) = length (cvd_history self) /\
  (length (delta_history self) <= 100)%nat /\
  length (volume_history self) = length (price_history self) /\
  (length (volume_history self) <= lookback)%nat.
Proof.
  cbv zeta.
  set (fresh := init _ _ _ _ _ _ _ _).
  assert (Hinv :
    absorption_lookback fresh = lookback /\
    length (delta_history fresh) = length (cvd_history fresh) /\
    (length (delta_history fresh) <= 100)%nat /\
    length (volume_history fresh) = length (price_history fresh) /\
    (length (volume_history fresh) <= lookback)%nat)
    by (cbn; repeat split; lia).
  revert Hinv. generalize fresh. clear fresh.
  induction calls as [|c rest IH]; intros self (Hl & H1 & H2 & H3 & H4).
  - cbn. auto.
  - cbn [run fold_left]. apply IH.
    rewrite <- Hl in H4.
    destruct (step_windows self c H1 H2 H3 H4) as (Hl' & H1' & H2' & H3' & H4').
    rewrite Hl in Hl', H4'. repeat split; assumption.
Qed.

End OrderFlowWindows.

(** ** utils.py and models.py: nearness, candles, weighted average *)

Section Nearness.
Import Models TPOAnalyzer TPOAnalyzerQueries.

Lemma Qabs_positive (x : Q) : ~ x == 0 -> 0 < Qabs x.
Proof.
  intro H. apply Qabs_case; intro Hx.
  - destruct (Qlt_le_dec 0 x) as [Hlt|Hle]; [exact Hlt|].
    exfalso. apply H. lra.
  - destruct (Qlt_le_dec x 0) as [Hlt|Hle]; [lra|].
    exfalso. apply H. lra.
Qed.

(** [is_near] is a test in percent of the second price. *)
Lemma is_near_iff (price level tolerance : Q) :
  Utils.is_near price level tolerance = true
  <-> within_percent price level tolerance.
Proof.
  unfold Utils.is_near, within_percent.
  destruct (Qeq_bool level 0) eqn:E.
  - apply Qeq_bool_iff in E. split; [discriminate|].
    intros (Hn & _). contradiction.
  - apply Qeq_bool_false_iff in E. rewrite Qle_bool_iff.
    pose proof (Qabs_positive level E) as Hpos.
    assert (Habs : Qabs ((price - level) / level)
                   == Qabs (price - level) / Qabs level).
    { unfold Qdiv. rewrite Qabs_Qmult, Qabs_Qinv. reflexivity. }
    rewrite Habs.
    set (x := Qabs (price - level)) in *. set (d := Qabs level) in *.
    assert (Hd : ~ d == 0) by lra.
    split.
    + intro H. split; [exact E|].
      assert (Hm : x / d * 100 * d <= tolerance * d)
        by (apply Qmult_le_compat_r; [exact H|lra]).
      assert (Hx : x / d * 100 * d == x * 100) by (field; exact Hd).
      rewrite Hx in Hm. exact Hm.
    + intros (_ & H).
      assert (Hx : x / d * 100 == x * 100 / d) by (field; exact Hd).
      rewrite Hx. apply Qle_shift_div_r; assumption.
Qed.

Lemma is_near_false_iff (price level tolerance : Q) :
  Utils.is_near price level tolerance = false
  <-> ~ within_percent price level tolerance.
Proof.
  rewrite <- is_near_iff.
  destruct (Utils.is_near price level tolerance); split; intro H;
    try reflexivity; try discriminate; try (intro; discriminate).
  exfalso. apply H. reflexivity.
Qed.

(** X21. [is_near_key_level] takes the proximity, the product of
    [proximity_ticks] and [tick_size], as a tolerance in percent of the
    level: a price is near a level when its distance from the level is at
    most that many hundredths of the size of the level (and the level is
    not zero).  It answers true exactly when the price is that near to
    VAH, VAL or POC, and names VAH whenever the price is near VAH. *)
Theorem near_key_level_is_percent (self : t) (price : Q)
    (profile : TPOProfile.t) :
  current_profile self = Some profile ->
  let tolerance := proximity_ticks self * tick_size self in
  (fst (is_near_key_level self price) = true <->
   within_percent price (TPOProfile.vah profile) tolerance \/
   within_percent price (TPOProfile.val profile) tolerance \/
   within_percent price (TPOProfile.poc profile) tolerance) /\
  (snd (is_near_key_level self price) = Some "VAH"%string <->
   within_percent price (TPOProfile.vah profile) tolerance) /\
  (fst (is_near_key_level self price) = false <->
   snd (is_near_key_level self price) = None).
Proof.
  intros Hp. cbv zeta. unfold is_near_key_level. rewrite Hp.
  destruct (Utils.is_near price (TPOProfile.vah profile) _) eqn:E1.
  { apply is_near_iff in E1. cbn [fst snd].
    split; [|split]; split; intro H; auto; discriminate. }
  apply is_near_false_iff in E1.
  destruct (Utils.is_near price (TPOProfile.val profile) _) eqn:E2.
  { apply is_near_iff in E2. cbn [fst snd].
    split; [|split]; split; intro H; auto; try discriminate; contradiction. }
  apply is_near_false_iff in E2.
  destruct (Utils.is_near price (TPOProfile.poc profile) _) eqn:E3.
  { apply is_near_iff in E3. cbn [fst snd].
    split; [|split]; split; intro H; auto; try discriminate; contradiction. }
  apply is_near_false_iff in E3. cbn [fst snd].
  split; [|split]; split; intro H; auto; try discriminate; try contradiction.
  destruct H as [H|[H|H]]; contradiction.
Qed.

Lemma near_key_level_is_percent_witness :
  let self := with_current_profile example_session (Some example_profile) in
  (fst (is_near_key_level self 110) = true <->
   within_percent 110 (TPOProfile.vah example_profile)
     (proximity_ticks self * tick_size self) \/
   within_percent 110 (TPOProfile.val example_profile)
     (proximity_ticks self * tick_size self) \/
   within_percent 110 (TPOProfile.poc example_profile)
     (proximity_ticks self * tick_size self)) /\
  (snd (is_near_key_level self 110) = Some "VAH"%string <->
   within_percent 110 (TPOProfile.vah example_profile)
     (proximity_ticks self * tick_size self)) /\
  (fst (is_near_key_level self 110) = false <->
   snd (is_near_key_level self 110) = None).
Proof.
  cbv zeta.
  apply (near_key_level_is_percent
           (with_current_profile example_session (Some example_profile)) 110
           example_profile).
  reflexivity.
Defined.

End Nearness.

Section Candles.
Import Models CandleMethods.

Lemma max_min_diff (x y : Q) : Py.max x y - Py.min x y == Qabs (y - x).
Proof.
  unfold Py.max, Py.min.
  destruct (Py.Qlt_bool x y) eqn:E1; destruct (Py.Qlt_bool y x) eqn:E2;
    rewrite ?Qlt_bool_iff, ?Qlt_bool_false_iff in *;
    apply Qabs_case; intro H; lra.
Qed.

(** X22. Body and wicks take a candle apart: the body size and the two
    wicks add up to the range from low to high, and with open and close
    inside that range no wick is negative and the body is no larger than
    the range. *)
Theorem candle_anatomy (c : Candle.t) :
  Candle.low c <= Candle.open c <= Candle.high c ->
  Candle.low c <= Candle.close c <= Candle.high c ->
  body_size c + upper_wick c + lower_wick c == Candle.high c - Candle.low c /\
  0 <= upper_wick c /\
  0 <= lower_wick c /\
  0 <= body_size c <= Candle.high c - Candle.low c /\
  (is_bullish c = true -> body_size c == Candle.close c - Candle.open c).
Proof.
  intros Ho Hc. unfold body_size, upper_wick, lower_wick, is_bullish.
  pose proof (max_min_diff (Candle.open c) (Candle.close c)) as Hd.
  assert (Hmax : Py.max (Candle.open c) (Candle.close c) <= Candle.high c).
  { unfold Py.max. destruct (Py.Qlt_bool _ _); lra. }
  assert (Hmin : Candle.low c <= Py.min (Candle.open c) (Candle.close c)).
  { unfold Py.min. destruct (Py.Qlt_bool _ _); lra. }
  pose proof (Qabs_nonneg (Candle.close c - Candle.open c)) as Hb.
  repeat split; try lra.
  intro H. apply Qlt_bool_iff in H. apply Qabs_pos. lra.
Qed.

Lemma candle_anatomy_witness :
  body_size ranged_candle + upper_wick ranged_candle + lower_wick ranged_candle
  == Candle.high ranged_candle - Candle.low ranged_candle /\
  0 <= upper_wick ranged_candle /\
  0 <= lower_wick ranged_candle /\
  0 <= body_size ranged_candle
    <= Candle.high ranged_candle - Candle.low ranged_candle /\
  (is_bullish ranged_candle = true ->
   body_size ranged_candle
   == Candle.close ranged_candle - Candle.open ranged_candle).
Proof.
  apply candle_anatomy; cbn; lra.
Defined.

End Candles.

Section WeightedAverage.
Import UtilsStats.

Lemma weighted_sum_between (lo hi : Q) (values : list Q) :
  forall weights : list Q,
    length values = length weights ->
    Forall (fun v => lo <= v /\ v <= hi) values ->
    Forall (fun w => 0 <= w) weights ->
    lo * Py.sum weights
    <= Py.sum (map (fun vw => fst vw * snd vw) (combine values weights)) /\
    Py.sum (map (fun vw => fst vw * snd vw) (combine values weights))
    <= hi * Py.sum weights.
Proof.
  induction values as [|v values IH]; intros [|w weights] Hlen Hv Hw;
    try discriminate.
  - cbn. change (Py.sum []) with 0. lra.
  - inversion Hv as [|? ? (Hlo & Hhi) Hv']; subst.
    inversion Hw as [|? ? Hw0 Hw']; subst.
    injection Hlen as Hlen.
    destruct (IH weights Hlen Hv' Hw') as (H1 & H2).
    cbn [combine map fst snd]. rewrite !sum_cons.
    assert (Ha : lo * w <= v * w) by (apply Qmult_le_compat_r; assumption).
    assert (Hb : v * w <= hi * w) by (apply Qmult_le_compat_r; assumption).
    split; lra.
Qed.

(** X23. With as many weights as values, no negative weight and a
    positive total weight, [weighted_average] lies between the least and
    the greatest value: between any two bounds that hold all the
    values. *)
Theorem weighted_average_between (values weights : list Q) (lo hi : Q) :
  length values = length weights ->
  Forall (fun w => 0 <= w) weights ->
  0 < Py.sum weights ->
  Forall (fun v => lo <= v /\ v <= hi) values ->
  lo <= weighted_average values weights /\
  weighted_average values weights <= hi.
Proof.
  intros Hlen Hw Hpos Hv.
  destruct (weighted_sum_between lo hi values weights Hlen Hv Hw) as (H1 & H2).
  unfold weighted_average.
  destruct values as [|v values], weights as [|w weights]; try discriminate.
  rewrite Hlen, Nat.eqb_refl. cbn [negb].
  assert (E : Qeq_bool (Py.sum (w :: weights)) 0 = false)
    by (apply Qeq_bool_false_iff; lra).
  rewrite E. split.
  - apply Qle_shift_div_l; assumption.
  - apply Qle_shift_div_r; assumption.
Qed.

Lemma weighted_average_between_witness :
  100 <= weighted_average [100; 102; 101] [1; 3; 0] /\
  weighted_average [100; 102; 101] [1; 3; 0] <= 102.
Proof.
  apply weighted_average_between.
  - reflexivity.
  - repeat constructor; cbn; lra.
  - reflexivity.
  - repeat constructor; cbn; lra.
Defined.

End WeightedAverage.

(** ** signal_engine.py: what stands behind a signal, price tracking *)

Section SignalGrounds.
Import Models SignalEngine.

Lemma min_monotone (a b : Q) : a <= b -> Py.min a 1 <= Py.min b 1.
Proof.
  intro H. unfold Py.min.
  destruct (Py.Qlt_bool 1 a) eqn:Ea; destruct (Py.Qlt_bool 1 b) eqn:Eb;
    rewrite ?Qlt_bool_iff, ?Qlt_bool_false_iff in *; lra.
Qed.

Lemma min_positive (a : Q) : 0 < a -> 0 < Py.min a 1.
Proof.
  intro H. unfold Py.min. destruct (Py.Qlt_bool 1 a); lra.
Qed.

(** Takes the tests of an entry check apart and computes. *)
Ltac settle_flags delta_ok cvd_ok oi_ok flow_ok side zone trend :=
  unfold confirmations, long_confirmations, short_confirmations;
  destruct delta_ok, cvd_ok, oi_ok, flow_ok, side, zone, trend; reflexivity.

Lemma long_entry_sound (self self' : t) (time : Z) (price : Q)
    (tpo : option TPOProfile.t) (event : option TPOStructureEvent)
    (vwap : option VWAPData.t) (flow : option OrderFlowMetrics.t)
    (signal : SignalEvent.t) :
  _check_long_entry self time price tpo event vwap flow
  = Ok (self', Some signal) ->
  SignalEvent.signal_type signal = LONG_ENTRY /\
  long_entry_grounds self
    {| current_time := time; current_price := price; tpo_data := tpo;
       tpo_event := event; vwap_data := vwap; orderflow_data := flow |}
    signal.
Proof.
  unfold _check_long_entry, long_entry_grounds. intro H.
  cbn [current_price tpo_event vwap_data orderflow_data].
  destruct (_is_in_cooldown self (last_long_signal_time self) time);
    [discriminate|].
  destruct tpo as [tpo|], vwap as [vwap|], flow as [flow|]; try discriminate.
  cbv zeta in H.
  destruct (is_long_event event) eqn:Ev; cbn [negb] in H; [|discriminate].
  destruct (VWAPData.is_pullback_zone vwap price _) as [pullback| |] eqn:Ez;
    cbn [rbind] in H; try discriminate.
  destruct (Py.div _ _) as [distance| |]; cbn [rbind] in H; try discriminate.
  destruct (Qle_bool (VWAPData.vwap vwap) price || pullback) eqn:Evw;
    cbn [negb] in H; [|discriminate].
  match type of H with
  | (if (?met <? ?needed)%Z then _ else _) = _ =>
      destruct (met <? needed)%Z eqn:Emet; [discriminate|]
  end.
  match type of H with
  | (if Py.Qlt_bool ?conf ?minimum then _ else _) = _ =>
      destruct (Py.Qlt_bool conf minimum) eqn:Econf; [discriminate|]
  end.
  injection H as <- <-.
  cbn [SignalEvent.signal_type SignalEvent.conditions SignalEvent.confidence
       make_signal].
  split; [reflexivity|]. split; [reflexivity|].
  split.
  { settle_flags (Py.Qlt_bool 0 (OrderFlowMetrics.delta flow))
      (is_bullish_trend (OrderFlowMetrics.delta_trend flow))
      (Py.Qlt_bool 0 (OrderFlowMetrics.oi_change_percent flow))
      (2 <=? OrderFlowMetrics.consecutive_buy_bars flow)%Z
      (Qle_bool (VWAPData.vwap vwap) price) pullback
      (Py.Qlt_bool 0 (VWAPData.slope vwap)). }
  exists vwap, flow. split; [reflexivity|]. split; [reflexivity|].
  split.
  { apply orb_true_iff in Evw. destruct Evw as [Ha|Hp].
    - left. apply Qle_bool_iff. exact Ha.
    - right. congruence. }
  split; [apply Z.ltb_ge in Emet; exact Emet|].
  split.
  { clear Emet Econf Evw Ez.
    settle_flags (Py.Qlt_bool 0 (OrderFlowMetrics.delta flow))
      (is_bullish_trend (OrderFlowMetrics.delta_trend flow))
      (Py.Qlt_bool 0 (OrderFlowMetrics.oi_change_percent flow))
      (2 <=? OrderFlowMetrics.consecutive_buy_bars flow)%Z
      (Qle_bool (VWAPData.vwap vwap) price) pullback
      (Py.Qlt_bool 0 (VWAPData.slope vwap)). }
  apply Qlt_bool_false_iff in Econf. apply min_monotone. exact Econf.
Qed.

Lemma short_entry_sound (self self' : t) (time : Z) (price : Q)
    (tpo : option TPOProfile.t) (event : option TPOStructureEvent)
    (vwap : option VWAPData.t) (flow : option OrderFlowMetrics.t)
    (signal : SignalEvent.t) :
  _check_short_entry self time price tpo event vwap flow
  = Ok (self', Some signal) ->
  SignalEvent.signal_type signal = SHORT_ENTRY /\
  short_entry_grounds self
    {| current_time := time; current_price := price; tpo_data := tpo;
       tpo_event := event; vwap_data := vwap; orderflow_data := flow |}
    signal.
Proof.
  unfold _check_short_entry, short_entry_grounds. intro H.
  cbn [current_price tpo_event vwap_data orderflow_data].
  destruct (_is_in_cooldown self (last_short_signal_time self) time);
    [discriminate|].
  destruct tpo as [tpo|], vwap as [vwap|], flow as [flow|]; try discriminate.
  cbv zeta in H.
  destruct (is_short_event event) eqn:Ev; cbn [negb] in H; [|discriminate].
  destruct (VWAPData.is_pullback_zone vwap price _) as [zone| |] eqn:Ez;
    cbn [rbind] in H; try discriminate.
  destruct (Py.div _ _) as [distance| |]; cbn [rbind] in H; try discriminate.
  destruct (Qle_bool price (VWAPData.vwap vwap)
            || zone && Py.Qlt_bool (OrderFlowMetrics.delta flow) 0) eqn:Evw;
    cbn [negb] in H; [|discriminate].
  match type of H with
  | (if (?met <? ?needed)%Z then _ else _) = _ =>
      destruct (met <? needed)%Z eqn:Emet; [discriminate|]
  end.
  match type of H with
  | (if Py.Qlt_bool ?conf ?minimum then _ else _) = _ =>
      destruct (Py.Qlt_bool conf minimum) eqn:Econf; [discriminate|]
  end.
  injection H as <- <-.
  cbn [SignalEvent.signal_type SignalEvent.conditions SignalEvent.confidence
       make_signal].
  split; [reflexivity|]. split; [reflexivity|].
  split.
  { settle_flags (Py.Qlt_bool (OrderFlowMetrics.delta flow) 0)
      (is_bearish_trend (OrderFlowMetrics.delta_trend flow))
      (Py.Qlt_bool 0 (OrderFlowMetrics.oi_change_percent flow))
      (2 <=? OrderFlowMetrics.consecutive_sell_bars flow)%Z
      (Qle_bool price (VWAPData.vwap vwap)) zone
      (Py.Qlt_bool (VWAPData.slope vwap) 0). }
  exists vwap, flow. split; [reflexivity|]. split; [reflexivity|].
  split.
  { apply orb_true_iff in Evw. destruct Evw as [Ha|Hp].
    - left. apply Qle_bool_iff. exact Ha.
    - right. apply andb_true_iff in Hp. destruct Hp as (Hz & Hd).
      apply Qlt_bool_iff in Hd. split; [congruence|exact Hd]. }
  split; [apply Z.ltb_ge in Emet; exact Emet|].
  split.
  { clear Emet Econf Evw Ez.
    settle_flags (Py.Qlt_bool (OrderFlowMetrics.delta flow) 0)
      (is_bearish_trend (OrderFlowMetrics.delta_trend flow))
      (Py.Qlt_bool 0 (OrderFlowMetrics.oi_change_percent flow))
      (2 <=? OrderFlowMetrics.consecutive_sell_bars flow)%Z
      (Qle_bool price (VWAPData.vwap vwap)) zone
      (Py.Qlt_bool (VWAPData.slope vwap) 0). }
  apply Qlt_bool_false_iff in Econf. apply min_monotone. exact Econf.
Qed.

Lemma tracking_config (self : t) (price : Q) :
  long_config (_update_price_tracking self price) = long_config self /\
  short_config (_update_price_tracking self price) = short_config self /\
  failure_config (_update_price_tracking self price) = failure_config self.
Proof. repeat split. Qed.

(** X24. Every entry signal that [check_signals] returns has its grounds
    in the arguments of the call.  A LONG_ENTRY comes with a bullish TPO
    event (VAL bounce, POC reclaim or VAH breakout), a price at or above
    the VWAP or inside the pullback zone, at least three of the four
    bullish order-flow confirmations (all four when the configuration
    requires all), which are the ones its conditions record, and a
    confidence of at least the configured minimum (capped at 1).  A
    SHORT_ENTRY comes with the mirrored grounds. *)
Theorem entry_signal_grounds (self self' : t) (c : check)
    (signal : SignalEvent.t) :
  check_with self c = (self', Ok (Some signal)) ->
  match SignalEvent.signal_type signal with
  | LONG_ENTRY => long_entry_grounds self c signal
  | SHORT_ENTRY => short_entry_grounds self c signal
  | LONG_FAILURE | SHORT_FAILURE => True
  end.
Proof.
  destruct c as [time price tpo event vwap flow].
  unfold check_with, check_signals.
  cbn [current_time current_price tpo_data tpo_event vwap_data orderflow_data].
  set (self1 := _update_price_tracking self price).
  pose proof (check_failure_patterns_spec self1 time price tpo vwap flow) as Hf.
  destruct (_check_failure_patterns self1 time price tpo vwap flow)
    as [self2 [failure|]] eqn:Ef; cbn [fst snd] in Hf; unfold emits_for in Hf.
  { intro H. injection H as <- <-.
    destruct Hf as (_ & _ & Hcat & _).
    destruct (SignalEvent.signal_type failure); try discriminate; exact I. }
  subst self2.
  destruct (_check_long_entry self1 time price tpo event vwap flow)
    as [[self3 [long|]]| |] eqn:El; try discriminate.
  { intro H. injection H as <- <-.
    destruct (long_entry_sound _ _ _ _ _ _ _ _ _ El) as (-> & Hg).
    exact Hg. }
  pose proof (check_long_entry_spec _ _ _ _ _ _ _ _ _ El) as Hl.
  unfold emits_for in Hl. subst self3.
  destruct (_check_short_entry self1 time price tpo event vwap flow)
    as [[self4 short]| |] eqn:Es; try discriminate.
  intro H. injection H as <- ->.
  destruct (short_entry_sound _ _ _ _ _ _ _ _ _ Es) as (-> & Hg).
  exact Hg.
Qed.

Lemma entry_signal_grounds_witness :
  let r := check_with example_engine (breakout_at 1700000000000) in
  exists signal,
    r = (fst r, Ok (Some signal)) /\
    SignalEvent.signal_type signal = LONG_ENTRY /\
    long_entry_grounds example_engine (breakout_at 1700000000000) signal.
Proof.
  intro r. eexists.
  assert (H : r = (fst r, Ok (Some _))) by (vm_compute; reflexivity).
  split; [exact H|]. split; [reflexivity|].
  exact (entry_signal_grounds example_engine _ _ _ H).
Defined.

Lemma near_either (price a b : Q) :
  Utils.is_near price a 0.2 || Utils.is_near price b 0.2 = true ->
  within_percent price a 0.2 \/ within_percent price b 0.2.
Proof.
  intro H. apply orb_true_iff in H.
  destruct H as [H|H]; apply is_near_iff in H; auto.
Qed.

Lemma upside_failure_sound (self : t) (price : Q) (tpo : TPOProfile.t)
    (vwap : VWAPData.t) (flow : OrderFlowMetrics.t)
    (before after : SignalConditions.t) (score : Q) :
  _check_upside_failure self price tpo vwap flow before = (score, after) ->
  ~ score == 0 ->
  SignalConditions.tpo_event after = Some VAH_REJECTION /\
  (within_percent price (TPOProfile.vah tpo) 0.2 \/
   within_percent price (VWAPData.upper_1std vwap) 0.2) /\
  (exists high, recent_high self = Some high /\ high * 0.998 <= price) /\
  FailureConfig.min_confidence (failure_config self) <= score /\
  0 < score.
Proof.
  unfold _check_upside_failure. intros H Hnz.
  destruct (Utils.is_near price (TPOProfile.vah tpo) 0.2
            || Utils.is_near price (VWAPData.upper_1std vwap) 0.2) eqn:En;
    cbn [negb] in H.
  2:{ injection H as <- _. exfalso. apply Hnz. reflexivity. }
  destruct (recent_high self) as [high|] eqn:Eh.
  2:{ cbn [negb] in H. injection H as <- _. exfalso. apply Hnz. reflexivity. }
  destruct (truthy (Some high) && Qle_bool (high * 0.998) price) eqn:Ea;
    cbn [negb] in H.
  2:{ injection H as <- _. exfalso. apply Hnz. reflexivity. }
  cbv zeta in H.
  match type of H with
  | (if Py.Qlt_bool ?conf ?minimum then _ else _) = _ =>
      destruct (Py.Qlt_bool conf minimum) eqn:Econf
  end.
  { injection H as <- _. exfalso. apply Hnz. reflexivity. }
  injection H as <- <-.
  apply Qlt_bool_false_iff in Econf.
  apply andb_true_iff in Ea. destruct Ea as (_ & Ea).
  apply Qle_bool_iff in Ea.
  split.
  { unfold mark.
    destruct (OrderFlowMetrics.absorption_detected flow),
      (negb (is_bullish_trend (OrderFlowMetrics.delta_trend flow))),
      (Py.Qlt_bool (OrderFlowMetrics.delta flow) 0); reflexivity. }
  split; [apply near_either; exact En|].
  split; [exists high; split; [reflexivity|exact Ea]|].
  split; [exact Econf|].
  unfold bump.
  destruct (OrderFlowMetrics.absorption_detected flow),
    (negb (is_bullish_trend (OrderFlowMetrics.delta_trend flow))),
    (Py.Qlt_bool (OrderFlowMetrics.delta flow) 0); reflexivity.
Qed.

Lemma downside_failure_sound (self : t) (price : Q) (tpo : TPOProfile.t)
    (vwap : VWAPData.t) (flow : OrderFlowMetrics.t)
    (before after : SignalConditions.t) (score : Q) :
  _check_downside_failure self price tpo vwap flow before = (score, after) ->
  ~ score == 0 ->
  SignalConditions.tpo_event after = Some VAL_BOUNCE /\
  (within_percent price (TPOProfile.val tpo) 0.2 \/
   within_percent price (VWAPData.lower_1std vwap) 0.2) /\
  (exists low, recent_low self = Some low /\ price <= low * 1.002) /\
  FailureConfig.min_confidence (failure_config self) <= score /\
  0 < score.
Proof.
  unfold _check_downside_failure. intros H Hnz.
  destruct (Utils.is_near price (TPOProfile.val tpo) 0.2
            || Utils.is_near price (VWAPData.lower_1std vwap) 0.2) eqn:En;
    cbn [negb] in H.
  2:{ injection H as <- _. exfalso. apply Hnz. reflexivity. }
  destruct (recent_low self) as [low|] eqn:Eh.
  2:{ cbn [negb] in H. injection H as <- _. exfalso. apply Hnz. reflexivity. }
  destruct (truthy (Some low) && Qle_bool price (low * 1.002)) eqn:Ea;
    cbn [negb] in H.
  2:{ injection H as <- _. exfalso. apply Hnz. reflexivity. }
  cbv zeta in H.
  match type of H with
  | (if Py.Qlt_bool ?conf ?minimum then _ else _) = _ =>
      destruct (Py.Qlt_bool conf minimum) eqn:Econf
  end.
  { injection H as <- _. exfalso. apply Hnz. reflexivity. }
  injection H as <- <-.
  apply Qlt_bool_false_iff in Econf.
  apply andb_true_iff in Ea. destruct Ea as (_ & Ea).
  apply Qle_bool_iff in Ea.
  split.
  { unfold mark.
    destruct (OrderFlowMetrics.absorption_detected flow),
      (negb (is_bearish_trend (OrderFlowMetrics.delta_trend flow))),
      (Py.Qlt_bool 0 (OrderFlowMetrics.delta flow)); reflexivity. }
  split; [apply near_either; exact En|].
  split; [exists low; split; [reflexivity|exact Ea]|].
  split; [exact Econf|].
  unfold bump.
  destruct (OrderFlowMetrics.absorption_detected flow),
    (negb (is_bearish_trend (OrderFlowMetrics.delta_trend flow))),
    (Py.Qlt_bool 0 (OrderFlowMetrics.delta flow)); reflexivity.
Qed.

(** The tracked extremes hold the price of the call. *)
Lemma tracking_bounds (self : t) (price : Q) :
  exists high low,
    recent_high (_update_price_tracking self price) = Some high /\
    recent_low (_update_price_tracking self price) = Some low /\
    low <= price /\ price <= high /\
    (high = price \/ recent_high self = Some high) /\
    (low = price \/ recent_low self = Some low) /\
    (forall h, recent_high self = Some h -> h <= high) /\
    (forall l, recent_low self = Some l -> low <= l).
Proof.
  unfold _update_price_tracking. cbn [recent_high recent_low with_recent].
  destruct (recent_high self) as [h|]; destruct (recent_low self) as [l|];
    try destruct (Py.Qlt_bool h price) eqn:E1;
    try destruct (Py.Qlt_bool price l) eqn:E2;
    rewrite ?Qlt_bool_iff, ?Qlt_bool_false_iff in *;
    eexists _, _; (split; [reflexivity|]); (split; [reflexivity|]);
    repeat split; auto; try lra;
    try (intros x Hx; injection Hx as <-; lra);
    try (intros x Hx; discriminate).
Qed.

(** X25. Every failure signal that [check_signals] returns has its
    grounds in the call and in the prices the engine has seen.  A
    SHORT_FAILURE (a failed move up) comes with a price within 0.2
    percent of VAH or of the upper one-sigma band and at most 0.2 percent
    below the highest price tracked so far; a LONG_FAILURE with a price
    within 0.2 percent of VAL or of the lower band and at most 0.2
    percent above the lowest price tracked.  Either has a positive
    confidence of at least the configured minimum (capped at 1) and
    records the event VAH_REJECTION or VAL_BOUNCE. *)
Theorem failure_signal_grounds (self self' : t) (c : check)
    (signal : SignalEvent.t) :
  check_with self c = (self', Ok (Some signal)) ->
  match SignalEvent.signal_type signal with
  | SHORT_FAILURE => upside_failure_grounds self c signal
  | LONG_FAILURE => downside_failure_grounds self c signal
  | LONG_ENTRY | SHORT_ENTRY => True
  end.
Proof.
  destruct c as [time price tpo event vwap flow].
  unfold check_with, check_signals, upside_failure_grounds,
    downside_failure_grounds.
  cbn [current_time current_price tpo_data tpo_event vwap_data orderflow_data].
  destruct (tracking_bounds self price)
    as (high & low & Hh & Hl & Hlow & Hhigh & _).
  set (self1 := _update_price_tracking self price) in *.
  destruct (_check_failure_patterns self1 time price tpo vwap flow)
    as [self2 [failure|]] eqn:Ef.
  - intro H. injection H as <- <-.
    unfold _check_failure_patterns in Ef.
    destruct (_is_in_cooldown _ _ _); [discriminate|].
    destruct tpo as [tpo|], vwap as [vwap|], flow as [flow|];
      try discriminate.
    destruct (_check_upside_failure self1 price tpo vwap flow
                SignalConditions.default) as [up c1] eqn:Eu.
    destruct (Qeq_bool up 0) eqn:Eup; cbn [negb] in Ef.
    + destruct (_check_downside_failure self1 price tpo vwap flow c1)
        as [down c2] eqn:Ed.
      destruct (Qeq_bool down 0) eqn:Edown; cbn [negb] in Ef;
        [discriminate|].
      injection Ef as <- <-.
      apply Qeq_bool_false_iff in Edown.
      destruct (downside_failure_sound _ _ _ _ _ _ _ _ Ed Edown)
        as (Hev & Hnear & (low' & Hlow' & Hat) & Hmin & Hpos).
      cbn [SignalEvent.signal_type SignalEvent.conditions
           SignalEvent.confidence make_signal].
      split; [exact Hev|]. exists tpo, vwap, low.
      assert (low' = low) by congruence. subst low'.
      repeat split; try assumption; try reflexivity.
      * apply min_monotone. exact Hmin.
      * apply min_positive. exact Hpos.
    + injection Ef as <- <-.
      apply Qeq_bool_false_iff in Eup.
      destruct (upside_failure_sound _ _ _ _ _ _ _ _ Eu Eup)
        as (Hev & Hnear & (high' & Hhigh' & Hat) & Hmin & Hpos).
      cbn [SignalEvent.signal_type SignalEvent.conditions
           SignalEvent.confidence make_signal].
      split; [exact Hev|]. exists tpo, vwap, high.
      assert (high' = high) by congruence. subst high'.
      repeat split; try assumption; try reflexivity.
      * apply min_monotone. exact Hmin.
      * apply min_positive. exact Hpos.
  - pose proof (check_failure_patterns_spec self1 time price tpo vwap flow)
      as Hf.
    rewrite Ef in Hf. cbn [fst snd] in Hf. unfold emits_for in Hf.
    subst self2.
    destruct (_check_long_entry self1 time price tpo event vwap flow)
      as [[self3 [long|]]| |] eqn:El; try discriminate.
    { intro H. injection H as <- <-.
      destruct (long_entry_sound _ _ _ _ _ _ _ _ _ El) as (-> & _).
      exact I. }
    destruct (_check_short_entry self3 time price tpo event vwap flow)
      as [[self4 short]| |] eqn:Es; try discriminate.
    intro H. injection H as <- ->.
    destruct (short_entry_sound _ _ _ _ _ _ _ _ _ Es) as (-> & _).
    exact I.
Qed.

Lemma failure_signal_grounds_witness :
  let r := check_with example_engine (rejection_at 1700000000000) in
  exists signal,
    r = (fst r, Ok (Some signal)) /\
    SignalEvent.signal_type signal = SHORT_FAILURE /\
    upside_failure_grounds example_engine (rejection_at 1700000000000) signal.
Proof.
  intro r. eexists.
  assert (H : r = (fst r, Ok (Some _))) by (vm_compute; reflexivity).
  split; [exact H|]. split; [reflexivity|].
  exact (failure_signal_grounds example_engine _ _ _ H).
Defined.

End SignalGrounds.

Section SignalTracking.
Import Models SignalEngine.

(** X26. A call of [check_signals] that lacks the profile, the VWAP data
    or the order-flow metrics returns no signal and does not raise; it
    only takes the price into the tracked high and low. *)
Theorem no_data_no_signal (self : t) (c : check) :
  tpo_data c = None \/ vwap_data c = None \/ orderflow_data c = None ->
  check_with self c = (_update_price_tracking self (current_price c), Ok None).
Proof.
  destruct c as [time price tpo event vwap flow].
  cbn [tpo_data vwap_data orderflow_data current_price].
  intro H. unfold check_with, check_signals.
  cbn [current_time current_price tpo_data tpo_event vwap_data orderflow_data].
  set (self1 := _update_price_tracking self price).
  assert (Hf : _check_failure_patterns self1 time price tpo vwap flow
               = (self1, None)).
  { unfold _check_failure_patterns.
    destruct (_is_in_cooldown _ _ _); [reflexivity|].
    destruct H as [-> |[-> | ->]]; [|destruct tpo|destruct tpo, vwap];
      reflexivity. }
  assert (Hl : _check_long_entry self1 time price tpo event vwap flow
               = Ok (self1, None)).
  { unfold _check_long_entry.
    destruct (_is_in_cooldown _ _ _); [reflexivity|].
    destruct H as [-> |[-> | ->]]; [|destruct tpo|destruct tpo, vwap];
      reflexivity. }
  assert (Hs : _check_short_entry self1 time price tpo event vwap flow
               = Ok (self1, None)).
  { unfold _check_short_entry.
    destruct (_is_in_cooldown _ _ _); [reflexivity|].
    destruct H as [-> |[-> | ->]]; [|destruct tpo|destruct tpo, vwap];
      reflexivity. }
  rewrite Hf, Hl, Hs. reflexivity.
Qed.

Lemma no_data_no_signal_witness :
  check_with example_engine (bare_check 1700000000000 100)
  = (_update_price_tracking example_engine 100, Ok None).
Proof.
  apply (no_data_no_signal example_engine (bare_check 1700000000000 100)).
  left. reflexivity.
Defined.

(** The checks leave the tracked prices as the tracking step set them. *)
Lemma check_with_recent (self : t) (c : check) :
  recent_high (fst (check_with self c))
  = recent_high (_update_price_tracking self (current_price c)) /\
  recent_low (fst (check_with self c))
  = recent_low (_update_price_tracking self (current_price c)).
Proof.
  destruct c as [time price tpo event vwap flow].
  unfold check_with, check_signals.
  cbn [current_time current_price tpo_data tpo_event vwap_data orderflow_data].
  set (self1 := _update_price_tracking self price).
  pose proof (check_failure_patterns_spec self1 time price tpo vwap flow) as Hf.
  destruct (_check_failure_patterns self1 time price tpo vwap flow)
    as [self2 [failure|]]; cbn [fst snd] in Hf; unfold emits_for in Hf.
  { destruct Hf as (_ & _ & _ & _ & _ & ->). split; reflexivity. }
  subst self2.
  destruct (_check_long_entry self1 time price tpo event vwap flow)
    as [[self3 long]| |] eqn:El; try (split; reflexivity).
  pose proof (check_long_entry_spec _ _ _ _ _ _ _ _ _ El) as Hl.
  unfold emits_for in Hl.
  destruct long as [long|].
  { destruct Hl as (_ & _ & _ & _ & _ & ->). split; reflexivity. }
  subst self3.
  destruct (_check_short_entry self1 time price tpo event vwap flow)
    as [[self4 short]| |] eqn:Es; try (split; reflexivity).
  pose proof (check_short_entry_spec _ _ _ _ _ _ _ _ _ Es) as Hs.
  unfold emits_for in Hs.
  destruct short as [short|].
  { destruct Hs as (_ & _ & _ & _ & _ & ->). split; reflexivity. }
  subst self4. split; reflexivity.
Qed.

Lemma after_checks_cons (self : t) (c : check) (rest : list check) :
  after_checks self (c :: rest) = after_checks (fst (check_with self c)) rest.
Proof. reflexivity. Qed.

Lemma tracked_extremes_run (calls : list check) :
  forall (self : t) (high0 low0 : Q),
    recent_high self = Some high0 ->
    recent_low self = Some low0 ->
    exists high low,
      recent_high (after_checks self calls) = Some high /\
      recent_low (after_checks self calls) = Some low /\
      high0 <= high /\ low <= low0 /\
      Forall (fun c => low <= current_price c /\ current_price c <= high)
        calls /\
      (high = high0 \/ In high (map current_price calls)) /\
      (low = low0 \/ In low (map current_price calls)).
Proof.
  induction calls as [|c rest IH]; intros self high0 low0 Hh Hl.
  - exists high0, low0. cbn. repeat split; auto; lra.
  - rewrite after_checks_cons.
    destruct (check_with_recent self c) as (Eh & El).
    destruct (tracking_bounds self (current_price c))
      as (h1 & l1 & Hh1 & Hl1 & Hlo & Hhi & Hhc & Hlc & Hhm & Hlm).
    rewrite <- Eh in Hh1. rewrite <- El in Hl1.
    destruct (IH _ h1 l1 Hh1 Hl1)
      as (high & low & H1 & H2 & H3 & H4 & H5 & H6 & H7).
    specialize (Hhm high0 Hh). specialize (Hlm low0 Hl).
    exists high, low. split; [exact H1|]. split; [exact H2|].
    split; [lra|]. split; [lra|].
    split; [constructor; [lra|exact H5]|].
    cbn [map]. split.
    + destruct H6 as [-> |H6]; [|right; right; exact H6].
      destruct Hhc as [-> |Hhc]; [right; left; reflexivity|].
      left. congruence.
    + destruct H7 as [-> |H7]; [|right; right; exact H7].
      destruct Hlc as [-> |Hlc]; [right; left; reflexivity|].
      left. congruence.
Qed.

(** X27. The high and the low that the engine tracks are the highest and
    the lowest price of all the calls of [check_signals] it has served,
    raising calls included: once set they are never reset, the high only
    rises and the low only falls.  Stated for an engine that has tracked
    nothing yet. *)
Theorem tracked_extremes (self : t) (calls : list check) :
  recent_high self = None ->
  recent_low self = None ->
  calls <> [] ->
  exists high low,
    recent_high (after_checks self calls) = Some high /\
    recent_low (after_checks self calls) = Some low /\
    Forall (fun c => low <= current_price c /\ current_price c <= high)
      calls /\
    In high (map current_price calls) /\
    In low (map current_price calls).
Proof.
  intros Hh Hl Hne. destruct calls as [|c rest]; [contradiction|].
  rewrite after_checks_cons.
  destruct (check_with_recent self c) as (Eh & El).
  destruct (tracking_bounds self (current_price c))
    as (h1 & l1 & Hh1 & Hl1 & Hlo & Hhi & Hhc & Hlc & _).
  rewrite <- Eh in Hh1. rewrite <- El in Hl1.
  destruct Hhc as [-> |Hhc]; [|congruence].
  destruct Hlc as [-> |Hlc]; [|congruence].
  destruct (tracked_extremes_run rest _ _ _ Hh1 Hl1)
    as (high & low & H1 & H2 & H3 & H4 & H5 & H6 & H7).
  exists high, low. split; [exact H1|]. split; [exact H2|].
  split; [constructor; [lra|exact H5]|].
  cbn [map]. split.
  - destruct H6 as [-> |H6]; [left; reflexivity|right; exact H6].
  - destruct H7 as [-> |H7]; [left; reflexivity|right; exact H7].
Qed.

Lemma tracked_extremes_witness :
  let calls := [ bare_check 1700000000000 100; breakout_at 1700000060000;
                 bare_check 1700000120000 97 ] in
  exists high low,
    recent_high (after_checks example_engine calls) = Some high /\
    recent_low (after_checks example_engine calls) = Some low /\
    Forall (fun c => low <= current_price c /\ current_price c <= high)
      calls /\
    In high (map current_price calls) /\
    In low (map current_price calls).
Proof.
  cbv zeta. apply tracked_extremes.
  - reflexivity.
  - reflexivity.
  - discriminate.
Defined.

End SignalTracking.

(** ** alert_manager.py: the throttle *)

Section AlertThrottle.
Import Models AlertModels AlertManager.

Lemma fingerprint_of_window (a b : t) (signal : SignalEvent.t) :
  duplicate_window a = duplicate_window b ->
  _get_alert_fingerprint a signal = _get_alert_fingerprint b signal.
Proof.
  intro H. unfold _get_alert_fingerprint, window_bucket. rewrite H.
  reflexivity.
Qed.

Lemma set_mem_add (x : string) (s : list string) :
  set_mem x (set_add x s) = true.
Proof.
  unfold set_add. destruct (set_mem x s) eqn:E; [exact E|].
  unfold set_mem. cbn [existsb]. rewrite String.eqb_refl. reflexivity.
Qed.

Lemma set_add_length (x : string) (s : list string) :
  (Py.len (set_add x s) <= Py.len s + 1)%Z.
Proof.
  unfold set_add, Py.len. destruct (set_mem x s); cbn [length]; lia.
Qed.

Lemma send_disabled (self : t) (signal : SignalEvent.t) :
  enabled self = false -> send_signal_alert self signal = (self, None, Ok tt).
Proof. intro H. unfold send_signal_alert. rewrite H. reflexivity. Qed.

Lemma send_all_disabled (signals : list SignalEvent.t) (self : t) :
  enabled self = false -> send_all self signals = (self, []).
Proof.
  intro H. induction signals as [|signal rest IH]; [reflexivity|].
  cbn [send_all]. rewrite (send_disabled self signal H), IH. reflexivity.
Qed.

(** One call with the throttle on, once the check has settled on the
    hour [reset]: the hour and the settings stay, the counter rises by
    one exactly when an alert is handed over, and none is handed over at
    the limit. *)
Lemma send_counts (self : t) (signal : SignalEvent.t) (count : Z)
    (reset : Z) :
  throttle_enabled self = true ->
  enabled self = true ->
  (match hour_reset_time self with
   | None => count = 0%Z /\ reset = SignalEvent.timestamp signal
   | Some reset_time =>
       if (3600000 <? SignalEvent.timestamp signal - reset_time)%Z
       then count = 0%Z /\ reset = SignalEvent.timestamp signal
       else count = hourly_alert_count self /\ reset = reset_time
   end) ->
  exists self' alert outcome,
    send_signal_alert self signal = (self', alert, outcome) /\
    throttle_enabled self' = true /\
    enabled self' = true /\
    max_alerts_per_hour self' = max_alerts_per_hour self /\
    duplicate_window self' = duplicate_window self /\
    hour_reset_time self' = Some reset /\
    hourly_alert_count self'
    = (count + match alert with Some _ => 1 | None => 0 end)%Z /\
    (alert <> None -> (count < max_alerts_per_hour self)%Z) /\
    (alert <> None ->
     outcome = Ok tt /\
     exists fingerprint,
       _get_alert_fingerprint self signal = Ok fingerprint /\
       ((Py.len (recent_alerts self) < 100)%Z ->
        set_mem fingerprint (recent_alerts self') = true)).
Proof.
  intros Ht He Hhour. unfold send_signal_alert, _check_throttle.
  rewrite He, Ht. cbn [negb].
  set (self1 := match hour_reset_time self with
                | None => with_hour self 0 (Some (SignalEvent.timestamp signal))
                | Some reset_time =>
                    if (3600000 <? SignalEvent.timestamp signal - reset_time)%Z
                    then with_hour self 0 (Some (SignalEvent.timestamp signal))
                    else self
                end).
  assert (H1 : throttle_enabled self1 = true /\ enabled self1 = true /\
               max_alerts_per_hour self1 = max_alerts_per_hour self /\
               duplicate_window self1 = duplicate_window self /\
               recent_alerts self1 = recent_alerts self /\
               hour_reset_time self1 = Some reset /\
               hourly_alert_count self1 = count).
  { unfold self1. destruct (hour_reset_time self) as [reset_time|] eqn:Eh.
    - destruct (3600000 <? SignalEvent.timestamp signal - reset_time)%Z;
        destruct Hhour as (-> & ->); cbn; repeat split; try assumption;
        reflexivity.
    - destruct Hhour as (-> & ->). cbn. repeat split; assumption. }
  clearbody self1.
  destruct H1 as (Ht1 & He1 & Hm1 & Hw1 & Hr1 & Hh1 & Hc1).
  destruct (max_alerts_per_hour self1 <=? hourly_alert_count self1)%Z eqn:Emax.
  { eexists _, _, _. split; [reflexivity|].
    repeat split; try assumption; try (rewrite Hc1; lia);
      intros; exfalso; congruence. }
  apply Z.leb_gt in Emax.
  rewrite (fingerprint_of_window self1 self signal Hw1).
  destruct (_get_alert_fingerprint self signal) as [fingerprint| |] eqn:Ef.
  2,3: eexists _, _, _; (split; [reflexivity|]);
       repeat split; try assumption; try (rewrite Hc1; lia);
       intros; exfalso; congruence.
  destruct (set_mem fingerprint (recent_alerts self1)) eqn:Emem; cbn [negb].
  { eexists _, _, _. split; [reflexivity|].
    repeat split; try assumption; try (rewrite Hc1; lia);
      intros; exfalso; congruence. }
  unfold _track_alert.
  rewrite (fingerprint_of_window
             (with_tracked self1 (hourly_alert_count self1 + 1)
                (recent_alerts self1)) self signal) by exact Hw1.
  rewrite Ef.
  eexists _, _, _. split; [reflexivity|].
  cbn [throttle_enabled enabled max_alerts_per_hour duplicate_window
       hour_reset_time hourly_alert_count recent_alerts with_tracked].
  do 5 (split; [assumption|]).
  split; [rewrite Hc1; lia|].
  split; [intros _; rewrite <- Hm1, <- Hc1; exact Emax|].
  intros _. split; [reflexivity|].
  exists fingerprint. split; [reflexivity|].
  intro Hlen. rewrite Hr1.
  pose proof (set_add_length fingerprint (recent_alerts self)) as Hadd.
  replace (100 <? Py.len (set_add fingerprint (recent_alerts self)))%Z
    with false by (symmetry; apply Z.ltb_ge; lia).
  apply set_mem_add.
Qed.

Lemma send_all_within_hour (signals : list SignalEvent.t) :
  forall (self : t) (reset : Z),
    throttle_enabled self = true ->
    enabled self = true ->
    hour_reset_time self = Some reset ->
    (hourly_alert_count self <= max_alerts_per_hour self)%Z ->
    Forall (fun s => (SignalEvent.timestamp s - reset <= 3600000)%Z) signals ->
    (Z.of_nat (length (snd (send_all self signals))) + hourly_alert_count self
     <= max_alerts_per_hour self)%Z.
Proof.
  induction signals as [|signal rest IH]; intros self reset Ht He Hh Hc Hall.
  - cbn. lia.
  - inversion Hall as [|? ? Hs Hrest]; subst.
    destruct (send_counts self signal (hourly_alert_count self) reset Ht He)
      as (self1 & alert & outcome & Hsend & Ht1 & He1 & Hm1 & _ & Hh1 & Hc1
          & Hlimit & _).
    { rewrite Hh.
      replace (3600000 <? SignalEvent.timestamp signal - reset)%Z with false
        by (symmetry; apply Z.ltb_ge; lia).
      split; reflexivity. }
    cbn [send_all]. rewrite Hsend.
    specialize (IH self1 reset Ht1 He1 Hh1).
    destruct (send_all self1 rest) as [self2 alerts]. cbn [snd] in *.
    rewrite Hm1 in IH.
    destruct alert as [priority|]; cbn [length].
    + assert (hourly_alert_count self < max_alerts_per_hour self)%Z
        by (apply Hlimit; discriminate).
      specialize (IH ltac:(lia) Hrest). lia.
    + specialize (IH ltac:(lia) Hrest). lia.
Qed.

(** X28. With the throttle on, no more than [max_alerts_per_hour] alerts
    are handed to the channels within an hour of the first signal a
    manager sees: of a sequence of signals whose timestamps are at most
    3 600 000 ms after the first one, at most that many are alerted,
    whatever their order and content. *)
Theorem hourly_alert_cap (self : t) (first : SignalEvent.t)
    (rest : list SignalEvent.t) :
  throttle_enabled self = true ->
  hour_reset_time self = None ->
  (0 <= max_alerts_per_hour self)%Z ->
  Forall (fun s => (SignalEvent.timestamp s - SignalEvent.timestamp first
                    <= 3600000)%Z) rest ->
  (Z.of_nat (length (snd (send_all self (first :: rest))))
   <= max_alerts_per_hour self)%Z.
Proof.
  intros Ht Hh Hmax Hall.
  destruct (enabled self) eqn:He.
  2:{ rewrite send_all_disabled by exact He. cbn. exact Hmax. }
  destruct (send_counts self first 0 (SignalEvent.timestamp first) Ht He)
    as (self1 & alert & outcome & Hsend & Ht1 & He1 & Hm1 & _ & Hh1 & Hc1
        & Hlimit & _).
  { rewrite Hh. split; reflexivity. }
  cbn [send_all]. rewrite Hsend.
  pose proof (send_all_within_hour rest self1 (SignalEvent.timestamp first)
                Ht1 He1 Hh1) as Hrest.
  destruct (send_all self1 rest) as [self2 alerts]. cbn [snd] in *.
  rewrite Hm1 in Hrest.
  destruct alert as [priority|]; cbn [length].
  - assert (0 < max_alerts_per_hour self)%Z by (apply Hlimit; discriminate).
    specialize (Hrest ltac:(lia) Hall). lia.
  - specialize (Hrest ltac:(lia) Hall). lia.
Qed.

Lemma hourly_alert_cap_witness :
  let signals :=
    [ example_signal 1700000000000 LONG_ENTRY;
      example_signal 1700000400000 SHORT_ENTRY;
      example_signal 1700000800000 LONG_FAILURE;
      example_signal 1700001200000 SHORT_FAILURE;
      example_signal 1700001600000 LONG_ENTRY ] in
  (Z.of_nat (length (snd (send_all example_manager signals)))
   <= max_alerts_per_hour example_manager)%Z.
Proof.
  cbv zeta. apply hourly_alert_cap.
  - reflexivity.
  - reflexivity.
  - cbn. lia.
  - repeat constructor; cbn; lia.
Defined.

(** X29. With the throttle on, a signal is not alerted twice: once an
    alert has been handed over for a signal, the next signal with the
    same symbol, type and duplicate-window bucket gets none and the call
    returns normally.  This holds while the set of remembered
    fingerprints held fewer than 100 before the first alert; past 100
    entries the set is emptied and the protection starts anew. *)
Theorem duplicate_alert_suppressed (self self1 : t) (s1 s2 : SignalEvent.t)
    (priority : AlertPriority) (outcome : result unit) :
  throttle_enabled self = true ->
  (Py.len (recent_alerts self) < 100)%Z ->
  send_signal_alert self s1 = (self1, Some priority, outcome) ->
  same_alert self s1 s2 ->
  exists self2, send_signal_alert self1 s2 = (self2, None, Ok tt).
Proof.
  intros Ht Hlen Hsend (Hsym & Hkind & Hbucket).
  destruct (enabled self) eqn:He.
  2:{ rewrite send_disabled in Hsend by exact He. discriminate. }
  set (count := match hour_reset_time self with
                | None => 0%Z
                | Some reset_time =>
                    if (3600000 <? SignalEvent.timestamp s1 - reset_time)%Z
                    then 0%Z else hourly_alert_count self
                end).
  set (reset := match hour_reset_time self with
                | None => SignalEvent.timestamp s1
                | Some reset_time =>
                    if (3600000 <? SignalEvent.timestamp s1 - reset_time)%Z
                    then SignalEvent.timestamp s1 else reset_time
                end).
  destruct (send_counts self s1 count reset Ht He)
    as (self1' & alert & outcome' & Hsend' & Ht1 & He1 & Hm1 & Hw1 & Hh1
        & Hc1 & _ & Hsent).
  { unfold count, reset. destruct (hour_reset_time self) as [reset_time|];
      [destruct (3600000 <? _ - _)%Z|]; split; reflexivity. }
  rewrite Hsend in Hsend'. injection Hsend' as <- <- <-.
  destruct Hsent as (_ & fingerprint & Hf & Hmem); [discriminate|].
  specialize (Hmem Hlen).
  assert (Hf2 : _get_alert_fingerprint self s2 = Ok fingerprint).
  { rewrite <- Hf. unfold _get_alert_fingerprint.
    rewrite <- Hbucket, <- Hsym, <- Hkind. reflexivity. }
  unfold send_signal_alert, _check_throttle. rewrite He1, Ht1. cbn [negb].
  set (self2 := match hour_reset_time self1 with
                | None => with_hour self1 0 (Some (SignalEvent.timestamp s2))
                | Some reset_time =>
                    if (3600000 <? SignalEvent.timestamp s2 - reset_time)%Z
                    then with_hour self1 0 (Some (SignalEvent.timestamp s2))
                    else self1
                end).
  assert (H2 : duplicate_window self2 = duplicate_window self /\
               recent_alerts self2 = recent_alerts self1).
  { unfold self2. destruct (hour_reset_time self1) as [reset_time|];
      [destruct (3600000 <? _ - _)%Z|]; cbn; auto. }
  destruct H2 as (Hw2 & Hr2).
  exists self2.
  destruct (max_alerts_per_hour self2 <=? hourly_alert_count self2)%Z;
    [reflexivity|].
  rewrite (fingerprint_of_window self2 self s2 Hw2), Hf2, Hr2, Hmem.
  reflexivity.
Qed.

Lemma duplicate_alert_suppressed_witness :
  let s1 := example_signal 1700000000000 LONG_ENTRY in
  let s2 := example_signal 1700000060000 LONG_ENTRY in
  let r := send_signal_alert example_manager s1 in
  exists self2, send_signal_alert (fst (fst r)) s2 = (self2, None, Ok tt).
Proof.
  cbv zeta.
  apply (duplicate_alert_suppressed example_manager _
           (example_signal 1700000000000 LONG_ENTRY)
           (example_signal 1700000060000 LONG_ENTRY) HIGH (Ok tt)).
  - reflexivity.
  - cbn. lia.
  - vm_compute. reflexivity.
  - repeat split; vm_compute; reflexivity.
Defined.

End AlertThrottle.
